(** * Stock Data Visualizer: a shallow embedding of [app.py]

    The pipeline of [app.py] (date utilities, series normalizer, range
    filter, label thinner, chart builder, document assembler and [main])
    is transcribed function by function.

    Conventions of the embedding.
    - A Python [str] is a [string] holding its UTF-8 bytes, which on ASCII
      text are its characters; comparisons are taken on the codes, and the
      digit class of the date regex is the ASCII one.  Python's [\d] and
      [int] also take the decimal digits of the other scripts: the date
      reader is Python's on ASCII text, and wherever it returns a date.
    - A Python [int] is a [Z]; [//] is [Z.div] and [%] is [Z.modulo], both
      rounding towards minus infinity as Python's do.
    - A call that may raise returns a [result]: [Ret v] or [Raise e].
      [sys.exit] raises [SystemExit], which [except Exception] lets through.
    - What the program takes from its interpreter, its libraries and the
      outside world without [app.py] fixing it (the builtin [float], the
      case maps of [str], the network, pygal's renderer, lxml's parser and
      serializer, the file system) is a field of the class [Host]: the
      theorems hold on every host.  [datetime.strptime] and the text check
      of lxml's [.text], on which statements depend, are written out. *)

From Stdlib Require Import ZArith Bool List Ascii String Lia Sorted
  Permutation.
Import ListNotations.

Set Warnings "-register-all".

Local Open Scope string_scope.
Local Open Scope Z_scope.

(** ** Exceptions and results *)

Inductive exn_kind : Type :=
| ValueError | TypeError | AttributeError | OverflowError
| ZeroDivisionError | EOFError | SystemExit | LibraryError.

(** An exception: its class and what [str(e)] prints. *)
Record exn : Type := MkExn { exn_class : exn_kind; exn_msg : string }.

(** [SystemExit] derives from [BaseException] only. *)
Definition is_Exception (e : exn) : bool :=
  match exn_class e with SystemExit => false | _ => true end.

Inductive result (A : Type) : Type :=
| Ret (a : A)
| Raise (e : exn).
Arguments Ret {A} a.
Arguments Raise {A} e.

Definition bind {A B : Type} (r : result A) (k : A -> result B) : result B :=
  match r with Ret a => k a | Raise e => Raise e end.

Declare Scope result_scope.
Delimit Scope result_scope with result.
Notation "x <- r ;; k" := (bind r (fun x => k))
  (at level 61, r at next level, right associativity) : result_scope.

Definition returns {A : Type} (r : result A) : Prop := exists a, r = Ret a.

Definition raises {A : Type} (r : result A) (k : exn_kind) : Prop :=
  exists e, r = Raise e /\ exn_class e = k.

(** ** Text *)

Module Text.

Definition code (c : ascii) : Z := Z.of_nat (nat_of_ascii c).

(** A character class [[lo-hi]]. *)
Definition in_range (lo hi c : ascii) : bool :=
  (code lo <=? code c) && (code c <=? code hi).

(** The regex class [\d]. *)
Definition is_digit (c : ascii) : bool := in_range "0" "9" c.

Definition digit_val (c : ascii) : Z := code c - 48.

Definition digit_char (n : Z) : ascii := ascii_of_nat (Z.to_nat (48 + n)).

(** What [str.isspace] accepts among the ASCII characters. *)
Definition is_space (c : ascii) : bool :=
  ((9 <=? code c) && (code c <=? 13)) || ((28 <=? code c) && (code c <=? 32)).

Fixpoint lstrip (s : string) : string :=
  match s with
  | String c r => if is_space c then lstrip r else s
  | EmptyString => s
  end.

(** Horner's rule over a run of decimal digits; [None] on anything else. *)
Fixpoint digits_value (acc : Z) (s : string) : option Z :=
  match s with
  | EmptyString => Some acc
  | String c r =>
      if is_digit c then digits_value (10 * acc + digit_val c) r else None
  end.

(** [int(s)] on the text a date group can hold: blanks, then decimal
    digits.  Anything else is a [ValueError]. *)
Definition py_int (s : string) : result Z :=
  match lstrip s with
  | EmptyString => Raise (MkExn ValueError "invalid literal for int()")
  | t => match digits_value 0 t with
         | Some n => Ret n
         | None => Raise (MkExn ValueError "invalid literal for int()")
         end
  end.

(** [s1 > s2] on [str]: lexicographic on the characters' codes. *)
Definition str_gt (s1 s2 : string) : bool :=
  match String.compare s1 s2 with Gt => true | _ => false end.

(** [x in [..]] for a list of strings. *)
Definition mem (x : string) (l : list string) : bool :=
  existsb (String.eqb x) l.

(** Two decimal digits, zero padded ([%02d]), and four ([%04d]). *)
Definition pad2 (n : Z) : string :=
  String (digit_char (n / 10)) (String (digit_char (n mod 10)) "").

Definition pad4 (n : Z) : string :=
  String (digit_char (n / 1000))
    (String (digit_char (n / 100 mod 10))
       (String (digit_char (n / 10 mod 10))
          (String (digit_char (n mod 10)) ""))).

Definition str1 (n : Z) : string := String (digit_char n) "".

End Text.

(** ** [datetime.date] and [datetime.datetime] *)

Record date : Type := MkDate { d_year : Z; d_month : Z; d_day : Z }.

Record datetime : Type := MkDatetime {
  year : Z; month : Z; day : Z;
  hour : Z; minute : Z; second : Z; microsecond : Z }.

(** [datetime.date()] *)
Definition datetime_date (t : datetime) : date :=
  MkDate (year t) (month t) (day t).

(** Both classes compare as the tuples of their fields do. *)
Fixpoint tuple_compare (a b : list Z) : comparison :=
  match a, b with
  | [], [] => Eq
  | [], _ :: _ => Lt
  | _ :: _, [] => Gt
  | x :: a', y :: b' =>
      match Z.compare x y with Eq => tuple_compare a' b' | c => c end
  end.

Definition date_tuple (d : date) : list Z := [d_year d; d_month d; d_day d].

Definition datetime_tuple (t : datetime) : list Z :=
  [year t; month t; day t; hour t; minute t; second t; microsecond t].

Definition date_le (a b : date) : bool :=
  match tuple_compare (date_tuple a) (date_tuple b) with
  | Gt => false | _ => true end.

Definition datetime_lt (a b : datetime) : bool :=
  match tuple_compare (datetime_tuple a) (datetime_tuple b) with
  | Lt => true | _ => false end.

Definition datetime_le (a b : datetime) : Prop :=
  tuple_compare (datetime_tuple a) (datetime_tuple b) <> Gt.

Definition is_leap (y : Z) : bool :=
  (y mod 4 =? 0) && (negb (y mod 100 =? 0) || (y mod 400 =? 0)).

Definition days_in_month (y m : Z) : Z :=
  if m =? 2 then (if is_leap y then 29 else 28)
  else if (m =? 4) || (m =? 6) || (m =? 9) || (m =? 11) then 30
  else 31.

(** The range check of the [date] constructor. *)
Definition valid_ymd (y m d : Z) : bool :=
  (1 <=? y) && (y <=? 9999) && (1 <=? m) && (m <=? 12)
  && (1 <=? d) && (d <=? days_in_month y m).

(** ** [datetime.strptime(s, "%Y-%m-%d")]

    [_strptime] compiles the format to the regular expression
    [(?P<Y>\d\d\d\d)-(?P<m>1[0-2]|0[1-9]|[1-9])-(?P<d>3[0-1]|[1-2]\d|0[1-9]|[1-9]| [1-9])],
    matches it at the start of the text, refuses text left over, converts
    the three groups with [int] and builds the date, whose constructor
    checks the ranges.  Each failure is a [ValueError]. *)

Module Strptime.
Import Text.

(** A group's matches at the head of [s], most preferred first: the text
    matched and the text left. *)
Definition matches : Type := list (string * string).

Definition take2 (p1 p2 : ascii -> bool) (s : string) : matches :=
  match s with
  | String c1 (String c2 r) =>
      if p1 c1 && p2 c2 then [(String c1 (String c2 ""), r)] else []
  | _ => []
  end.

Definition take1 (p : ascii -> bool) (s : string) : matches :=
  match s with
  | String c r => if p c then [(String c "", r)] else []
  | _ => []
  end.

Definition chr (c : ascii) : ascii -> bool := Ascii.eqb c.

(** [\d\d\d\d] *)
Definition re_Y (s : string) : matches :=
  match s with
  | String c1 (String c2 (String c3 (String c4 r))) =>
      if is_digit c1 && is_digit c2 && is_digit c3 && is_digit c4
      then [(String c1 (String c2 (String c3 (String c4 ""))), r)]
      else []
  | _ => []
  end.

(** [1[0-2]|0[1-9]|[1-9]] *)
Definition re_m (s : string) : matches :=
  (take2 (chr "1") (in_range "0" "2") s
   ++ take2 (chr "0") (in_range "1" "9") s
   ++ take1 (in_range "1" "9") s)%list.

(** [3[0-1]|[1-2]\d|0[1-9]|[1-9]| [1-9]] *)
Definition re_d (s : string) : matches :=
  (take2 (chr "3") (in_range "0" "1") s
   ++ take2 (in_range "1" "2") is_digit s
   ++ take2 (chr "0") (in_range "1" "9") s
   ++ take1 (in_range "1" "9") s
   ++ take2 (chr " ") (in_range "1" "9") s)%list.

(** The literal [-]. *)
Definition re_dash (s : string) : list string :=
  match s with
  | String c r => if chr "-" c then [r] else []
  | _ => []
  end.

Record found : Type := MkFound {
  grp_Y : string; grp_m : string; grp_d : string; unconverted : string }.

(** Every way [(?P<m>..)-(?P<d>..)] matches a prefix of [s], in the order
    a backtracking matcher tries them: the groups and the text left. *)
Definition month_day_matches (s : string) : list (string * string * string) :=
  flat_map (fun '(gm, r1) =>
    flat_map (fun r2 =>
      map (fun '(gd, r3) => (gm, gd, r3)) (re_d r2))
      (re_dash r1))
    (re_m s).

(** The same for the whole expression. *)
Definition all_matches (s : string) : list found :=
  flat_map (fun '(gY, r1) =>
    flat_map (fun r2 =>
      map (fun '(gm, gd, r3) => MkFound gY gm gd r3) (month_day_matches r2))
      (re_dash r1))
    (re_Y s).

(** [format_regex.match(data_string)] *)
Definition regex_match (s : string) : option found := hd_error (all_matches s).

Definition strptime (s : string) : result datetime :=
  match regex_match s with
  | None => Raise (MkExn ValueError "time data does not match format")
  | Some f =>
      match unconverted f with
      | String _ _ => Raise (MkExn ValueError "unconverted data remains")
      | EmptyString =>
          (y <- py_int (grp_Y f) ;;
           m <- py_int (grp_m f) ;;
           d <- py_int (grp_d f) ;;
           if valid_ymd y m d then Ret (MkDatetime y m d 0 0 0 0)
           else Raise (MkExn ValueError "date value out of range"))%result
      end
  end.

End Strptime.

(** ** Date utilities *)

Definition validate_date (s : string) : result bool :=
  match Strptime.strptime s with
  | Ret _ => Ret true
  | Raise e =>
      match exn_class e with
      | ValueError => Ret false
      | _ => Raise e
      end
  end.

Definition to_date (s : string) : result date :=
  (t <- Strptime.strptime s ;; Ret (datetime_date t))%result.

(** ** Granularity tables *)

Definition function_for (ts : string) : result string :=
  if (ts =? "DAILY")%string then Ret "TIME_SERIES_DAILY"
  else if (ts =? "WEEKLY")%string then Ret "TIME_SERIES_WEEKLY"
  else if (ts =? "MONTHLY")%string then Ret "TIME_SERIES_MONTHLY"
  else Raise (MkExn ValueError "Unsupported time series").

Definition series_key_for (fn : string) : result string :=
  if (fn =? "TIME_SERIES_DAILY")%string then Ret "Time Series (Daily)"
  else if (fn =? "TIME_SERIES_WEEKLY")%string then Ret "Weekly Time Series"
  else if (fn =? "TIME_SERIES_MONTHLY")%string then Ret "Monthly Time Series"
  else Raise (MkExn ValueError "Unsupported function").

(** ** Values decoded from JSON

    What [r.json()] hands back: [None], [bool], [int], [float], [str],
    [list] and [dict].  A [dict] keeps its items in insertion order, and
    [.items()] walks them in that order, so it is an association list;
    a key is looked up by its first occurrence. *)

Inductive json (F : Type) : Type :=
| JNull
| JBool (b : bool)
| JInt (z : Z)
| JFloat (f : F)
| JStr (s : string)
| JList (l : list (json F))
| JDict (d : list (string * json F)).
Arguments JNull {F}.
Arguments JBool {F} b.
Arguments JInt {F} z.
Arguments JFloat {F} f.
Arguments JStr {F} s.
Arguments JList {F} l.
Arguments JDict {F} d.

Fixpoint dict_get {V : Type} (k : string) (d : list (string * V)) : option V :=
  match d with
  | [] => None
  | (k', v) :: d' => if (k =? k')%string then Some v else dict_get k d'
  end.

Definition is_JStr {F : Type} (s : string) (v : json F) : bool :=
  match v with JStr t => (s =? t)%string | _ => false end.

Definition substring_of (needle hay : string) : bool :=
  match String.index 0 needle hay with Some _ => true | None => false end.

(** [s in v] for a string [s]: a key of a dict, an item of a list, a
    substring of a string; the other values are not containers. *)
Definition py_contains {F : Type} (s : string) (v : json F) : result bool :=
  match v with
  | JDict d => Ret (match dict_get s d with Some _ => true | None => false end)
  | JList l => Ret (existsb (is_JStr s) l)
  | JStr t => Ret (substring_of s t)
  | _ => Raise (MkExn TypeError "argument is not iterable")
  end.

(** [v[s]] for a string [s], called where [s in v] holds. *)
Definition py_getitem {F : Type} (v : json F) (s : string) : result (json F) :=
  match v with
  | JDict d =>
      match dict_get s d with
      | Some x => Ret x
      | None => Raise (MkExn LibraryError "KeyError")
      end
  | _ => Raise (MkExn TypeError "indices must be integers")
  end.

(** [list(v.keys())], [v.items()] and [v.get(k, None)] exist on a dict only. *)
Definition py_keys {F : Type} (v : json F) : result (list string) :=
  match v with
  | JDict d => Ret (map fst d)
  | _ => Raise (MkExn AttributeError "object has no attribute 'keys'")
  end.

Definition py_items {F : Type} (v : json F) : result (list (string * json F)) :=
  match v with
  | JDict d => Ret d
  | _ => Raise (MkExn AttributeError "object has no attribute 'items'")
  end.

Definition py_get {F : Type} (v : json F) (k : string) : result (json F) :=
  match v with
  | JDict d => Ret (match dict_get k d with Some x => x | None => JNull end)
  | _ => Raise (MkExn AttributeError "object has no attribute 'get'")
  end.

(** ** Element trees (lxml) *)

Inductive element : Type :=
| Element (tag : string) (attrib : list (string * string))
    (text : option string) (children : list element) (tail : option string).

Definition el_tag (e : element) : string := let 'Element t _ _ _ _ := e in t.
Definition el_attrib (e : element) : list (string * string) :=
  let 'Element _ a _ _ _ := e in a.
Definition el_text (e : element) : option string :=
  let 'Element _ _ t _ _ := e in t.
Definition el_children (e : element) : list element :=
  let 'Element _ _ _ c _ := e in c.

(** ** Charts (pygal) *)

Inductive chart_kind : Type := Line | Bar.

Record chart (F : Type) : Type := MkChart {
  kind : chart_kind;
  show_minor_x_labels : bool;
  x_label_rotation : Z;
  show_legend : bool;
  title : string;
  x_labels : list string;
  x_labels_major : list (option string);
  y_title : string;
  series : list (string * list F) }.
Arguments MkChart {F}.

(** ** The host: interpreter builtins, libraries and the outside world *)

Record response (F : Type) : Type := MkResponse {
  status_code : Z;
  response_json : result (json F) }.
Arguments MkResponse {F}.
Arguments status_code {F}.
Arguments response_json {F}.

Class Host : Type := {
  (** Python's [float] type, [float(s)] on a [str] ([None]: [ValueError])
      and on an [int] ([None]: [OverflowError]). *)
  pyfloat : Type;
  float_of_str : string -> option pyfloat;
  float_of_int : Z -> option pyfloat;
  (** [str.upper], [str.lower], [str.title]. *)
  str_upper : string -> string;
  str_lower : string -> string;
  str_title : string -> string;
  (** [datetime.strftime("%Y-%m-%d")]. *)
  strftime_ymd : datetime -> string;
  (** [os.environ.get], [os.path.abspath]. *)
  environ : string -> option string;
  abspath : string -> string;
  (** [requests.get(url, params=.., timeout=..)]. *)
  requests_get : string -> list (string * string) -> Z -> result (response pyfloat);
  (** [chart.render(is_unicode=True)]. *)
  pygal_render : chart pyfloat -> result string;
  (** [etree.fromstring(text.encode("utf-8"))] and
      [etree.tostring(el, pretty_print=True, encoding="unicode")]. *)
  etree_fromstring : string -> result element;
  etree_tostring : element -> string;
  (** Writing a text file and [webbrowser.open]. *)
  file_write : string -> string -> result unit;
  webbrowser_open : string -> result unit }.

(** ** Input and output *)

Inductive printable `{Host} : Type :=
| PStr (s : string)
| PInt (z : Z)
| PKeys (l : list string)
| PJson (v : json pyfloat)
| PExn (e : exn).
Arguments PStr {_} s.
Arguments PInt {_} z.
Arguments PKeys {_} l.
Arguments PJson {_} v.
Arguments PExn {_} e.

Inductive event `{Host} : Type :=
| EvPrompt (prompt : string)
| EvPrint (args : list printable)
| EvHttpGet (url : string) (params : list (string * string))
| EvWrite (fname text : string)
| EvOpen (url : string).
Arguments EvPrompt {_} prompt.
Arguments EvPrint {_} args.
Arguments EvHttpGet {_} url params.
Arguments EvWrite {_} fname text.
Arguments EvOpen {_} url.

(** The lines still to be typed and what has happened so far, oldest first. *)
Record world `{Host} : Type := MkWorld { stdin : list string; events : list event }.
Arguments MkWorld {_} stdin events.

Definition io `{Host} (A : Type) : Type := world -> result A * world.

Section IO.
Context `{Host}.

Definition io_ret {A : Type} (a : A) : io A := fun w => (Ret a, w).

Definition io_bind {A B : Type} (m : io A) (k : A -> io B) : io B :=
  fun w => match m w with
           | (Ret a, w') => k a w'
           | (Raise e, w') => (Raise e, w')
           end.

Definition lift {A : Type} (r : result A) : io A := fun w => (r, w).

Definition emit (e : event) : io unit :=
  fun w => (Ret tt, MkWorld (stdin w) (events w ++ [e])).

Definition print (args : list printable) : io unit := emit (EvPrint args).

(** [input(prompt)]: end of input raises [EOFError]. *)
Definition input (prompt : string) : io string :=
  fun w =>
    let w1 := MkWorld (stdin w) (events w ++ [EvPrompt prompt]) in
    match stdin w with
    | line :: rest => (Ret line, MkWorld rest (events w1))
    | [] => (Raise (MkExn EOFError "EOF when reading a line"), w1)
    end.

Definition sys_exit {A : Type} (status : Z) : io A :=
  lift (Raise (MkExn SystemExit "1")).

(** [try: body except Exception as e: handler(e)] *)
Definition try_except {A : Type} (body : io A) (handler : exn -> io A) : io A :=
  fun w => match body w with
           | (Raise e, w') =>
               if is_Exception e then handler e w' else (Raise e, w')
           | r => r
           end.

End IO.

Declare Scope io_scope.
Delimit Scope io_scope with io.
Notation "x <- m ;; k" := (io_bind m (fun x => k))
  (at level 61, m at next level, right associativity) : io_scope.
Notation "m ;; k" := (io_bind m (fun _ => k))
  (at level 61, right associativity) : io_scope.

(** ** Python's integer division *)

Definition py_floordiv (a b : Z) : result Z :=
  if b =? 0 then Raise (MkExn ZeroDivisionError "integer division or modulo by zero")
  else Ret (a / b).

(** ** Label thinner *)

Fixpoint enumerate_from {A : Type} (i : Z) (l : list A) : list (Z * A) :=
  match l with
  | [] => []
  | x :: r => (i, x) :: enumerate_from (i + 1) r
  end.

Definition enumerate {A : Type} (l : list A) : list (Z * A) := enumerate_from 0 l.

(** The list handed back holds a label or [None] at each position; the
    unchanged list holds every label. *)
Definition thin_labels {A : Type} (labels : list A) (max_labels : Z)
  : result (list (option A)) :=
  let n := Z.of_nat (List.length labels) in
  if n <=? max_labels then Ret (map Some labels)
  else
    (q <- py_floordiv n max_labels ;;
     let step := Z.max 1 q in
     Ret (map (fun '(i, lbl) =>
                 if (i mod step =? 0) || (i =? n - 1) then Some lbl else None)
            (enumerate labels)))%result.

Definition default_max_labels : Z := 12.

(** ** Range filter *)

Definition filter_range {F : Type} (rows : list (datetime * F)) (start_d end_d : date)
  : list (datetime * F) :=
  filter (fun '(ts, c) =>
            date_le start_d (datetime_date ts) && date_le (datetime_date ts) end_d)
    rows.

(** ** [list.sort(key=..)]

    The sort is stable and compares keys with [<] only; its result is the
    one stable ordering, which insertion from the right computes. *)

Section Sort.
Context {A : Type} (key : A -> datetime).

Fixpoint insert_by_key (x : A) (l : list A) : list A :=
  match l with
  | [] => [x]
  | y :: l' =>
      if datetime_lt (key y) (key x) then y :: insert_by_key x l'
      else x :: l
  end.

Fixpoint sort_by_key (l : list A) : list A :=
  match l with
  | [] => []
  | x :: l' => insert_by_key x (sort_by_key l')
  end.
End Sort.

(** ** The XML text check of lxml

    Assigning [.text] encodes the string to UTF-8 and raises [ValueError]
    unless the bytes are XML compatible: no control character other than
    tab, line feed and carriage return, and none of the encodings of
    U+FFFE, U+FFFF and the surrogates. *)

Module Xml.
Import Text.

Definition is_char_ch (c : ascii) : bool :=
  (code c =? 9) || (code c =? 10) || (code c =? 13) || (32 <=? code c).

Definition forbidden3 (a b c : ascii) : bool :=
  let n := 65536 * code a + 256 * code b + code c in
  (n =? 15712190) || (n =? 15712191) || ((15573120 <=? n) && (n <=? 15581119)).

Fixpoint compatible (s : string) : bool :=
  match s with
  | EmptyString => true
  | String a r =>
      (if code a <? 128 then is_char_ch a
       else match r with
            | String b (String c _) => negb (forbidden3 a b c)
            | _ => true
            end)
      && compatible r
  end.

Definition set_text (e : element) (t : string) : result element :=
  if compatible t
  then Ret (let 'Element tag a _ c tl := e in Element tag a (Some t) c tl)
  else Raise (MkExn ValueError "All strings must be XML compatible")%string.

Definition new (tag : string) (attrib : list (string * string)) : element :=
  Element tag attrib None [] None.

Definition with_children (e : element) (c : list element) : element :=
  let 'Element tag a t _ tl := e in Element tag a t c tl.

End Xml.

Definition nl : string := String (ascii_of_nat 10) "".

(** U+2014 in UTF-8. *)
Definition em_dash : string :=
  String (ascii_of_nat 226) (String (ascii_of_nat 128) (String (ascii_of_nat 148) "")).

Definition API_URL : string := "https://www.alphavantage.co/query".

Section Pipeline.
Context `{Host}.

Definition API_KEY : string :=
  match environ "ALPHAVANTAGE_API_KEY" with
  | Some k => k
  | None => "ISKC9Q4DFAEBJCTB"
  end.

Definition row : Type := (datetime * pyfloat)%type.

(** *** [fetch_data] *)

Definition fetch_data (symbol fn : string) : io (json pyfloat) :=
  (let params := [("function", fn); ("symbol", symbol); ("apikey", API_KEY);
                  ("datatype", "json"); ("outputsize", "full")] in
   emit (EvHttpGet API_URL params) ;;
   r <- lift (requests_get API_URL params 30) ;;
   if negb (status_code r =? 200)
   then print [PStr "Error fetching data:"; PInt (status_code r)] ;; sys_exit 1
   else
     data <- lift (response_json r) ;;
     has_error <- lift (py_contains "Error Message" data) ;;
     if has_error : bool
     then msg <- lift (py_getitem data "Error Message") ;;
          print [PStr "API Error:"; PJson msg] ;; sys_exit 1
     else
       has_note <- lift (py_contains "Note" data) ;;
       if has_note : bool
       then print [PStr "API Note (rate limited). Please wait ~1 minute and try again."] ;;
            sys_exit 1
       else io_ret data)%io.

(** *** [parse_close_series] *)

(** [float(v)] *)
Definition py_float (v : json pyfloat) : result pyfloat :=
  match v with
  | JStr s =>
      match float_of_str s with
      | Some f => Ret f
      | None => Raise (MkExn ValueError "could not convert string to float")
      end
  | JFloat f => Ret f
  | JInt z =>
      match float_of_int z with
      | Some f => Ret f
      | None => Raise (MkExn OverflowError "int too large to convert to float")
      end
  | JBool b =>
      match float_of_int (Z.b2z b) with
      | Some f => Ret f
      | None => Raise (MkExn OverflowError "int too large to convert to float")
      end
  | _ => Raise (MkExn TypeError "float() argument must be a string or a real number")
  end.

(** The loop over [data[key].items()], [rows] being the list built so far. *)
Fixpoint collect_rows (items : list (string * json pyfloat)) (rows : list row)
  : result (list row) :=
  match items with
  | [] => Ret rows
  | (k, v) :: rest =>
      (ts <- Strptime.strptime k ;;
       close_str <- py_get v "4. close" ;;
       match close_str with
       | JNull => collect_rows rest rows
       | _ =>
           match py_float close_str with
           | Ret close_val => collect_rows rest (rows ++ [(ts, close_val)])
           | Raise e =>
               match exn_class e with
               | ValueError => collect_rows rest rows
               | _ => Raise e
               end
           end
       end)%result
  end.

Definition parse_close_series (data : json pyfloat) (fn : string) : io (list row) :=
  (key <- lift (series_key_for fn) ;;
   present <- lift (py_contains key data) ;;
   if negb present
   then ks <- lift (py_keys data) ;;
        print [PStr "Unexpected API response. missing key:"; PKeys ks] ;;
        sys_exit 1
   else
     sv <- lift (py_getitem data key) ;;
     items <- lift (py_items sv) ;;
     rows <- lift (collect_rows items []) ;;
     io_ret (sort_by_key fst rows))%io.

(** *** [make_chart] *)

Definition make_chart (symbol ts_label chart_type : string) (rows : list row)
  : result string :=
  (let title := symbol ++ " " ++ em_dash ++ " " ++ ts_label in
   let x_labels := map (fun '(d, _c) => strftime_ymd d) rows in
   let closes := map (fun '(_d, c) => c) rows in
   major <- thin_labels x_labels default_max_labels ;;
   pygal_render
     (MkChart (if (chart_type =? "line")%string then Line else Bar)
        false 20 false title x_labels major "Close (USD)"
        [("Close", closes)]))%result.

(** *** [wrap_html] *)

Definition style_rules : string :=
  "body{font-family:Arial,Helvetica,sans-serif;margin:24px;} .chart{max-width:1000px;}".

(** The text of the fallback block. *)
Definition embed_error_text (e : exn) (svg_text : string) : string :=
  "(SVG embed error: " ++ exn_msg e ++ ")" ++ nl ++ nl ++ svg_text.

(** The chart container's child: the parsed image, or the fallback block. *)
Definition embed (svg_text : string) : result element :=
  match etree_fromstring svg_text with
  | Ret svg_el => Ret svg_el
  | Raise e =>
      if is_Exception e
      then Xml.set_text (Xml.new "pre" []) (embed_error_text e svg_text)
      else Raise e
  end.

(** The tree [wrap_html] hands to the serializer. *)
Definition wrap_html_tree (svg_text page_title : string) : result element :=
  (let meta := Xml.new "meta" [("charset", "utf-8")] in
   title_el <- Xml.set_text (Xml.new "title" []) page_title ;;
   style <- Xml.set_text (Xml.new "style" []) style_rules ;;
   let head := Xml.with_children (Xml.new "head" []) [meta; title_el; style] in
   h1 <- Xml.set_text (Xml.new "h1" []) page_title ;;
   child <- embed svg_text ;;
   let chart_div := Xml.with_children (Xml.new "div" [("class", "chart")]) [child] in
   let body := Xml.with_children (Xml.new "body" []) [h1; chart_div] in
   Ret (Xml.with_children (Xml.new "html" []) [head; body]))%result.

Definition wrap_html (svg_text page_title : string) : result string :=
  (html <- wrap_html_tree svg_text page_title ;; Ret (etree_tostring html))%result.

(** *** [save_and_open] *)

Definition save_and_open (html_text symbol : string) : io unit :=
  (let fname := symbol ++ "_chart.html" in
   lift (file_write fname html_text) ;;
   emit (EvWrite fname html_text) ;;
   let url := "file://" ++ abspath fname in
   emit (EvOpen url) ;;
   lift (webbrowser_open url))%io.

(** *** [main] *)

Definition run_pipeline (stock_symbol chart_type time_series start_date end_date : string)
  : io unit :=
  (fn <- lift (function_for time_series) ;;
   data <- fetch_data stock_symbol fn ;;
   rows <- parse_close_series data fn ;;
   start_d <- lift (to_date start_date) ;;
   end_d <- lift (to_date end_date) ;;
   match filter_range rows start_d end_d with
   | [] => print [PStr "No data in that date range."]
   | rows =>
       svg <- lift (make_chart stock_symbol (str_title time_series) chart_type rows) ;;
       let page_title :=
         stock_symbol ++ " " ++ em_dash ++ " " ++ str_title time_series
         ++ " " ++ em_dash ++ " " ++ start_date ++ " to " ++ end_date in
       html_text <- lift (wrap_html svg page_title) ;;
       save_and_open html_text stock_symbol ;;
       print [PStr "Chart generated and opened in your browser."]
   end)%io.

Definition main : io unit :=
  (print [PStr "=== Stock Data Visualizer ==="] ;;
   s1 <- input "Enter stock symbol (e.g., AAPL, GOOGL): " ;;
   let stock_symbol := str_upper s1 in
   s2 <- input "Enter chart type (line, bar): " ;;
   let chart_type := str_lower s2 in
   s3 <- input "Enter time series (daily, weekly, monthly): " ;;
   let time_series := str_upper s3 in
   start_date <- input "Enter start date (YYYY-MM-DD): " ;;
   end_date <- input "Enter end date (YYYY-MM-DD): " ;;
   ok1 <- lift (validate_date start_date) ;;
   ok2 <- (if ok1 : bool then lift (validate_date end_date) else io_ret true) ;;
   if negb ok1 || negb ok2
   then print [PStr "Invalid date format. Please use YYYY-MM-DD."]
   else if Text.str_gt start_date end_date
   then print [PStr "Start date must be before end date."]
   else if negb (Text.mem chart_type ["line"; "bar"])
   then print [PStr "Invalid chart type. Please choose 'line' or 'bar'."]
   else if negb (Text.mem time_series ["DAILY"; "WEEKLY"; "MONTHLY"])
   then print [PStr "Invalid time series. Please choose 'daily', 'weekly', or 'monthly'."]
   else
     try_except
       (run_pipeline stock_symbol chart_type time_series start_date end_date)
       (fun e => print [PStr "Something went wrong:"; PExn e]))%io.

End Pipeline.

(** ** A host for the examples

    A test double: ASCII case maps, a reader of plain decimal literals for
    [float], and canned answers from the network and the libraries.  The
    theorems below quantify over every host; this one only runs examples. *)

Module Demo.
Import Text.

(** A decimal: the digits as an integer and how many of them follow the point. *)
Definition decimal : Type := (Z * nat)%type.

Fixpoint read_digits (acc : Z) (n : nat) (s : string) : Z * nat * string :=
  match s with
  | String c r =>
      if is_digit c then read_digits (10 * acc + digit_val c) (S n) r
      else (acc, n, s)
  | EmptyString => (acc, n, s)
  end.

Definition read_unsigned (s : string) : option decimal :=
  let '(ip, n1, r1) := read_digits 0 0 s in
  match r1 with
  | EmptyString => if Nat.eqb n1 0 then None else Some (ip, 0%nat)
  | String c r2 =>
      if Ascii.eqb c "." then
        let '(m, n2, r3) := read_digits ip 0 r2 in
        match r3 with
        | EmptyString => if Nat.eqb (n1 + n2) 0 then None else Some (m, n2)
        | _ => None
        end
      else None
  end.

Definition read_decimal (s : string) : option decimal :=
  match s with
  | String c r =>
      if Ascii.eqb c "-"
      then option_map (fun '(m, k) => (- m, k)) (read_unsigned r)
      else read_unsigned s
  | EmptyString => None
  end.

Definition upper_char (c : ascii) : ascii :=
  if in_range "a" "z" c then ascii_of_nat (nat_of_ascii c - 32) else c.

Definition lower_char (c : ascii) : ascii :=
  if in_range "A" "Z" c then ascii_of_nat (nat_of_ascii c + 32) else c.

Fixpoint map_string (f : ascii -> ascii) (s : string) : string :=
  match s with
  | String c r => String (f c) (map_string f r)
  | EmptyString => EmptyString
  end.

Definition is_alpha (c : ascii) : bool := in_range "a" "z" c || in_range "A" "Z" c.

Fixpoint title_from (inside_word : bool) (s : string) : string :=
  match s with
  | String c r =>
      String (if inside_word then lower_char c else upper_char c)
        (title_from (is_alpha c) r)
  | EmptyString => EmptyString
  end.

Definition iso_format (t : datetime) : string :=
  pad4 (year t) ++ "-" ++ pad2 (month t) ++ "-" ++ pad2 (day t).

Definition day_record (close : json decimal) : json decimal :=
  JDict [("1. open", JStr "10.0"); ("4. close", close); ("5. volume", JStr "100")].

(** A daily answer of the provider, newest day first as it sends them;
    one day has no closing price and one has an unreadable one. *)
Definition daily_answer : json decimal :=
  JDict [("Meta Data", JDict [("2. Symbol", JStr "IBM")]);
         ("Time Series (Daily)",
           JDict [("2020-01-07", day_record (JStr "134.19"));
                  ("2020-01-06", JDict [("1. open", JStr "10.0")]);
                  ("2020-01-03", day_record (JStr "n/a"));
                  ("2020-01-02", day_record (JStr "135.42"));
                  ("2019-12-31", day_record (JStr "134.04"))])].

Definition daily_series : list (string * json decimal) :=
  match daily_answer with
  | JDict d => match dict_get "Time Series (Daily)" d with
               | Some (JDict series) => series
               | _ => []
               end
  | _ => []
  end.

Definition midnight (y m d : Z) : datetime := MkDatetime y m d 0 0 0 0.

(** The rows of [daily_answer], oldest first. *)
Definition daily_rows : list (datetime * decimal) :=
  [(midnight 2019 12 31, (13404, 2%nat));
   (midnight 2020 1 2, (13542, 2%nat));
   (midnight 2020 1 7, (13419, 2%nat))].





Definition svg_image : element := Element "svg" [] None [] None.

Fixpoint serialize (e : element) : string :=
  let 'Element tag _ text children _ := e in
  "<" ++ tag ++ ">"
  ++ match text with Some t => t | None => "" end
  ++ String.concat "" (map serialize children)
  ++ "</" ++ tag ++ ">".

#[export] Instance host : Host := {|
  pyfloat := decimal;
  float_of_str := read_decimal;
  float_of_int := fun z => Some (z, 0%nat);
  str_upper := map_string upper_char;
  str_lower := map_string lower_char;
  str_title := title_from false;
  strftime_ymd := iso_format;
  environ := fun _ => None;
  abspath := fun p => "/home/user/" ++ p;
  requests_get := fun _ _ _ => Ret (MkResponse 200 (Ret daily_answer));
  pygal_render := fun _ => Ret "<svg/>";
  etree_fromstring := fun s =>
    if (s =? "<svg/>")%string then Ret svg_image
    else Raise (MkExn LibraryError "XMLSyntaxError");
  etree_tostring := serialize;
  file_write := fun _ _ => Ret tt;
  webbrowser_open := fun _ => Ret tt |}.

Definition typed (lines : list string) : world := MkWorld lines [].

(** A run with a granularity the program does not know, and a run whose
    start date, the first of October, follows its end date, the first of
    September. *)
Definition hourly_run : world :=
  typed ["ibm"; "line"; "hourly"; "2020-01-01"; "2020-01-31"].

(** The run of the specification's example: start 2020-01-01, end 2019-01-01. *)
Definition january_run : world :=
  typed ["ibm"; "line"; "daily"; "2020-01-01"; "2019-01-01"].

Definition october_run : world :=
  typed ["ibm"; "line"; "daily"; "2020-10-01"; "2020-9-01"].


End Demo.

(** * Vocabulary of the statements *)

Definition key_le {A : Type} (key : A -> datetime) (a b : A) : Prop :=
  datetime_le (key a) (key b).

Section NormalizerVocabulary.
Context `{Host}.

Definition row_le : row -> row -> Prop := key_le fst.

(** The closing-price field of a per-day record, when it has one. *)
Definition closing_price (v : json pyfloat) : option (json pyfloat) :=
  match v with
  | JDict rec => dict_get "4. close" rec
  | _ => None
  end.

(** The number a closing price stands for, when it is numeric. *)
Definition numeric (c : json pyfloat) : option pyfloat :=
  match c with
  | JStr s => float_of_str s
  | JFloat f => Some f
  | JInt z => float_of_int z
  | JBool b => float_of_int (Z.b2z b)
  | _ => None
  end.

Definition numeric_close (v : json pyfloat) : option pyfloat :=
  match closing_price v with
  | Some c => numeric c
  | None => None
  end.

Definition has_numeric_close (entry : string * json pyfloat) : bool :=
  match numeric_close (snd entry) with Some _ => true | None => false end.

Definition date_of_key (k : string) : option datetime :=
  match Strptime.strptime k with Ret t => Some t | Raise _ => None end.

Definition entry_pair (entry : string * json pyfloat) : list row :=
  match date_of_key (fst entry), numeric_close (snd entry) with
  | Some ts, Some f => [(ts, f)]
  | _, _ => []
  end.

(** The pairs of the entries that have a numeric closing price, in the
    order of the response. *)
Definition kept_rows (series : list (string * json pyfloat)) : list row :=
  flat_map entry_pair (filter has_numeric_close series).



(** The entry alone gets through the loop. *)
Definition entry_passes (entry : string * json pyfloat) : bool :=
  match collect_rows [entry] [] with Ret _ => true | Raise _ => false end.

End NormalizerVocabulary.

(** Two rows have the same date. *)
Definition same_key {A : Type} (key : A -> datetime) (t : datetime) (x : A) : bool :=
  match tuple_compare (datetime_tuple (key x)) (datetime_tuple t) with
  | Eq => true
  | _ => false
  end.

(** A row's date lies within the inclusive bounds. *)
Definition within_range {F : Type} (start_d end_d : date) (r : datetime * F) : bool :=
  date_le start_d (datetime_date (fst r)) && date_le (datetime_date (fst r)) end_d.

(** A response whose closing price is a list rather than a string or a number. *)
Definition nested_close_response {F : Type} : json F :=
  JDict [("Time Series (Daily)",
          JDict [("2020-01-02", JDict [("4. close", JList [JStr "135.42"])])])].


(** The ways [strptime] lets a date be written: the year with four digits;
    the month with two digits, or one when it is below 10; the day with two
    digits, or when below 10 with one digit or a blank and one digit. *)
Module DateText.
Import Text.

Definition month_texts (m : Z) : list string :=
  pad2 m :: (if m <? 10 then [str1 m] else []).

Definition day_texts (d : Z) : list string :=
  pad2 d :: (if d <? 10 then [str1 d; String " " (str1 d)] else []).

Definition spell (y : Z) (ms ds : string) : string :=
  pad4 y ++ "-" ++ ms ++ "-" ++ ds.

Definition spellings (y m d : Z) : list string :=
  flat_map (fun ms => map (spell y ms) (day_texts d)) (month_texts m).

(** The one spelling with every field at full width: [YYYY-MM-DD]. *)
Definition iso (y m d : Z) : string := spell y (pad2 m) (pad2 d).

(** The exact calendar-date format of the specification: four digits,
    a hyphen, two digits, a hyphen, two digits; [fields] gives the three
    numbers written, and the text is valid when they are a date of the
    calendar of [date], whose years run from 1 to 9999. *)
Definition num2 (c1 c2 : ascii) : Z := 10 * digit_val c1 + digit_val c2.

Definition num4 (c1 c2 c3 c4 : ascii) : Z :=
  1000 * digit_val c1 + 100 * digit_val c2 + 10 * digit_val c3 + digit_val c4.

Definition fields (s : string) : option (Z * Z * Z) :=
  match s with
  | String y1 (String y2 (String y3 (String y4 (String h1
      (String m1 (String m2 (String h2 (String d1 (String d2 EmptyString))))))))) =>
      if forallb is_digit [y1; y2; y3; y4; m1; m2; d1; d2]
         && Ascii.eqb h1 "-" && Ascii.eqb h2 "-"
      then Some (num4 y1 y2 y3 y4, num2 m1 m2, num2 d1 d2)
      else None
  | _ => None
  end.

Definition exact_format (s : string) : bool :=
  match fields s with
  | Some (y, m, d) => valid_ymd y m d
  | None => false
  end.

(** The integers from [lo], [n] of them. *)
Definition zrange (lo : Z) (n : nat) : list Z := map (fun i => lo + Z.of_nat i) (seq 0 n).

(** [int] reads [g] as [n]. *)
Definition reads (g : string) (n : Z) : bool :=
  match py_int g with Ret k => k =? n | Raise _ => false end.

(** [g] is one of the texts of a month, of a day of the month. *)
Definition month_text (g : string) : bool :=
  existsb (fun m => reads g m && mem g (month_texts m)) (zrange 1 12).

Definition day_text (g : string) : bool :=
  existsb (fun d => reads g d && mem g (day_texts d)) (zrange 1 31).

(** The first match of the month and day groups on [ms-ds] is [ms] and
    [ds] with nothing left, and [int] reads them as [m] and [d]. *)
Definition first_match_is (m d : Z) (ms ds : string) : bool :=
  match Strptime.month_day_matches (ms ++ "-" ++ ds) with
  | (gm, gd, EmptyString) :: _ =>
      (gm =? ms)%string && (gd =? ds)%string && reads ms m && reads ds d
  | _ => false
  end.

End DateText.

(** An event of the console: a prompt or a line printed.  The others
    reach the network, the file system or the browser. *)
Definition console `{Host} (e : event) : bool :=
  match e with
  | EvPrompt _ | EvPrint _ => true
  | _ => false
  end.

Definition is_fetch `{Host} (e : event) : bool :=
  match e with
  | EvHttpGet _ _ => true
  | _ => false
  end.

Definition granularities : list string := ["DAILY"; "WEEKLY"; "MONTHLY"].

Definition date_order_message `{Host} : event :=
  EvPrint [PStr "Start date must be before end date."].

(** Reading a document: the children of an element with a given tag, the
    headings of the body, and what the chart container holds. *)
Definition children_tagged (t : string) (e : element) : list element :=
  filter (fun c => (el_tag c =? t)%string) (el_children e).

Definition headings (doc : element) : list element :=
  flat_map (children_tagged "h1") (children_tagged "body" doc).

Definition is_chart_container (e : element) : bool :=
  match dict_get "class" (el_attrib e) with
  | Some c => (c =? "chart")%string
  | None => false
  end.

Definition embedded (doc : element) : list element :=
  flat_map el_children
    (filter is_chart_container
       (flat_map (children_tagged "div") (children_tagged "body" doc))).

(** The fallback block around a text. *)
Definition pre_block (t : string) : element := Element "pre" [] (Some t) [] None.

(** A control character, a title and an image text that hold it. *)
Definition bell : string := String (ascii_of_nat 7) "".
Definition control_title : string := "IBM" ++ bell.
Definition control_svg : string := "<svg>" ++ bell.

(** A list of a hundred labels. *)
Definition hundred_labels : list string :=
  map (fun i => Text.pad4 (Z.of_nat i)) (seq 0 100).

(** * Vocabulary of the further properties *)

(** A text of ASCII characters only. *)
Definition ascii_text (s : string) : bool :=
  forallb (fun c => Text.code c <? 128) (list_ascii_of_string s).

Section RunVocabulary.
Context `{Host}.

(** The parameters of the request for a symbol and a provider function. *)
Definition request_params (symbol fn : string) : list (string * string) :=
  [("function", fn); ("symbol", symbol); ("apikey", API_KEY);
   ("datatype", "json"); ("outputsize", "full")].

Definition request (symbol fn : string) : event :=
  EvHttpGet API_URL (request_params symbol fn).

(** The events that reach beyond the console, in order. *)
Definition outside (l : list event) : list event :=
  filter (fun e => negb (console e)) l.

Definition chart_file (symbol : string) : string := symbol ++ "_chart.html".

(** The title [main] gives the page. *)
Definition page_title_of (symbol time_series start_date end_date : string) : string :=
  symbol ++ " " ++ em_dash ++ " " ++ str_title time_series
  ++ " " ++ em_dash ++ " " ++ start_date ++ " to " ++ end_date.

(** The banner and the five prompts. *)
Definition prompts : list event :=
  [EvPrint [PStr "=== Stock Data Visualizer ==="];
   EvPrompt "Enter stock symbol (e.g., AAPL, GOOGL): ";
   EvPrompt "Enter chart type (line, bar): ";
   EvPrompt "Enter time series (daily, weekly, monthly): ";
   EvPrompt "Enter start date (YYYY-MM-DD): ";
   EvPrompt "Enter end date (YYYY-MM-DD): "].

(** The four tests [main] makes on what was typed, all passed. *)
Definition accepted (chart_type time_series start_date end_date : string) : bool :=
  match validate_date start_date, validate_date end_date with
  | Ret true, Ret true =>
      negb (Text.str_gt start_date end_date)
      && Text.mem (str_lower chart_type) ["line"; "bar"]
      && Text.mem (str_upper time_series) granularities
  | _, _ => false
  end.

End RunVocabulary.

(** A row's datetime is a date of the calendar at midnight. *)
Definition midnight_date (t : datetime) : bool :=
  valid_ymd (year t) (month t) (day t)
  && (hour t =? 0) && (minute t =? 0) && (second t =? 0) && (microsecond t =? 0).

(** A host that answers every request with [answer] and is [Demo.host]
    otherwise. *)
Definition answering (answer : result (response Demo.decimal)) : Host := {|
  pyfloat := Demo.decimal;
  float_of_str := Demo.read_decimal;
  float_of_int := fun z => Some (z, 0%nat);
  str_upper := Demo.map_string Demo.upper_char;
  str_lower := Demo.map_string Demo.lower_char;
  str_title := Demo.title_from false;
  strftime_ymd := Demo.iso_format;
  environ := fun _ => None;
  abspath := fun p => "/home/user/" ++ p;
  requests_get := fun _ _ _ => answer;
  pygal_render := fun _ => Ret "<svg/>";
  etree_fromstring := fun s =>
    if (s =? "<svg/>")%string then Ret Demo.svg_image
    else Raise (MkExn LibraryError "XMLSyntaxError");
  etree_tostring := Demo.serialize;
  file_write := fun _ _ => Ret tt;
  webbrowser_open := fun _ => Ret tt |}.

(** How many labels a thinned list keeps. *)
Definition kept_count {A : Type} (out : list (option A)) : nat :=
  List.length (filter (fun o => match o with Some _ => true | None => false end) out).

(** The test of the label thinner at index [i]. *)
Definition keeps (step last i : Z) : bool := (i mod step =? 0) || (i =? last).

(** Twenty-three labels: more than the default [max_labels], fewer than
    twice as many. *)
Definition twenty_three_labels : list string := firstn 23 hundred_labels.

Section EffectVocabulary.
Context `{Host}.

(** Running [m] from [w] leaves the input as it was and adds the events
    [new]. *)
Definition adds {A : Type} (m : io A) (w : world) (new : list event) : Prop :=
  snd (m w) = MkWorld (stdin w) (events w ++ new).

(** The line [fetch_data] prints for a status other than 200, for an answer
    with an error message, and for a rate-limit note. *)
Definition status_line (code : Z) : event :=
  EvPrint [PStr "Error fetching data:"; PInt code].

Definition api_error_line (msg : json pyfloat) : event :=
  EvPrint [PStr "API Error:"; PJson msg].

Definition rate_limit_line : event :=
  EvPrint [PStr "API Note (rate limited). Please wait ~1 minute and try again."].

(** The line [parse_close_series] prints when the series key is missing. *)
Definition missing_key_line (keys : list string) : event :=
  EvPrint [PStr "Unexpected API response. missing key:"; PKeys keys].

Definition exit_1 : exn := MkExn SystemExit "1".

End EffectVocabulary.

(** Answers of the provider for the examples: a refusal, an error message
    with a note beside it, a note alone, and an answer without the series. *)
Definition not_found_answer : result (response Demo.decimal) :=
  Ret (MkResponse 404 (Ret JNull)).

Definition error_answer : result (response Demo.decimal) :=
  Ret (MkResponse 200
         (Ret (JDict [("Note", JStr "slow down");
                      ("Error Message", JStr "Invalid API call.")]))).

Definition note_answer : result (response Demo.decimal) :=
  Ret (MkResponse 200 (Ret (JDict [("Note", JStr "slow down")]))).

Definition keyless_answer : result (response Demo.decimal) :=
  Ret (MkResponse 200 (Ret (JDict [("Information", JStr "premium endpoint")]))).

Section PipelineVocabulary.
Context `{Host}.

Definition browser_url (symbol : string) : string :=
  "file://" ++ abspath (chart_file symbol).

(** What a run that makes a chart adds beyond the console: the request,
    the file and the call of the browser. *)
Definition chart_effects (symbol fn html : string) : list event :=
  [request symbol fn; EvWrite (chart_file symbol) html; EvOpen (browser_url symbol)].

(** [html] is the page of the chart of the rows in range: the fetched
    answer normalized, filtered to the typed range, not empty, drawn and
    wrapped under the page title. *)
Definition charted (symbol chart_type time_series start_date end_date : string)
  (w : world) (html : string) : Prop :=
  exists fn data rows start_d end_d svg,
    function_for time_series = Ret fn
    /\ fst (fetch_data symbol fn w) = Ret data
    /\ fst (parse_close_series data fn w) = Ret rows
    /\ to_date start_date = Ret start_d
    /\ to_date end_date = Ret end_d
    /\ filter_range rows start_d end_d <> []
    /\ make_chart symbol (str_title time_series) chart_type
         (filter_range rows start_d end_d) = Ret svg
    /\ wrap_html svg (page_title_of symbol time_series start_date end_date) = Ret html.

(** The handler of [main]. *)
Definition report (e : exn) : io unit :=
  print [PStr "Something went wrong:"; PExn e].

End PipelineVocabulary.

(** A run that makes a chart on [Demo.host]. *)
Definition chart_lines : list string :=
  ["ibm"; "Line"; "daily"; "2020-01-01"; "2020-01-31"].

Definition chart_run : world := Demo.typed chart_lines.

Definition chart_page : string :=
  "<html><head><meta></meta><title>IBM " ++ em_dash ++ " Daily " ++ em_dash
  ++ " 2020-01-01 to 2020-01-31</title><style>"
  ++ "body{font-family:Arial,Helvetica,sans-serif;margin:24px;} .chart{max-width:1000px;}"
  ++ "</style></head><body><h1>IBM " ++ em_dash ++ " Daily " ++ em_dash
  ++ " 2020-01-01 to 2020-01-31</h1><div><svg></svg></div></body></html>".

Definition chart_done `{Host} : event :=
  EvPrint [PStr "Chart generated and opened in your browser."].
(** * Properties *)

(** ** Results *)

Lemma bind_Ret_inv {A B : Type} (r : result A) (k : A -> result B) (b : B) :
  bind r k = Ret b -> exists a, r = Ret a /\ k a = Ret b.
Proof. destruct r as [a|e]; simpl; [eauto | discriminate]. Qed.

(** ** Ordering of dates *)

Lemma tuple_compare_antisym (a b : list Z) :
  tuple_compare b a = CompOpp (tuple_compare a b).
Proof.
  revert b; induction a as [|x a IH]; intros [|y b]; simpl; trivial.
  rewrite (Z.compare_antisym x y).
  destruct (x ?= y); simpl; auto.
Qed.

Lemma tuple_compare_Eq (a b : list Z) : tuple_compare a b = Eq -> a = b.
Proof.
  revert b; induction a as [|x a IH]; intros [|y b]; simpl; try discriminate; trivial.
  destruct (x ?= y) eqn:E; try discriminate.
  apply Z.compare_eq in E. intros Hab. f_equal; auto.
Qed.

Lemma tuple_compare_Lt_trans (a b c : list Z) :
  tuple_compare a b = Lt -> tuple_compare b c = Lt -> tuple_compare a c = Lt.
Proof.
  revert b c; induction a as [|x a IH]; intros [|y b] [|z c]; simpl;
    try discriminate; trivial.
  destruct (x ?= y) eqn:Exy; try discriminate;
    destruct (y ?= z) eqn:Eyz; try discriminate; intros Hab Hbc.
  - apply Z.compare_eq in Exy, Eyz. subst. rewrite Z.compare_refl. eauto.
  - apply Z.compare_eq in Exy. subst. now rewrite Eyz.
  - apply Z.compare_eq in Eyz. subst. now rewrite Exy.
  - rewrite Z.compare_lt_iff in Exy, Eyz.
    assert (E : (x ?= z) = Lt) by (apply Z.compare_lt_iff; lia).
    now rewrite E.
Qed.

Lemma tuple_le_trans (a b c : list Z) :
  tuple_compare a b <> Gt -> tuple_compare b c <> Gt -> tuple_compare a c <> Gt.
Proof.
  intros Hab Hbc.
  destruct (tuple_compare a b) eqn:Eab; try congruence.
  - apply tuple_compare_Eq in Eab. now subst.
  - destruct (tuple_compare b c) eqn:Ebc; try congruence.
    + apply tuple_compare_Eq in Ebc. subst. congruence.
    + rewrite (tuple_compare_Lt_trans _ _ _ Eab Ebc). discriminate.
Qed.

Lemma datetime_le_trans (a b c : datetime) :
  datetime_le a b -> datetime_le b c -> datetime_le a c.
Proof. apply tuple_le_trans. Qed.

Lemma datetime_lt_le (a b : datetime) : datetime_lt a b = true -> datetime_le a b.
Proof.
  unfold datetime_lt, datetime_le.
  destruct (tuple_compare _ _); congruence.
Qed.

Lemma datetime_not_lt_le (a b : datetime) : datetime_lt a b = false -> datetime_le b a.
Proof.
  unfold datetime_lt, datetime_le.
  rewrite (tuple_compare_antisym (datetime_tuple a) (datetime_tuple b)).
  destruct (tuple_compare _ _); simpl; congruence.
Qed.

(** ** The sort *)

Section SortFacts.
Context {A : Type} (key : A -> datetime).

Lemma insert_by_key_perm (x : A) (l : list A) :
  Permutation (insert_by_key key x l) (x :: l).
Proof.
  induction l as [|y l IH]; simpl; [reflexivity|].
  destruct (datetime_lt (key y) (key x)); [|reflexivity].
  rewrite IH. apply perm_swap.
Qed.

Lemma sort_by_key_perm (l : list A) : Permutation (sort_by_key key l) l.
Proof.
  induction l as [|x l IH]; simpl; [reflexivity|].
  rewrite insert_by_key_perm. now constructor.
Qed.

Lemma insert_by_key_sorted (x : A) (l : list A) :
  StronglySorted (key_le key) l -> StronglySorted (key_le key) (insert_by_key key x l).
Proof.
  induction 1 as [|y l Hs IH Hy]; simpl.
  - repeat constructor.
  - destruct (datetime_lt (key y) (key x)) eqn:E.
    + constructor; [exact IH|].
      apply (Permutation_Forall (Permutation_sym (insert_by_key_perm x l))).
      constructor; [apply datetime_lt_le, E | exact Hy].
    + assert (Hxy : key_le key x y) by (apply datetime_not_lt_le, E).
      constructor; [now constructor|].
      constructor; [exact Hxy|].
      eapply Forall_impl; [|exact Hy].
      intros z Hz. exact (datetime_le_trans _ _ _ Hxy Hz).
Qed.

Lemma sort_by_key_sorted (l : list A) : StronglySorted (key_le key) (sort_by_key key l).
Proof.
  induction l as [|x l IH]; simpl; [constructor | now apply insert_by_key_sorted].
Qed.

End SortFacts.

(** ** Range filter *)

(** C7. Filtering a series to a range, then filtering the result to the
    same range again, gives the once-filtered series back. *)
Theorem filter_range_idempotent {F : Type} (rows : list (datetime * F)) (start_d end_d : date) :
  filter_range (filter_range rows start_d end_d) start_d end_d
  = filter_range rows start_d end_d.
Proof.
  unfold filter_range.
  induction rows as [|[ts c] rows IH]; simpl; [reflexivity|].
  destruct (date_le start_d (datetime_date ts) && date_le (datetime_date ts) end_d) eqn:E;
    simpl; rewrite ?E, IH; reflexivity.
Qed.

(** ** Series normalizer *)

Section Normalizer.
Context `{Host}.

Lemma kept_rows_cons (e : string * json pyfloat) (l : list (string * json pyfloat)) :
  kept_rows (e :: l) = (entry_pair e ++ kept_rows l)%list.
Proof.
  unfold kept_rows; simpl. unfold has_numeric_close at 1.
  destruct (numeric_close (snd e)) eqn:E; simpl; [reflexivity|].
  assert (Hnone : entry_pair e = []).
  { unfold entry_pair. rewrite E. now destruct (date_of_key (fst e)). }
  now rewrite Hnone.
Qed.

Lemma collect_rows_kept (items : list (string * json pyfloat)) :
  forall acc rows,
    collect_rows items acc = Ret rows -> rows = (acc ++ kept_rows items)%list.
Proof.
  induction items as [|[k v] items IH]; intros acc rows; simpl.
  - intros [= <-]. unfold kept_rows; simpl. now rewrite app_nil_r.
  - rewrite kept_rows_cons. unfold entry_pair, numeric_close, closing_price, date_of_key; simpl.
    destruct (Strptime.strptime k) as [ts|e]; simpl; [|discriminate].
    destruct v as [| b | z | f | s | l | rec]; simpl; try discriminate.
    destruct (dict_get "4. close" rec) as [c|]; simpl; [|apply IH].
    destruct c as [| b | z | f | s | l | d]; simpl; try discriminate.
    + apply IH.
    + destruct (float_of_int (Z.b2z b)); simpl; [|discriminate].
      intros Hc. apply IH in Hc. now rewrite <- app_assoc in Hc.
    + destruct (float_of_int z); simpl; [|discriminate].
      intros Hc. apply IH in Hc. now rewrite <- app_assoc in Hc.
    + intros Hc. apply IH in Hc. now rewrite <- app_assoc in Hc.
    + destruct (float_of_str s); simpl; [|apply IH].
      intros Hc. apply IH in Hc. now rewrite <- app_assoc in Hc.
Qed.


(** What a normal return of [parse_close_series] went through. *)
Lemma parse_close_series_Ret (data : json pyfloat) (fn : string) (w w' : world)
  (rows : list row) :
  parse_close_series data fn w = (Ret rows, w') ->
  exists key sv items raw,
    series_key_for fn = Ret key /\ py_contains key data = Ret true
    /\ py_getitem data key = Ret sv /\ py_items sv = Ret items
    /\ collect_rows items [] = Ret raw
    /\ rows = sort_by_key fst raw /\ w' = w.
Proof.
  unfold parse_close_series, io_bind, lift, io_ret.
  destruct (series_key_for fn) as [key|e] eqn:Ek; [|discriminate].
  destruct (py_contains key data) as [[|]|e] eqn:Ec; simpl; try discriminate.
  - destruct (py_getitem data key) as [sv|e] eqn:Eg; [|discriminate].
    destruct (py_items sv) as [items|e] eqn:Ei; [|discriminate].
    destruct (collect_rows items []) as [raw|e] eqn:Er; [|discriminate].
    intros [= <- <-]. exists key, sv, items, raw. repeat split; auto.
  - destruct (py_keys data) as [ks|e]; simpl; discriminate.
Qed.

Lemma parse_close_series_dict (d series : list (string * json pyfloat))
  (fn key : string) (w : world) :
  series_key_for fn = Ret key ->
  dict_get key d = Some (JDict series) ->
  parse_close_series (JDict d) fn w
  = (match collect_rows series [] with
     | Ret raw => Ret (sort_by_key fst raw)
     | Raise e => Raise e
     end, w).
Proof.
  intros Hk Hd. unfold parse_close_series, io_bind, lift, io_ret.
  rewrite Hk; simpl. rewrite Hd; simpl.
  now destruct (collect_rows series []).
Qed.

End Normalizer.

(** C1. Whatever the raw response and the granularity, a list that
    [parse_close_series] returns is sorted ascending by date: each row's
    date is at most the date of every later row.  The order of the entries
    in the response plays no part. *)
Theorem parse_close_series_sorted `{Host} (data : json pyfloat) (fn : string)
  (w w' : world) (rows : list row) :
  parse_close_series data fn w = (Ret rows, w') ->
  StronglySorted row_le rows.
Proof.
  intros Hp.
  apply parse_close_series_Ret in Hp
    as (key & sv & items & raw & _ & _ & _ & _ & _ & -> & _).
  apply sort_by_key_sorted.
Qed.

(** C10. The tolerance stops at missing fields and strings: the response
    [nested_close_response], whose one record has a closing price that is
    present but is a list, makes [parse_close_series] raise [TypeError]
    instead of dropping the entry. *)
Theorem parse_close_series_raises_on_nested_close `{Host} (w : world) :
  closing_price (JDict [("4. close", JList [JStr "135.42"])])
  = Some (JList [JStr "135.42"])
  /\ exists e, parse_close_series nested_close_response "TIME_SERIES_DAILY" w
               = (Raise e, w)
               /\ exn_class e = TypeError /\ is_Exception e = true.
Proof.
  split; [reflexivity|].
  eexists; split; [reflexivity | split; reflexivity].
Qed.

Lemma parse_close_series_sorted_witness :
  parse_close_series (H := Demo.host) Demo.daily_answer "TIME_SERIES_DAILY" (Demo.typed [])
  = (Ret Demo.daily_rows, Demo.typed [])
  /\ StronglySorted (row_le (H := Demo.host)) Demo.daily_rows.
Proof.
  split; [reflexivity|].
  exact (parse_close_series_sorted (H := Demo.host) Demo.daily_answer "TIME_SERIES_DAILY"
           (Demo.typed []) (Demo.typed []) Demo.daily_rows eq_refl).
Defined.




(** ** Label thinner *)

Lemma enumerate_from_length {A : Type} (l : list A) (k : Z) :
  List.length (enumerate_from k l) = List.length l.
Proof. revert k; induction l as [|x l IH]; intros k; simpl; [reflexivity | now rewrite IH]. Qed.

Lemma enumerate_from_nth {A : Type} (l : list A) :
  forall (k : Z) (i : nat) (x : A),
    nth_error l i = Some x ->
    nth_error (enumerate_from k l) i = Some (k + Z.of_nat i, x).
Proof.
  induction l as [|y l IH]; intros k [|i] x; simpl; try discriminate.
  - intros [= ->]. now rewrite Z.add_0_r.
  - intros Hx. rewrite (IH (k + 1) i x Hx). do 2 f_equal. lia.
Qed.

(** C3, as the code has it.  For every list of labels and every
    [max_labels] other than 0: a list of at most [max_labels] labels comes
    back unchanged; a longer one comes back with the same length, the label
    at index [i] kept exactly when [i % step == 0] or [i] is the last index,
    where [step = max(1, length // max_labels)], and [None] elsewhere.  For
    100 labels and [max_labels = 12] the step is 8 and the labels kept are
    those at the multiples of 8 and at index 99. *)
Theorem thin_labels_spec {A : Type} (labels : list A) (max_labels : Z) :
  max_labels <> 0 ->
  (Z.of_nat (List.length labels) <= max_labels ->
   thin_labels labels max_labels = Ret (map Some labels))
  /\ (max_labels < Z.of_nat (List.length labels) ->
      exists out,
        thin_labels labels max_labels = Ret out
        /\ List.length out = List.length labels
        /\ forall (i : nat) (lbl : A),
             nth_error labels i = Some lbl ->
             nth_error out i
             = Some (if (Z.of_nat i mod Z.max 1 (Z.of_nat (List.length labels) / max_labels) =? 0)
                        || (Z.of_nat i =? Z.of_nat (List.length labels) - 1)
                     then Some lbl else None))
  /\ (List.length labels = 100%nat -> max_labels = 12 ->
      Z.max 1 (Z.of_nat (List.length labels) / max_labels) = 8
      /\ exists out,
           thin_labels labels max_labels = Ret out
           /\ forall i : nat,
                (i < 100)%nat ->
                ((exists lbl, nth_error out i = Some (Some lbl))
                 <-> (Z.of_nat i mod 8 = 0 \/ i = 99%nat))
                /\ (nth_error out i = Some None
                    <-> ~ (Z.of_nat i mod 8 = 0 \/ i = 99%nat))).
Proof.
  intros Hmax.
  assert (Hlong : max_labels < Z.of_nat (List.length labels) ->
            thin_labels labels max_labels
            = Ret (map (fun '(i, lbl) =>
                          if (i mod Z.max 1 (Z.of_nat (List.length labels) / max_labels) =? 0)
                             || (i =? Z.of_nat (List.length labels) - 1)
                          then Some lbl else None)
                     (enumerate labels))).
  { intros Hlt. unfold thin_labels, py_floordiv.
    destruct (Z.leb_spec (Z.of_nat (List.length labels)) max_labels) as [Hle|_]; [lia|].
    destruct (Z.eqb_spec max_labels 0) as [H0|_]; [contradiction|]. reflexivity. }
  assert (Hnth : forall (step last : Z) (i : nat) (lbl : A),
            nth_error labels i = Some lbl ->
            nth_error (map (fun '(i, lbl) =>
                              if (i mod step =? 0) || (i =? last)
                              then Some lbl else None) (enumerate labels)) i
            = Some (if (Z.of_nat i mod step =? 0) || (Z.of_nat i =? last)
                    then Some lbl else None)).
  { intros step last i lbl Hi. unfold enumerate.
    rewrite nth_error_map, (enumerate_from_nth labels 0 i lbl Hi). reflexivity. }
  split; [|split].
  - intros Hle. unfold thin_labels.
    destruct (Z.leb_spec (Z.of_nat (List.length labels)) max_labels); [reflexivity | lia].
  - intros Hlt. eexists. split; [exact (Hlong Hlt)|]. split.
    + unfold enumerate. now rewrite length_map, enumerate_from_length.
    + intros i lbl. apply Hnth.
  - intros Hlen ->. rewrite Hlen. split; [reflexivity|].
    eexists. split; [apply Hlong; lia|].
    intros i Hi.
    destruct (nth_error labels i) as [lbl|] eqn:El;
      [|apply nth_error_None in El; lia].
    rewrite Hlen, (Hnth _ _ i lbl El).
    change (Z.max 1 (Z.of_nat 100 / 12)) with 8.
    change (Z.of_nat 100 - 1) with 99.
    set (kept := (Z.of_nat i mod 8 =? 0) || (Z.of_nat i =? 99)).
    assert (Hk : kept = true <-> (Z.of_nat i mod 8 = 0 \/ i = 99%nat)).
    { unfold kept. rewrite orb_true_iff, !Z.eqb_eq.
      split; (intros [?|?]; [now left | right; lia]). }
    destruct kept; split; split.
    + intros _. now apply Hk.
    + intros _. eauto.
    + intros [=].
    + intros Hn. exfalso. now apply Hn, Hk.
    + intros [lbl' [=]].
    + intros Hp. apply Hk in Hp. discriminate.
    + intros _ Hp. apply Hk in Hp. discriminate.
    + reflexivity.
Qed.

Lemma thin_labels_spec_witness :
  exists out, thin_labels hundred_labels 12 = Ret out
              /\ List.length out = 100%nat
              /\ nth_error out 8 = Some (Some "0008")
              /\ nth_error out 9 = Some None.
Proof.
  destruct (thin_labels_spec hundred_labels 12 ltac:(discriminate)) as (_ & Hlong & _).
  destruct (Hlong ltac:(reflexivity)) as (out & Hout & Hlen & Hnth).
  exists out. split; [exact Hout|]. split; [exact Hlen|].
  split; [exact (Hnth 8%nat "0008" eq_refl) | exact (Hnth 9%nat "0009" eq_refl)].
Defined.

(** C3 fails as stated at [max_labels = 0]: a non-empty list is longer
    than 0 labels, and computing the step divides by zero. *)
Lemma thin_labels_raises_at_zero :
  0 < Z.of_nat (List.length ["2020-01-02"])
  /\ raises (thin_labels ["2020-01-02"] 0) ZeroDivisionError.
Proof. split; [reflexivity|]. eexists; split; reflexivity. Qed.

(** ** Date text *)

Module TextFacts.
Import Text.

Lemma append_assoc (a b c : string) : ((a ++ b) ++ c = a ++ b ++ c)%string.
Proof. induction a as [|x a IH]; simpl; [reflexivity | now rewrite IH]. Qed.

Lemma append_nil_r (a : string) : (a ++ "")%string = a.
Proof. induction a as [|x a IH]; simpl; [reflexivity | now rewrite IH]. Qed.

Lemma code_range (c : ascii) : 0 <= code c < 256.
Proof. unfold code. pose proof (nat_ascii_bounded c). lia. Qed.

Lemma digit_char_val (c : ascii) : digit_char (digit_val c) = c.
Proof.
  unfold digit_char, digit_val, code.
  replace (48 + (Z.of_nat (nat_of_ascii c) - 48)) with (Z.of_nat (nat_of_ascii c)) by lia.
  now rewrite Nat2Z.id, ascii_nat_embedding.
Qed.

Lemma code_digit_char (n : Z) : 0 <= n <= 9 -> code (digit_char n) = 48 + n.
Proof.
  intros Hn. unfold code, digit_char.
  rewrite nat_ascii_embedding by lia. lia.
Qed.

Lemma digit_val_char (n : Z) : 0 <= n <= 9 -> digit_val (digit_char n) = n.
Proof. intros Hn. unfold digit_val. rewrite code_digit_char by assumption. lia. Qed.

Lemma is_digit_char (n : Z) : 0 <= n <= 9 -> is_digit (digit_char n) = true.
Proof.
  intros Hn. unfold is_digit, in_range. rewrite code_digit_char by assumption.
  change (code "0") with 48. change (code "9") with 57.
  apply andb_true_iff; split; apply Z.leb_le; lia.
Qed.

Lemma is_digit_val (c : ascii) : is_digit c = true -> 0 <= digit_val c <= 9.
Proof.
  unfold is_digit, in_range, digit_val.
  change (code "0") with 48. change (code "9") with 57.
  rewrite andb_true_iff, !Z.leb_le. lia.
Qed.

Lemma is_digit_not_space (c : ascii) : is_digit c = true -> is_space c = false.
Proof.
  unfold is_digit, in_range, is_space.
  change (code "0") with 48. change (code "9") with 57.
  rewrite andb_true_iff, !Z.leb_le. intros [H0 H9].
  apply orb_false_iff; split; apply andb_false_iff; right; apply Z.leb_gt; lia.
Qed.

(** The characters of a class, one by one. *)
Lemma in_range_enum (lo hi c : ascii) :
  in_range lo hi c = true ->
  In c (map ascii_of_nat (seq (nat_of_ascii lo) (S (nat_of_ascii hi) - nat_of_ascii lo))).
Proof.
  unfold in_range, code. rewrite andb_true_iff, !Z.leb_le. intros [Hlo Hhi].
  apply in_map_iff. exists (nat_of_ascii c). split; [apply ascii_nat_embedding|].
  apply in_seq. lia.
Qed.

Lemma chr_eq (a c : ascii) : Ascii.eqb a c = true -> c = a.
Proof. intros E. apply Ascii.eqb_eq in E. now subst. Qed.

(** Four digits read back as the number they spell. *)
Lemma div_mod_digits (a b c d : Z) :
  0 <= a <= 9 -> 0 <= b <= 9 -> 0 <= c <= 9 -> 0 <= d <= 9 ->
  let y := 1000 * a + 100 * b + 10 * c + d in
  y / 1000 = a /\ y / 100 mod 10 = b /\ y / 10 mod 10 = c /\ y mod 10 = d.
Proof.
  intros Ha Hb Hc Hd y. subst y.
  assert (E1 : (1000 * a + 100 * b + 10 * c + d) / 1000 = a).
  { symmetry. apply (Z.div_unique _ 1000 a (100 * b + 10 * c + d)); lia. }
  assert (E2 : (1000 * a + 100 * b + 10 * c + d) / 100 = 10 * a + b).
  { symmetry. apply (Z.div_unique _ 100 (10 * a + b) (10 * c + d)); lia. }
  assert (E3 : (1000 * a + 100 * b + 10 * c + d) / 10 = 100 * a + 10 * b + c).
  { symmetry. apply (Z.div_unique _ 10 (100 * a + 10 * b + c) d); lia. }
  rewrite E1, E2, E3. repeat split.
  - symmetry. apply (Z.mod_unique _ 10 a b); lia.
  - symmetry. apply (Z.mod_unique _ 10 (10 * a + b) c); lia.
  - symmetry. apply (Z.mod_unique _ 10 (100 * a + 10 * b + c) d); lia.
Qed.

Lemma pad4_digits (y : Z) :
  0 <= y <= 9999 ->
  0 <= y / 1000 <= 9 /\ 0 <= y / 100 mod 10 <= 9
  /\ 0 <= y / 10 mod 10 <= 9 /\ 0 <= y mod 10 <= 9
  /\ y = 1000 * (y / 1000) + 100 * (y / 100 mod 10) + 10 * (y / 10 mod 10) + y mod 10.
Proof.
  intros Hy.
  assert (Ea : y / 10 / 10 = y / 100) by (rewrite Z.div_div by lia; reflexivity).
  assert (Eb : y / 100 / 10 = y / 1000) by (rewrite Z.div_div by lia; reflexivity).
  pose proof (Z.div_mod y 10 ltac:(lia)) as E1.
  pose proof (Z.div_mod (y / 10) 10 ltac:(lia)) as E2.
  pose proof (Z.div_mod (y / 100) 10 ltac:(lia)) as E3.
  rewrite Ea in E2. rewrite Eb in E3.
  pose proof (Z.mod_pos_bound y 10 ltac:(lia)).
  pose proof (Z.mod_pos_bound (y / 10) 10 ltac:(lia)).
  pose proof (Z.mod_pos_bound (y / 100) 10 ltac:(lia)).
  assert (0 <= y / 1000) by (apply Z.div_pos; lia).
  assert (y / 1000 < 10) by (apply Z.div_lt_upper_bound; lia).
  lia.
Qed.

(** [int] reads a four-digit year back. *)
Lemma py_int_four (c1 c2 c3 c4 : ascii) :
  is_digit c1 = true -> is_digit c2 = true -> is_digit c3 = true -> is_digit c4 = true ->
  py_int (String c1 (String c2 (String c3 (String c4 ""))))
  = Ret (1000 * digit_val c1 + 100 * digit_val c2 + 10 * digit_val c3 + digit_val c4).
Proof.
  intros H1 H2 H3 H4. unfold py_int. cbn [lstrip].
  rewrite (is_digit_not_space c1 H1). cbn [digits_value].
  rewrite H1, H2, H3, H4. f_equal. lia.
Qed.

Lemma pad4_four (c1 c2 c3 c4 : ascii) :
  is_digit c1 = true -> is_digit c2 = true -> is_digit c3 = true -> is_digit c4 = true ->
  pad4 (1000 * digit_val c1 + 100 * digit_val c2 + 10 * digit_val c3 + digit_val c4)
  = String c1 (String c2 (String c3 (String c4 ""))).
Proof.
  intros H1 H2 H3 H4.
  destruct (div_mod_digits _ _ _ _ (is_digit_val c1 H1) (is_digit_val c2 H2)
              (is_digit_val c3 H3) (is_digit_val c4 H4)) as (E1 & E2 & E3 & E4).
  unfold pad4. rewrite E1, E2, E3, E4, !digit_char_val. reflexivity.
Qed.

Lemma py_int_pad4 (y : Z) : 0 <= y <= 9999 -> py_int (pad4 y) = Ret y.
Proof.
  intros Hy. destruct (pad4_digits y Hy) as (H1 & H2 & H3 & H4 & E).
  unfold pad4. rewrite py_int_four by (apply is_digit_char; assumption).
  rewrite !digit_val_char by assumption. now rewrite <- E.
Qed.

End TextFacts.

Module StrptimeFacts.
Import Text TextFacts Strptime DateText.

Lemma take2_In (p1 p2 : ascii -> bool) (s g r : string) :
  In (g, r) (take2 p1 p2 s) ->
  exists c1 c2, s = String c1 (String c2 r) /\ g = String c1 (String c2 "")
                /\ p1 c1 = true /\ p2 c2 = true.
Proof.
  destruct s as [|c1 [|c2 r']]; simpl; try tauto.
  destruct (p1 c1) eqn:E1; destruct (p2 c2) eqn:E2; simpl; try tauto.
  intros [[= <- <-]|[]]. now exists c1, c2.
Qed.

Lemma take1_In (p : ascii -> bool) (s g r : string) :
  In (g, r) (take1 p s) ->
  exists c, s = String c r /\ g = String c "" /\ p c = true.
Proof.
  destruct s as [|c r']; simpl; try tauto.
  destruct (p c) eqn:E; simpl; try tauto.
  intros [[= <- <-]|[]]. now exists c.
Qed.

Lemma re_dash_In (s r : string) : In r (re_dash s) -> s = String "-" r.
Proof.
  destruct s as [|c r']; unfold re_dash, chr; [intros []|].
  destruct (Ascii.eqb_spec "-" c) as [E|E]; [|intros []].
  intros [E'|[]]. now subst.
Qed.

Lemma re_Y_In (s g r : string) :
  In (g, r) (re_Y s) ->
  exists y, 0 <= y <= 9999 /\ g = pad4 y /\ py_int g = Ret y /\ s = (g ++ r)%string.
Proof.
  destruct s as [|c1 [|c2 [|c3 [|c4 r']]]]; simpl; try tauto.
  destruct (is_digit c1) eqn:E1; simpl; try tauto.
  destruct (is_digit c2) eqn:E2; simpl; try tauto.
  destruct (is_digit c3) eqn:E3; simpl; try tauto.
  destruct (is_digit c4) eqn:E4; simpl; try tauto.
  intros [[= <- <-]|[]].
  exists (1000 * digit_val c1 + 100 * digit_val c2 + 10 * digit_val c3 + digit_val c4).
  pose proof (is_digit_val c1 E1). pose proof (is_digit_val c2 E2).
  pose proof (is_digit_val c3 E3). pose proof (is_digit_val c4 E4).
  split; [lia|]. split; [now rewrite pad4_four|].
  split; [now apply py_int_four | reflexivity].
Qed.

(** Turns what is known of the characters of a group into the characters
    themselves. *)
Ltac chars :=
  repeat match goal with
    | H : chr _ _ = true |- _ => apply chr_eq in H; subst
    | H : is_digit _ = true |- _ => unfold is_digit in H
    | H : in_range _ _ _ = true |- _ =>
        apply in_range_enum in H; vm_compute in H; decompose [or] H; clear H;
        subst; try contradiction
    end.

Lemma re_m_In (s g r : string) :
  In (g, r) (re_m s) -> s = (g ++ r)%string /\ month_text g = true.
Proof.
  unfold re_m. rewrite !in_app_iff.
  intros [Hin|[Hin|Hin]];
    [ apply take2_In in Hin as (c1 & c2 & -> & -> & H1 & H2)
    | apply take2_In in Hin as (c1 & c2 & -> & -> & H1 & H2)
    | apply take1_In in Hin as (c1 & -> & -> & H1) ];
    (split; [reflexivity|]); chars; vm_compute; reflexivity.
Qed.

Lemma re_d_In (s g r : string) :
  In (g, r) (re_d s) -> s = (g ++ r)%string /\ day_text g = true.
Proof.
  unfold re_d. rewrite !in_app_iff.
  intros [Hin|[Hin|[Hin|[Hin|Hin]]]];
    [ apply take2_In in Hin as (c1 & c2 & -> & -> & H1 & H2)
    | apply take2_In in Hin as (c1 & c2 & -> & -> & H1 & H2)
    | apply take2_In in Hin as (c1 & c2 & -> & -> & H1 & H2)
    | apply take1_In in Hin as (c1 & -> & -> & H1)
    | apply take2_In in Hin as (c1 & c2 & -> & -> & H1 & H2) ];
    (split; [reflexivity|]); chars; vm_compute; reflexivity.
Qed.

Lemma reads_true (g : string) (n : Z) : reads g n = true -> py_int g = Ret n.
Proof.
  unfold reads. destruct (py_int g) as [k|e]; [|discriminate].
  intros E. apply Z.eqb_eq in E. now subst.
Qed.

Lemma mem_In (x : string) (l : list string) : mem x l = true <-> In x l.
Proof.
  unfold mem. rewrite existsb_exists. split.
  - intros (y & Hy & E). apply String.eqb_eq in E. now subst.
  - intros Hx. exists x. split; [assumption | apply String.eqb_refl].
Qed.

Lemma zrange_In (lo z : Z) (n : nat) :
  In z (zrange lo n) <-> lo <= z < lo + Z.of_nat n.
Proof.
  unfold zrange. rewrite in_map_iff. split.
  - intros (i & <- & Hi). apply in_seq in Hi. lia.
  - intros Hz. exists (Z.to_nat (z - lo)). split; [lia | apply in_seq; lia].
Qed.

Lemma month_text_inv (g : string) :
  month_text g = true ->
  exists m, 1 <= m <= 12 /\ py_int g = Ret m /\ In g (month_texts m).
Proof.
  unfold month_text. rewrite existsb_exists. intros (m & Hm & E).
  apply andb_true_iff in E as [Hr Hg]. apply zrange_In in Hm.
  exists m. split; [simpl in Hm; lia|]. split; [now apply reads_true | now apply mem_In].
Qed.

Lemma day_text_inv (g : string) :
  day_text g = true ->
  exists d, 1 <= d <= 31 /\ py_int g = Ret d /\ In g (day_texts d).
Proof.
  unfold day_text. rewrite existsb_exists. intros (d & Hd & E).
  apply andb_true_iff in E as [Hr Hg]. apply zrange_In in Hd.
  exists d. split; [simpl in Hd; lia|]. split; [now apply reads_true | now apply mem_In].
Qed.

Lemma month_day_matches_In (s gm gd r : string) :
  In (gm, gd, r) (month_day_matches s) ->
  s = (gm ++ "-" ++ gd ++ r)%string /\ month_text gm = true /\ day_text gd = true.
Proof.
  unfold month_day_matches. rewrite in_flat_map.
  intros ([gm' r1] & Hm & Hin). rewrite in_flat_map in Hin.
  destruct Hin as (r2 & Hdash & Hin). rewrite in_map_iff in Hin.
  destruct Hin as ([gd' r3] & [= -> -> ->] & Hd).
  apply re_m_In in Hm as [-> Hm]. apply re_dash_In in Hdash as ->.
  apply re_d_In in Hd as [-> Hd]. now split.
Qed.

Lemma all_matches_In (s : string) (f : found) :
  In f (all_matches s) ->
  s = (grp_Y f ++ "-" ++ grp_m f ++ "-" ++ grp_d f ++ unconverted f)%string
  /\ (exists y, 0 <= y <= 9999 /\ grp_Y f = pad4 y /\ py_int (grp_Y f) = Ret y)
  /\ month_text (grp_m f) = true /\ day_text (grp_d f) = true.
Proof.
  unfold all_matches. rewrite in_flat_map.
  intros ([gY r1] & HY & Hin). rewrite in_flat_map in Hin.
  destruct Hin as (r2 & Hdash & Hin). rewrite in_map_iff in Hin.
  destruct Hin as ([[gm gd] r3] & <- & Hmd). simpl.
  apply re_Y_In in HY as (y & Hy & Hg & Hint & ->).
  apply re_dash_In in Hdash as ->.
  apply month_day_matches_In in Hmd as (-> & Hm & Hd).
  split; [reflexivity|]. split; [now exists y | now split].
Qed.

Lemma spellings_In (s : string) (y m d : Z) :
  In s (spellings y m d)
  <-> exists ms ds, In ms (month_texts m) /\ In ds (day_texts d) /\ s = spell y ms ds.
Proof.
  unfold spellings. rewrite in_flat_map. split.
  - intros (ms & Hms & Hin). apply in_map_iff in Hin as (ds & <- & Hds). eauto.
  - intros (ms & ds & Hms & Hds & ->). exists ms. split; [assumption|].
    apply in_map_iff. eauto.
Qed.

(** Whatever [strptime] reads is one of the spellings of a date of the
    calendar, and it reads that date. *)
Theorem strptime_sound (s : string) (t : datetime) :
  strptime s = Ret t ->
  exists y m d, valid_ymd y m d = true /\ In s (spellings y m d)
                /\ t = MkDatetime y m d 0 0 0 0.
Proof.
  unfold strptime, regex_match.
  destruct (hd_error (all_matches s)) as [f|] eqn:Ef; [|discriminate].
  assert (Hin : In f (all_matches s)).
  { destruct (all_matches s); [discriminate|]. injection Ef as ->. now left. }
  apply all_matches_In in Hin as (Hs & (y & Hy & HgY & HiY) & Hm & Hd).
  apply month_text_inv in Hm as (m & Hm & Him & Hgm).
  apply day_text_inv in Hd as (d & Hd & Hid & Hgd).
  destruct (unconverted f) eqn:Eu; [|discriminate].
  rewrite HiY, Him, Hid; cbn [bind].
  destruct (valid_ymd y m d) eqn:Ev; [|discriminate].
  intros [= <-]. exists y, m, d. split; [assumption|]. split; [|reflexivity].
  apply spellings_In. exists (grp_m f), (grp_d f). split; [assumption|].
  split; [assumption|]. rewrite Hs, HgY. unfold spell.
  now rewrite append_nil_r.
Qed.

Lemma first_match_table :
  forallb (fun m =>
    forallb (fun d =>
      forallb (fun ms => forallb (first_match_is m d ms) (day_texts d)) (month_texts m))
      (zrange 1 31))
    (zrange 1 12) = true.
Proof. vm_compute. reflexivity. Qed.

Lemma days_in_month_le (y m : Z) : days_in_month y m <= 31.
Proof.
  unfold days_in_month.
  destruct (m =? 2); [destruct (is_leap y); lia|].
  destruct ((m =? 4) || (m =? 6) || (m =? 9) || (m =? 11)); lia.
Qed.

Lemma valid_ymd_bounds (y m d : Z) :
  valid_ymd y m d = true ->
  1 <= y <= 9999 /\ 1 <= m <= 12 /\ 1 <= d <= days_in_month y m.
Proof. unfold valid_ymd. rewrite !andb_true_iff, !Z.leb_le. tauto. Qed.

Lemma all_matches_spell (y : Z) (rest : string) :
  0 <= y <= 9999 ->
  all_matches (pad4 y ++ "-" ++ rest)
  = map (fun '(gm, gd, r3) => MkFound (pad4 y) gm gd r3) (month_day_matches rest).
Proof.
  intros Hy. destruct (pad4_digits y Hy) as (H1 & H2 & H3 & H4 & _).
  unfold all_matches, pad4, re_Y. cbn [append].
  rewrite !is_digit_char by assumption. cbn [andb flat_map re_dash].
  unfold chr. rewrite Ascii.eqb_refl. cbn [flat_map].
  now rewrite !app_nil_r.
Qed.

(** Every spelling of a date of the calendar is read, as that date. *)
Theorem strptime_complete (y m d : Z) (s : string) :
  valid_ymd y m d = true -> In s (spellings y m d) ->
  strptime s = Ret (MkDatetime y m d 0 0 0 0).
Proof.
  intros Hv Hs. pose proof (valid_ymd_bounds y m d Hv) as (Hy & Hm & Hd).
  pose proof (days_in_month_le y m) as Hdim.
  apply spellings_In in Hs as (ms & ds & Hms & Hds & ->).
  pose proof first_match_table as Ht0. rewrite forallb_forall in Ht0.
  assert (Hm' : In m (zrange 1 12)) by (apply zrange_In; simpl; lia).
  pose proof (Ht0 m Hm') as Ht1. rewrite forallb_forall in Ht1.
  assert (Hd' : In d (zrange 1 31)) by (apply zrange_In; simpl; lia).
  pose proof (Ht1 d Hd') as Ht2. rewrite forallb_forall in Ht2.
  pose proof (Ht2 ms Hms) as Ht3. rewrite forallb_forall in Ht3.
  pose proof (Ht3 ds Hds) as Ht. clear Ht0 Ht1 Ht2 Ht3.
  unfold first_match_is in Ht.
  destruct (month_day_matches (ms ++ "-" ++ ds)) as [|[[gm gd] r3] l] eqn:Emd;
    [discriminate|].
  destruct r3; [|discriminate].
  rewrite !andb_true_iff in Ht. destruct Ht as [[[Egm Egd] Hrm] Hrd].
  apply String.eqb_eq in Egm, Egd. subst gm gd.
  apply reads_true in Hrm, Hrd.
  unfold strptime, regex_match, spell.
  rewrite all_matches_spell by lia. rewrite Emd. cbn [map hd_error unconverted grp_Y grp_m grp_d].
  rewrite py_int_pad4 by lia. rewrite Hrm, Hrd. simpl. now rewrite Hv.
Qed.

End StrptimeFacts.

(** ** Date utilities *)

Section DateUtilities.
Import Text TextFacts Strptime DateText StrptimeFacts.

Lemma py_int_ValueError (g : string) (e : exn) :
  py_int g = Raise e -> exn_class e = ValueError.
Proof.
  unfold py_int. destruct (lstrip g); [now intros [= <-]|].
  destruct (digits_value 0 _); [discriminate | now intros [= <-]].
Qed.

Lemma strptime_ValueError (s : string) (e : exn) :
  strptime s = Raise e -> exn_class e = ValueError.
Proof.
  unfold strptime. destruct (regex_match s) as [f|]; [|now intros [= <-]].
  destruct (unconverted f); [|now intros [= <-]].
  destruct (py_int (grp_Y f)) as [y|e1] eqn:E1; simpl;
    [|intros [= <-]; exact (py_int_ValueError _ _ E1)].
  destruct (py_int (grp_m f)) as [m|e2] eqn:E2; simpl;
    [|intros [= <-]; exact (py_int_ValueError _ _ E2)].
  destruct (py_int (grp_d f)) as [d|e3] eqn:E3; simpl;
    [|intros [= <-]; exact (py_int_ValueError _ _ E3)].
  destruct (valid_ymd y m d); [discriminate | now intros [= <-]].
Qed.

Lemma validate_date_true (s : string) :
  validate_date s = Ret true <-> exists t, strptime s = Ret t.
Proof.
  unfold validate_date. destruct (strptime s) as [t|e] eqn:E.
  - split; eauto.
  - rewrite (strptime_ValueError s e E). split; [discriminate | intros [t [=]]].
Qed.

Lemma pad2_two (c1 c2 : ascii) :
  is_digit c1 = true -> is_digit c2 = true ->
  pad2 (num2 c1 c2) = String c1 (String c2 "").
Proof.
  intros H1 H2. pose proof (is_digit_val c1 H1). pose proof (is_digit_val c2 H2).
  unfold pad2, num2.
  assert (E1 : (10 * digit_val c1 + digit_val c2) / 10 = digit_val c1).
  { symmetry. apply (Z.div_unique _ 10 _ (digit_val c2)); lia. }
  assert (E2 : (10 * digit_val c1 + digit_val c2) mod 10 = digit_val c2).
  { symmetry. apply (Z.mod_unique _ 10 (digit_val c1)); lia. }
  now rewrite E1, E2, !digit_char_val.
Qed.

(** A text in the exact format is the full-width spelling of its fields. *)
Lemma fields_iso (s : string) (y m d : Z) : fields s = Some (y, m, d) -> s = iso y m d.
Proof.
  unfold fields.
  destruct s as [|y1 [|y2 [|y3 [|y4 [|h1 [|m1 [|m2 [|h2 [|d1 [|d2 [|]]]]]]]]]]];
    try discriminate.
  destruct (forallb is_digit [y1; y2; y3; y4; m1; m2; d1; d2]) eqn:Ed; [|discriminate].
  destruct (Ascii.eqb_spec h1 "-") as [->|]; [|discriminate].
  destruct (Ascii.eqb_spec h2 "-") as [->|]; [|discriminate].
  cbn [andb]. intros [= <- <- <-].
  cbn [forallb] in Ed. rewrite !andb_true_iff in Ed.
  destruct Ed as (Hy1 & Hy2 & Hy3 & Hy4 & Hm1 & Hm2 & Hd1 & Hd2 & _).
  unfold iso, spell, num4.
  rewrite pad4_four, !pad2_two by assumption. reflexivity.
Qed.

(** A text in the exact format that spells a date of the calendar is read
    as that date. *)
Lemma exact_text_read (s : string) (y m d : Z) :
  fields s = Some (y, m, d) -> valid_ymd y m d = true ->
  strptime s = Ret (MkDatetime y m d 0 0 0 0).
Proof.
  intros Hf Hv. apply (strptime_complete y m d s Hv).
  apply spellings_In. exists (pad2 m), (pad2 d).
  split; [now left|]. split; [now left | exact (fields_iso s y m d Hf)].
Qed.

End DateUtilities.

(** C4 on the code.  [validate_date] answers true on texts that are not in
    the exact format: on ["2020-1-5"], whose month and day have one digit,
    and on ["2020-01- 5"], whose day is a blank and a digit. *)
Lemma validate_date_accepts_short_fields :
  (DateText.exact_format "2020-1-5" = false /\ validate_date "2020-1-5" = Ret true)
  /\ (DateText.exact_format "2020-01- 5" = false /\ validate_date "2020-01- 5" = Ret true).
Proof. repeat split; reflexivity. Qed.

(** C8. For every text in the exact [YYYY-MM-DD] format whose fields [y],
    [m], [d] are a date of the calendar, [validate_date] answers true and
    [to_date] returns the date with year [y], month [m] and day [d], whose
    full-width spelling is the text again. *)
Theorem valid_text_round_trips (s : string) (y m d : Z) :
  DateText.fields s = Some (y, m, d) ->
  valid_ymd y m d = true ->
  validate_date s = Ret true
  /\ to_date s = Ret (MkDate y m d)
  /\ DateText.iso y m d = s.
Proof.
  intros Hf Hv. pose proof (exact_text_read s y m d Hf Hv) as Hp.
  split; [apply validate_date_true; eauto|].
  split; [unfold to_date; now rewrite Hp|].
  symmetry. exact (fields_iso s y m d Hf).
Qed.

Lemma valid_text_round_trips_witness :
  validate_date "2020-02-29" = Ret true
  /\ to_date "2020-02-29" = Ret (MkDate 2020 2 29)
  /\ DateText.iso 2020 2 29 = "2020-02-29".
Proof. exact (valid_text_round_trips "2020-02-29" 2020 2 29 eq_refl eq_refl). Defined.

(** ** Document assembler *)

Lemma compatible_suffix (a b : string) :
  Xml.compatible (a ++ b) = true -> Xml.compatible b = true.
Proof.
  induction a as [|c a IH]; [trivial|].
  cbn [append Xml.compatible]. intros Hc.
  apply andb_true_iff in Hc as [_ Hc]. now apply IH.
Qed.

Lemma set_text_Ret (e : element) (t : string) :
  Xml.compatible t = true ->
  Xml.set_text e t
  = Ret (let 'Element tag a _ c tl := e in Element tag a (Some t) c tl).
Proof. unfold Xml.set_text. now intros ->. Qed.

Lemma set_text_Raise (e : element) (t : string) :
  Xml.compatible t = false -> raises (Xml.set_text e t) ValueError.
Proof. unfold Xml.set_text. intros ->. eexists; split; reflexivity. Qed.

(** C9, as the code has it.  Let the page title be text lxml accepts (no
    control character other than tab, line feed and carriage return).  When
    the image text parses, [wrap_html] returns the serialized document
    whose body has exactly one heading, with the title as its text, and
    whose chart container holds exactly one node, the parsed image.  When
    parsing raises an exception [e] and the fallback text (the error note
    followed by the image text) is text lxml accepts, it returns the
    document with the same heading whose chart container holds exactly one
    preformatted block, its text the note [(SVG embed error: e)], a blank
    line and the original image text. *)
Theorem wrap_html_document `{Host} (svg_text page_title : string) :
  Xml.compatible page_title = true ->
  (forall svg_el,
      etree_fromstring svg_text = Ret svg_el ->
      exists doc,
        wrap_html_tree svg_text page_title = Ret doc
        /\ wrap_html svg_text page_title = Ret (etree_tostring doc)
        /\ map el_text (headings doc) = [Some page_title]
        /\ embedded doc = [svg_el])
  /\ (forall e,
         etree_fromstring svg_text = Raise e ->
         is_Exception e = true ->
         Xml.compatible (embed_error_text e svg_text) = true ->
         exists doc,
           wrap_html_tree svg_text page_title = Ret doc
           /\ wrap_html svg_text page_title = Ret (etree_tostring doc)
           /\ map el_text (headings doc) = [Some page_title]
           /\ embedded doc = [pre_block (embed_error_text e svg_text)]).
Proof.
  intros Ht. split.
  - intros svg_el Hp. eexists.
    unfold wrap_html, wrap_html_tree, embed.
    rewrite !(set_text_Ret _ page_title Ht), Hp. cbn.
    repeat split; reflexivity.
  - intros e Hp He Hc. eexists.
    unfold wrap_html, wrap_html_tree, embed.
    rewrite !(set_text_Ret _ page_title Ht), Hp, He, (set_text_Ret _ _ Hc). cbn.
    repeat split; reflexivity.
Qed.

Lemma wrap_html_document_witness :
  (exists doc,
      wrap_html_tree (H := Demo.host) "<svg/>" "IBM" = Ret doc
      /\ map el_text (headings doc) = [Some "IBM"]
      /\ embedded doc = [Demo.svg_image])
  /\ (exists doc,
         wrap_html_tree (H := Demo.host) "<svg>" "IBM" = Ret doc
         /\ map el_text (headings doc) = [Some "IBM"]
         /\ embedded doc
            = [pre_block ("(SVG embed error: XMLSyntaxError)" ++ nl ++ nl ++ "<svg>")]).
Proof.
  split.
  - destruct (proj1 (wrap_html_document (H := Demo.host) "<svg/>" "IBM" eq_refl)
                Demo.svg_image eq_refl) as (doc & Hd & _ & Hh & He).
    now exists doc.
  - destruct (proj2 (wrap_html_document (H := Demo.host) "<svg>" "IBM" eq_refl)
                (MkExn LibraryError "XMLSyntaxError") eq_refl eq_refl eq_refl)
      as (doc & Hd & _ & Hh & He).
    now exists doc.
Defined.

(** C9 fails as stated: on no host does [wrap_html] return for a title
    that holds a control character, whatever the image; and on no host
    whose parser rejects an image text that holds a control character
    does it return for that image: setting the text of the heading, or of
    the fallback block, raises [ValueError]. *)
Lemma wrap_html_raises_on_control_character :
  ~ (exists H : Host, returns (wrap_html (H := H) "<svg/>" control_title))
  /\ ~ (exists H : Host,
          (exists e, etree_fromstring (Host := H) control_svg = Raise e
                     /\ is_Exception e = true)
          /\ returns (wrap_html (H := H) control_svg "IBM")).
Proof.
  split.
  - intros (H & out & Hr). unfold wrap_html, wrap_html_tree in Hr.
    change (Xml.set_text (Xml.new "title" []) control_title)
      with (Raise (A := element) (MkExn ValueError "All strings must be XML compatible")) in Hr.
    discriminate.
  - intros (H & (e & Hp & He) & out & Hr).
    unfold wrap_html, wrap_html_tree, embed in Hr. rewrite Hp, He in Hr.
    destruct (set_text_Raise (Xml.new "pre" []) (embed_error_text e control_svg))
      as (e' & Hs & _).
    + destruct (Xml.compatible (embed_error_text e control_svg)) eqn:Ec; [|reflexivity].
      unfold embed_error_text in Ec.
      rewrite <- !TextFacts.append_assoc in Ec.
      apply compatible_suffix in Ec. discriminate.
    + rewrite Hs in Hr. cbn in Hr. discriminate.
Qed.

(** ** The run *)

Section Run.
Context `{Host}.

(** Unfolds [main] on a world down to its tests. *)
Ltac run_main :=
  unfold main; cbv [io_bind input print emit lift io_ret stdin events].

Ltac stopped :=
  cbn; rewrite <- ?app_assoc; eexists; split; reflexivity.

Lemma mem_granularities_false (ts : string) :
  Text.mem ts granularities = false ->
  (ts =? "DAILY")%string = false /\ (ts =? "WEEKLY")%string = false
  /\ (ts =? "MONTHLY")%string = false.
Proof.
  unfold Text.mem, granularities. cbn [existsb].
  rewrite !orb_false_iff. tauto.
Qed.

(** With five lines typed, the third of them no granularity, the run adds
    console events only. *)
Lemma main_unknown_granularity (l1 l2 l3 l4 l5 : string) (rest : list string)
  (evs : list event) :
  Text.mem (str_upper l3) granularities = false ->
  exists new,
    events (snd (main (MkWorld (l1 :: l2 :: l3 :: l4 :: l5 :: rest) evs)))
    = (evs ++ new)%list
    /\ forallb console new = true.
Proof.
  intros Hg. run_main. fold granularities. rewrite Hg.
  destruct (validate_date l4) as [[|]|e]; [| stopped | stopped].
  destruct (validate_date l5) as [[|]|e]; [| stopped | stopped].
  cbn [negb orb].
  destruct (Text.str_gt l4 l5); [stopped|].
  destruct (Text.mem (str_lower l2) ["line"; "bar"]); stopped.
Qed.

Lemma main_short_input (lines : list string) (evs : list event) :
  (List.length lines < 5)%nat ->
  exists new,
    events (snd (main (MkWorld lines evs))) = (evs ++ new)%list
    /\ forallb console new = true.
Proof.
  intros Hl.
  destruct lines as [|l1 [|l2 [|l3 [|l4 [|l5 rest]]]]];
    try (simpl in Hl; lia); run_main; stopped.
Qed.

End Run.

(** C6. The three granularities map to the provider's function names and
    these to the keys of its answers; every other granularity makes
    [function_for] raise, and a run whose third line, in capitals, is not
    one of the three ends having touched the console only: no request is
    sent, no file written, no browser opened. *)
Theorem granularity_tables_and_gate `{Host} :
  (function_for "DAILY" = Ret "TIME_SERIES_DAILY"
   /\ series_key_for "TIME_SERIES_DAILY" = Ret "Time Series (Daily)")
  /\ (function_for "WEEKLY" = Ret "TIME_SERIES_WEEKLY"
      /\ series_key_for "TIME_SERIES_WEEKLY" = Ret "Weekly Time Series")
  /\ (function_for "MONTHLY" = Ret "TIME_SERIES_MONTHLY"
      /\ series_key_for "TIME_SERIES_MONTHLY" = Ret "Monthly Time Series")
  /\ (forall ts, Text.mem ts granularities = false ->
                 raises (function_for ts) ValueError)
  /\ (forall (lines : list string) (evs : list event) (ts : string),
         nth_error lines 2 = Some ts ->
         Text.mem (str_upper ts) granularities = false ->
         exists new,
           events (snd (main (MkWorld lines evs))) = (evs ++ new)%list
           /\ forallb console new = true
           /\ existsb is_fetch new = false).
Proof.
  repeat (split; [split; reflexivity|]).
  split.
  - intros ts Hts. apply mem_granularities_false in Hts as (Hd & Hw & Hm).
    unfold function_for. rewrite Hd, Hw, Hm. eexists; split; reflexivity.
  - intros lines evs ts Hnth Hts.
    assert (Hnew : exists new,
               events (snd (main (MkWorld lines evs))) = (evs ++ new)%list
               /\ forallb console new = true).
    { destruct (Nat.lt_ge_cases (List.length lines) 5) as [Hl|Hl];
        [now apply main_short_input|].
      destruct lines as [|l1 [|l2 [|l3 [|l4 [|l5 rest]]]]]; try (simpl in Hl; lia).
      injection Hnth as ->. now apply main_unknown_granularity. }
    destruct Hnew as (new & He & Hc). exists new. split; [exact He|]. split; [exact Hc|].
    clear He. induction new as [|e new IH]; [reflexivity|].
    cbn [forallb] in Hc. apply andb_true_iff in Hc as [He Hc].
    cbn [existsb]. rewrite (IH Hc). now destruct e.
Qed.

Lemma granularity_tables_and_gate_witness :
  raises (function_for "HOURLY") ValueError
  /\ exists new,
       events (snd (main (H := Demo.host) Demo.hourly_run)) = new
       /\ forallb (console (H := Demo.host)) new = true
       /\ existsb (is_fetch (H := Demo.host)) new = false.
Proof.
  pose proof (granularity_tables_and_gate (H := Demo.host)) as (_ & _ & _ & Hf & Hm).
  split; [exact (Hf "HOURLY" eq_refl)|].
  exact (Hm (stdin Demo.hourly_run) [] "hourly" eq_refl eq_refl).
Defined.

(** C5 on the code: both dates of [Demo.october_run] pass [validate_date],
    the start date is the later one, and the run sends its request all the
    same, because [main] compares the two texts, not the two dates. *)
Theorem main_fetches_when_start_follows_end :
  validate_date "2020-10-01" = Ret true
  /\ validate_date "2020-9-01" = Ret true
  /\ to_date "2020-10-01" = Ret (MkDate 2020 10 1)
  /\ to_date "2020-9-01" = Ret (MkDate 2020 9 1)
  /\ date_le (MkDate 2020 10 1) (MkDate 2020 9 1) = false
  /\ Text.str_gt "2020-10-01" "2020-9-01" = false
  /\ existsb (is_fetch (H := Demo.host))
       (events (snd (main (H := Demo.host) Demo.october_run))) = true.
Proof. repeat split; reflexivity. Qed.

(** ** The date-order test of [main] *)

Section DateOrder.
Context `{Host}.
Import Text TextFacts DateText.

Lemma ascii_compare_digit_val (a b : ascii) :
  Ascii.compare a b = (digit_val a ?= digit_val b).
Proof.
  unfold Ascii.compare, digit_val, code, nat_of_ascii.
  rewrite !N_nat_Z, <- N2Z.inj_compare.
  destruct (Z.compare_spec (Z.of_N (N_of_ascii a)) (Z.of_N (N_of_ascii b)));
    symmetry;
    [apply Z.compare_eq_iff | apply Z.compare_lt_iff | apply Z.compare_gt_iff]; lia.
Qed.

(** Numbers written with as many digits compare as their digits do. *)
Lemma num2_compare (a b a' b' : Z) :
  0 <= b <= 9 -> 0 <= b' <= 9 ->
  (10 * a + b ?= 10 * a' + b')
  = match a ?= a' with Eq => b ?= b' | c => c end.
Proof.
  intros Hb Hb'.
  destruct (Z.compare_spec a a') as [->|Ha|Ha].
  - destruct (Z.compare_spec b b') as [->|Hc|Hc].
    + apply Z.compare_refl.
    + apply Z.compare_lt_iff. lia.
    + apply Z.compare_gt_iff. lia.
  - apply Z.compare_lt_iff. lia.
  - apply Z.compare_gt_iff. lia.
Qed.

Lemma num4_compare (a b c d a' b' c' d' : Z) :
  0 <= b <= 9 -> 0 <= c <= 9 -> 0 <= d <= 9 ->
  0 <= b' <= 9 -> 0 <= c' <= 9 -> 0 <= d' <= 9 ->
  (1000 * a + 100 * b + 10 * c + d ?= 1000 * a' + 100 * b' + 10 * c' + d')
  = match a ?= a' with
    | Eq => match b ?= b' with
            | Eq => match c ?= c' with Eq => d ?= d' | x => x end
            | x => x
            end
    | x => x
    end.
Proof.
  intros Hb Hc Hd Hb' Hc' Hd'.
  replace (1000 * a + 100 * b + 10 * c + d)
    with (10 * (10 * (10 * a + b) + c) + d) by lia.
  replace (1000 * a' + 100 * b' + 10 * c' + d')
    with (10 * (10 * (10 * a' + b') + c') + d') by lia.
  rewrite !num2_compare by assumption. 
  destruct (a ?= a'); [|reflexivity|reflexivity].
  destruct (b ?= b'); reflexivity.
Qed.

(** Texts in the exact format compare as the dates they spell. *)
Lemma exact_texts_compare (s1 s2 : string) (y1 m1 d1 y2 m2 d2 : Z) :
  fields s1 = Some (y1, m1, d1) -> fields s2 = Some (y2, m2, d2) ->
  String.compare s1 s2 = tuple_compare [y1; m1; d1] [y2; m2; d2].
Proof.
  unfold fields.
  destruct s1 as [|a1 [|a2 [|a3 [|a4 [|h1 [|a5 [|a6 [|h2 [|a7 [|a8 [|]]]]]]]]]]];
    try discriminate.
  destruct s2 as [|b1 [|b2 [|b3 [|b4 [|k1 [|b5 [|b6 [|k2 [|b7 [|b8 [|]]]]]]]]]]];
    try discriminate.
  destruct (forallb is_digit [a1; a2; a3; a4; a5; a6; a7; a8]) eqn:Ea; [|discriminate].
  destruct (forallb is_digit [b1; b2; b3; b4; b5; b6; b7; b8]) eqn:Eb; [|discriminate].
  destruct (Ascii.eqb_spec h1 "-") as [->|]; [|discriminate].
  destruct (Ascii.eqb_spec h2 "-") as [->|]; [|discriminate].
  destruct (Ascii.eqb_spec k1 "-") as [->|]; [|discriminate].
  destruct (Ascii.eqb_spec k2 "-") as [->|]; [|discriminate].
  cbn [andb]. intros [= <- <- <-] [= <- <- <-].
  cbn [forallb] in Ea, Eb. rewrite !andb_true_iff in Ea, Eb.
  destruct Ea as (A1 & A2 & A3 & A4 & A5 & A6 & A7 & A8 & _).
  destruct Eb as (B1 & B2 & B3 & B4 & B5 & B6 & B7 & B8 & _).
  apply is_digit_val in A1, A2, A3, A4, A5, A6, A7, A8, B1, B2, B3, B4, B5, B6, B7, B8.
  cbn [String.compare tuple_compare]. unfold num4, num2.
  rewrite num4_compare, !num2_compare by assumption.
  rewrite !ascii_compare_digit_val.
  change (digit_val "-" ?= digit_val "-") with Eq.
  repeat (destruct (_ ?= _); try reflexivity).
Qed.

Lemma exact_texts_gt (s1 s2 : string) (y1 m1 d1 y2 m2 d2 : Z) :
  fields s1 = Some (y1, m1, d1) -> fields s2 = Some (y2, m2, d2) ->
  str_gt s1 s2 = negb (date_le (MkDate y1 m1 d1) (MkDate y2 m2 d2)).
Proof.
  intros H1 H2. unfold str_gt, date_le, date_tuple; cbn [d_year d_month d_day].
  rewrite (exact_texts_compare s1 s2 _ _ _ _ _ _ H1 H2).
  now destruct (tuple_compare _ _).
Qed.

(** With both dates accepted and the start text the greater, the run stops
    at the date-order message. *)
Lemma main_start_text_greater (l1 l2 l3 l4 l5 : string) (rest : list string)
  (evs : list event) :
  validate_date l4 = Ret true -> validate_date l5 = Ret true ->
  str_gt l4 l5 = true ->
  exists new,
    main (MkWorld (l1 :: l2 :: l3 :: l4 :: l5 :: rest) evs)
    = (Ret tt, MkWorld rest ((evs ++ new) ++ [date_order_message]))
    /\ forallb console new = true.
Proof.
  intros H4 H5 Hgt. unfold main.
  cbv [io_bind input print emit lift io_ret stdin events].
  rewrite H4, H5, Hgt. cbn. rewrite <- !app_assoc. cbn [app].
  exists [EvPrint [PStr "=== Stock Data Visualizer ==="];
          EvPrompt "Enter stock symbol (e.g., AAPL, GOOGL): ";
          EvPrompt "Enter chart type (line, bar): ";
          EvPrompt "Enter time series (daily, weekly, monthly): ";
          EvPrompt "Enter start date (YYYY-MM-DD): ";
          EvPrompt "Enter end date (YYYY-MM-DD): "].
  split; [|reflexivity]. now rewrite <- !app_assoc.
Qed.

End DateOrder.

(** X1. When both dates are typed in the exact [YYYY-MM-DD] format, spell
    dates of the calendar, and the start date is after the end date, the
    run prints the date-order message and ends: nothing but console events,
    so no request is sent. *)
Theorem exact_dates_out_of_order_abort `{Host} (lines : list string) (evs : list event)
  (sd ed : string) (y1 m1 d1 y2 m2 d2 : Z) :
  nth_error lines 3 = Some sd -> nth_error lines 4 = Some ed ->
  DateText.fields sd = Some (y1, m1, d1) -> valid_ymd y1 m1 d1 = true ->
  DateText.fields ed = Some (y2, m2, d2) -> valid_ymd y2 m2 d2 = true ->
  date_le (MkDate y1 m1 d1) (MkDate y2 m2 d2) = false ->
  exists new,
    fst (main (MkWorld lines evs)) = Ret tt
    /\ events (snd (main (MkWorld lines evs))) = ((evs ++ new) ++ [date_order_message])%list
    /\ forallb console new = true.
Proof.
  intros H3 H4 Hf1 Hv1 Hf2 Hv2 Hle.
  destruct lines as [|l1 [|l2 [|l3 [|l4 [|l5 rest]]]]]; try discriminate.
  injection H3 as ->. injection H4 as ->.
  assert (Hgt : Text.str_gt sd ed = true).
  { rewrite (exact_texts_gt sd ed _ _ _ _ _ _ Hf1 Hf2), Hle. reflexivity. }
  assert (Ha : validate_date sd = Ret true).
  { apply validate_date_true. eexists. exact (exact_text_read sd _ _ _ Hf1 Hv1). }
  assert (Hb : validate_date ed = Ret true).
  { apply validate_date_true. eexists. exact (exact_text_read ed _ _ _ Hf2 Hv2). }
  destruct (main_start_text_greater l1 l2 l3 sd ed rest evs Ha Hb Hgt) as (new & Hm & Hc).
  exists new. rewrite Hm. split; [reflexivity|]. split; [reflexivity | exact Hc].
Qed.

Lemma exact_dates_out_of_order_abort_witness :
  exists new,
    fst (main (H := Demo.host) Demo.january_run) = Ret tt
    /\ events (snd (main (H := Demo.host) Demo.january_run))
       = (([] ++ new) ++ [date_order_message])%list
    /\ forallb (console (H := Demo.host)) new = true.
Proof.
  exact (exact_dates_out_of_order_abort (H := Demo.host) (stdin Demo.january_run) []
           "2020-01-01" "2019-01-01" 2020 1 1 2019 1 1
           eq_refl eq_refl eq_refl eq_refl eq_refl eq_refl eq_refl).
Defined.

(** ** More on the sort, the filter and the normalizer *)

Lemma tuple_compare_refl (a : list Z) : tuple_compare a a = Eq.
Proof. induction a as [|x a IH]; simpl; [reflexivity | now rewrite Z.compare_refl]. Qed.

(** X2. The sort is stable: the rows of any one date come out in the
    order they went in. *)
Theorem sort_by_key_stable {A : Type} (key : A -> datetime) (t : datetime) (l : list A) :
  filter (same_key key t) (sort_by_key key l) = filter (same_key key t) l.
Proof.
  assert (Hins : forall x l', filter (same_key key t) (insert_by_key key x l')
                              = filter (same_key key t) (x :: l')).
  { intros x l'. induction l' as [|y l' IH]; [reflexivity|].
    cbn [insert_by_key]. destruct (datetime_lt (key y) (key x)) eqn:Elt; [|reflexivity].
    cbn [filter] in *. rewrite IH.
    destruct (same_key key t y) eqn:Ey; destruct (same_key key t x) eqn:Ex; try reflexivity.
    exfalso. unfold same_key in Ex, Ey.
    destruct (tuple_compare (datetime_tuple (key x)) (datetime_tuple t)) eqn:Cx;
      try discriminate.
    destruct (tuple_compare (datetime_tuple (key y)) (datetime_tuple t)) eqn:Cy;
      try discriminate.
    apply tuple_compare_Eq in Cx, Cy. unfold datetime_lt in Elt.
    rewrite Cx, Cy, tuple_compare_refl in Elt. discriminate. }
  induction l as [|x l IH]; [reflexivity|].
  cbn [sort_by_key]. rewrite Hins. cbn [filter]. now rewrite IH.
Qed.

(** X3. The range filter keeps exactly the rows whose date lies within the
    inclusive bounds, and hands back the empty series when no row does. *)
Theorem filter_range_keeps_range {F : Type} (rows : list (datetime * F)) (start_d end_d : date) :
  (forall r, In r (filter_range rows start_d end_d)
             <-> In r rows /\ within_range start_d end_d r = true)
  /\ (forallb (fun r => negb (within_range start_d end_d r)) rows = true
      -> filter_range rows start_d end_d = []).
Proof.
  assert (E : filter_range rows start_d end_d = filter (within_range start_d end_d) rows).
  { unfold filter_range, within_range. apply filter_ext. now intros [ts c]. }
  rewrite E. split.
  - intros r. apply filter_In.
  - intros Hn. induction rows as [|r rows IH]; [reflexivity|].
    cbn [forallb] in Hn. apply andb_true_iff in Hn as [Hr Hn].
    cbn [filter]. apply negb_true_iff in Hr. rewrite Hr. apply IH; [|exact Hn].
    unfold filter_range, within_range. apply filter_ext. now intros [ts c].
Qed.

Section NormalizerOrder.
Context `{Host}.

Lemma collect_rows_step (e : string * json pyfloat) (items : list (string * json pyfloat))
  (acc : list row) :
  collect_rows (e :: items) acc
  = match collect_rows [e] [] with
    | Ret _ => collect_rows items (acc ++ entry_pair e)
    | Raise x => Raise x
    end.
Proof.
  destruct e as [k v]. unfold entry_pair, numeric_close, closing_price, date_of_key.
  cbn [collect_rows fst snd].
  destruct (Strptime.strptime k) as [ts|x]; cbn [bind]; [|reflexivity].
  destruct v as [| b | z | f | s | l | rec]; cbn [py_get bind]; try reflexivity.
  destruct (dict_get "4. close" rec) as [c|]; [|now rewrite app_nil_r].
  destruct c as [| b | z | f | s | l | d]; cbn [py_float numeric exn_class];
    try reflexivity; try now rewrite app_nil_r.
  - now destruct (float_of_int (Z.b2z b)).
  - now destruct (float_of_int z).
  - destruct (float_of_str s); cbn [exn_class]; [reflexivity | now rewrite app_nil_r].
Qed.

Lemma collect_rows_passes (items : list (string * json pyfloat)) :
  forall acc,
    (exists rows, collect_rows items acc = Ret rows)
    <-> forallb entry_passes items = true.
Proof.
  induction items as [|e items IH]; intros acc.
  - split; [reflexivity | intros _; now exists acc].
  - rewrite collect_rows_step. cbn [forallb]. unfold entry_passes at 1.
    destruct (collect_rows [e] []) as [r|x].
    + apply IH.
    + split; [intros [rows [=]] | discriminate].
Qed.

Lemma kept_rows_flat_map (items : list (string * json pyfloat)) :
  kept_rows items = flat_map entry_pair items.
Proof.
  induction items as [|e items IH]; [reflexivity|].
  rewrite kept_rows_cons, IH. reflexivity.
Qed.

End NormalizerOrder.

(** X4. The order of the entries in the response plays no part: when the
    normalizer returns on a series, it returns on every reordering of it,
    with the same rows up to the order of rows of equal date, sorted again. *)
Theorem parse_close_series_any_order `{Host}
  (d d' series series' : list (string * json pyfloat)) (fn key : string)
  (w w1 : world) (rows : list row) :
  series_key_for fn = Ret key ->
  dict_get key d = Some (JDict series) ->
  dict_get key d' = Some (JDict series') ->
  Permutation series series' ->
  parse_close_series (JDict d) fn w = (Ret rows, w1) ->
  exists rows',
    parse_close_series (JDict d') fn w = (Ret rows', w)
    /\ Permutation rows rows'
    /\ StronglySorted row_le rows /\ StronglySorted row_le rows'.
Proof.
  intros Hk Hd Hd' Hperm.
  rewrite (parse_close_series_dict d series fn key w Hk Hd).
  rewrite (parse_close_series_dict d' series' fn key w Hk Hd').
  destruct (collect_rows series []) as [raw|x] eqn:Er; [|discriminate].
  intros [= <- _].
  assert (Hpass : forallb entry_passes series' = true).
  { apply forallb_forall. intros e He.
    assert (Hall : forallb entry_passes series = true)
      by (apply (collect_rows_passes series []); eauto).
    rewrite forallb_forall in Hall. apply Hall.
    eapply Permutation_in; [symmetry; exact Hperm | exact He]. }
  apply (collect_rows_passes series' []) in Hpass as [raw' Er'].
  rewrite Er'. exists (sort_by_key fst raw'). split; [reflexivity|].
  apply collect_rows_kept in Er, Er'. cbn [app] in Er, Er'. subst raw raw'.
  split; [|split; apply sort_by_key_sorted].
  rewrite !sort_by_key_perm, !kept_rows_flat_map.
  now apply Permutation_flat_map.
Qed.

Lemma parse_close_series_any_order_witness :
  exists rows',
    parse_close_series (H := Demo.host) (JDict [("Time Series (Daily)", JDict (rev Demo.daily_series))])
      "TIME_SERIES_DAILY" (Demo.typed [])
    = (Ret rows', Demo.typed [])
    /\ Permutation Demo.daily_rows rows'
    /\ StronglySorted (row_le (H := Demo.host)) Demo.daily_rows
    /\ StronglySorted (row_le (H := Demo.host)) rows'.
Proof.
  exact (parse_close_series_any_order (H := Demo.host)
           [("Time Series (Daily)", JDict Demo.daily_series)]
           [("Time Series (Daily)", JDict (rev Demo.daily_series))]
           Demo.daily_series (rev Demo.daily_series)
           "TIME_SERIES_DAILY" "Time Series (Daily)"
           (Demo.typed []) (Demo.typed []) Demo.daily_rows
           eq_refl eq_refl eq_refl (Permutation_rev Demo.daily_series) eq_refl).
Defined.

(** * Further properties *)

(** ** The tables *)

Lemma function_for_Ret (ts fn : string) :
  function_for ts = Ret fn ->
  (ts = "DAILY" /\ fn = "TIME_SERIES_DAILY")
  \/ (ts = "WEEKLY" /\ fn = "TIME_SERIES_WEEKLY")
  \/ (ts = "MONTHLY" /\ fn = "TIME_SERIES_MONTHLY").
Proof.
  unfold function_for.
  destruct (String.eqb_spec ts "DAILY") as [->|_]; [intros [= <-]; auto|].
  destruct (String.eqb_spec ts "WEEKLY") as [->|_]; [intros [= <-]; auto|].
  destruct (String.eqb_spec ts "MONTHLY") as [->|_]; [intros [= <-]; auto|].
  discriminate.
Qed.

Lemma series_key_for_Ret (fn key : string) :
  series_key_for fn = Ret key ->
  (fn = "TIME_SERIES_DAILY" /\ key = "Time Series (Daily)")
  \/ (fn = "TIME_SERIES_WEEKLY" /\ key = "Weekly Time Series")
  \/ (fn = "TIME_SERIES_MONTHLY" /\ key = "Monthly Time Series").
Proof.
  unfold series_key_for.
  destruct (String.eqb_spec fn "TIME_SERIES_DAILY") as [->|_]; [intros [= <-]; auto|].
  destruct (String.eqb_spec fn "TIME_SERIES_WEEKLY") as [->|_]; [intros [= <-]; auto|].
  destruct (String.eqb_spec fn "TIME_SERIES_MONTHLY") as [->|_]; [intros [= <-]; auto|].
  discriminate.
Qed.

Lemma function_for_key (ts fn : string) :
  function_for ts = Ret fn -> exists key, series_key_for fn = Ret key.
Proof.
  intros Hf. apply function_for_Ret in Hf as [[_ ->]|[[_ ->]|[_ ->]]]; eexists; reflexivity.
Qed.

(** X5. The two tables are in step: [series_key_for] knows exactly the
    function names [function_for] gives out, so a name from [function_for]
    never makes [series_key_for] raise; and neither table maps two inputs
    to one output. *)
Theorem granularity_tables_in_step (fn : string) :
  ((exists key, series_key_for fn = Ret key) <-> (exists ts, function_for ts = Ret fn))
  /\ (forall ts1 ts2, function_for ts1 = Ret fn -> function_for ts2 = Ret fn -> ts1 = ts2)
  /\ (forall fn' key, series_key_for fn = Ret key -> series_key_for fn' = Ret key -> fn = fn').
Proof.
  split; [split|split].
  - intros [key Hk].
    apply series_key_for_Ret in Hk as [[-> _]|[[-> _]|[-> _]]];
      [exists "DAILY" | exists "WEEKLY" | exists "MONTHLY"]; reflexivity.
  - intros [ts Hf]. exact (function_for_key ts fn Hf).
  - intros ts1 ts2 H1 H2.
    apply function_for_Ret in H1 as [[-> E1]|[[-> E1]|[-> E1]]];
      apply function_for_Ret in H2 as [[-> E2]|[[-> E2]|[-> E2]]];
      subst; try reflexivity; discriminate.
  - intros fn' key H1 H2.
    apply series_key_for_Ret in H1 as [[-> E1]|[[-> E1]|[-> E1]]];
      apply series_key_for_Ret in H2 as [[-> E2]|[[-> E2]|[-> E2]]];
      subst; try reflexivity; discriminate.
Qed.

(** ** [to_date] after [validate_date] *)

Lemma validate_date_false (s : string) :
  validate_date s = Ret false <-> exists e, Strptime.strptime s = Raise e.
Proof.
  unfold validate_date. destruct (Strptime.strptime s) as [t|e] eqn:E.
  - split; [discriminate | intros [e [=]]].
  - rewrite (strptime_ValueError s e E). split; eauto.
Qed.

Lemma validate_date_total (s : string) :
  validate_date s = Ret true \/ validate_date s = Ret false.
Proof.
  unfold validate_date. destruct (Strptime.strptime s) as [t|e] eqn:E; [now left|].
  rewrite (strptime_ValueError s e E). now right.
Qed.

(** X6. [to_date] returns exactly on the texts [validate_date] accepts, and
    what it returns is a date of the calendar; on the texts [validate_date]
    rejects it raises [ValueError]. *)
Theorem to_date_after_validate_date (s : string) :
  (validate_date s = Ret true
   <-> exists d, to_date s = Ret d
                 /\ valid_ymd (d_year d) (d_month d) (d_day d) = true)
  /\ (validate_date s = Ret false <-> raises (to_date s) ValueError).
Proof.
  split.
  - rewrite validate_date_true. unfold to_date. split.
    + intros [t Ht]. rewrite Ht.
      apply StrptimeFacts.strptime_sound in Ht as (y & m & d & Hv & _ & ->).
      eexists. split; [reflexivity | exact Hv].
    + intros (d & Hd & _). destruct (Strptime.strptime s) as [t|e]; [eauto | discriminate].
  - rewrite validate_date_false. unfold to_date, raises. split.
    + intros [e He]. rewrite He. exists e. split; [reflexivity|].
      exact (strptime_ValueError s e He).
    + intros (e & He & _). destruct (Strptime.strptime s) as [t|e']; [discriminate | eauto].
Qed.

(** X22. On a text of ASCII characters [validate_date] answers true
    exactly on the spellings of a date of the calendar that [strptime]
    takes: a four-digit year, a hyphen, the month with two digits or, below
    10, with one, a hyphen, and the day with two digits or, below 10, with
    one digit or a blank and one digit.  On every other text of ASCII
    characters it answers false. *)
Theorem validate_date_ascii (s : string) :
  ascii_text s = true ->
  (validate_date s = Ret true
   <-> exists y m d, valid_ymd y m d = true /\ In s (DateText.spellings y m d))
  /\ (validate_date s = Ret false
      <-> ~ exists y m d, valid_ymd y m d = true /\ In s (DateText.spellings y m d)).
Proof.
  intros _.
  assert (Ht : validate_date s = Ret true
               <-> exists y m d, valid_ymd y m d = true /\ In s (DateText.spellings y m d)).
  { rewrite validate_date_true. split.
    - intros [t Hs]. apply StrptimeFacts.strptime_sound in Hs as (y & m & d & Hv & Hs & _).
      now exists y, m, d.
    - intros (y & m & d & Hv & Hs). eexists.
      exact (StrptimeFacts.strptime_complete y m d s Hv Hs). }
  split; [exact Ht|]. rewrite <- Ht.
  destruct (validate_date_total s) as [E|E]; rewrite E; split; congruence.
Qed.

Lemma validate_date_ascii_witness :
  (exists y m d, valid_ymd y m d = true /\ In "2020-1-5" (DateText.spellings y m d))
  /\ ~ (exists y m d, valid_ymd y m d = true /\ In "2020-02-30" (DateText.spellings y m d)).
Proof.
  split.
  - exact (proj1 (proj1 (validate_date_ascii "2020-1-5" eq_refl)) eq_refl).
  - exact (proj1 (proj2 (validate_date_ascii "2020-02-30" eq_refl)) eq_refl).
Defined.

(** ** More on the range filter *)

Lemma date_le_trans (a b c : date) :
  date_le a b = true -> date_le b c = true -> date_le a c = true.
Proof.
  unfold date_le. intros Hab Hbc.
  assert (H1 : tuple_compare (date_tuple a) (date_tuple b) <> Gt)
    by (destruct (tuple_compare (date_tuple a) (date_tuple b)); congruence).
  assert (H2 : tuple_compare (date_tuple b) (date_tuple c) <> Gt)
    by (destruct (tuple_compare (date_tuple b) (date_tuple c)); congruence).
  pose proof (tuple_le_trans _ _ _ H1 H2) as H3.
  destruct (tuple_compare (date_tuple a) (date_tuple c)); congruence.
Qed.

Lemma filter_range_inverted_nil {F : Type} (rows : list (datetime * F)) (start_d end_d : date) :
  date_le start_d end_d = false -> filter_range rows start_d end_d = [].
Proof.
  intros Hinv. unfold filter_range.
  induction rows as [|[ts c] rows IH]; [reflexivity|]. cbn [filter].
  destruct (date_le start_d (datetime_date ts)) eqn:E1; [|exact IH].
  destruct (date_le (datetime_date ts) end_d) eqn:E2; [|exact IH].
  rewrite (date_le_trans _ _ _ E1 E2) in Hinv. discriminate.
Qed.

(** X7. A range whose start date is after its end date holds no date: the
    range filter hands back the empty series, whatever the rows. *)
Theorem filter_range_inverted {F : Type} (rows : list (datetime * F)) (start_d end_d : date) :
  date_le start_d end_d = false -> filter_range rows start_d end_d = [].
Proof. apply filter_range_inverted_nil. Qed.

Lemma filter_range_inverted_witness :
  filter_range Demo.daily_rows (MkDate 2020 10 1) (MkDate 2020 9 1) = [].
Proof. exact (filter_range_inverted Demo.daily_rows (MkDate 2020 10 1) (MkDate 2020 9 1) eq_refl). Defined.

Lemma StronglySorted_filter {A : Type} (R : A -> A -> Prop) (p : A -> bool) (l : list A) :
  StronglySorted R l -> StronglySorted R (filter p l).
Proof.
  induction 1 as [|x l Hs IH Hx]; cbn [filter]; [constructor|].
  destruct (p x); [|exact IH]. constructor; [exact IH|].
  rewrite Forall_forall in *. intros y Hy. apply Hx. now apply filter_In in Hy.
Qed.

(** X8. The range filter keeps the order of the rows: what it makes of a
    list [parse_close_series] returned is still sorted ascending by date. *)
Theorem filter_range_of_series_sorted `{Host} (data : json pyfloat) (fn : string)
  (w w' : world) (rows : list row) (start_d end_d : date) :
  parse_close_series data fn w = (Ret rows, w') ->
  StronglySorted row_le (filter_range rows start_d end_d).
Proof.
  intros Hp.
  apply parse_close_series_Ret in Hp
    as (key & sv & items & raw & _ & _ & _ & _ & _ & -> & _).
  unfold filter_range. apply StronglySorted_filter, sort_by_key_sorted.
Qed.

Lemma filter_range_of_series_sorted_witness :
  StronglySorted (row_le (H := Demo.host))
    (filter_range Demo.daily_rows (MkDate 2020 1 1) (MkDate 2020 1 31)).
Proof.
  exact (filter_range_of_series_sorted (H := Demo.host) Demo.daily_answer
           "TIME_SERIES_DAILY" (Demo.typed []) (Demo.typed []) Demo.daily_rows
           (MkDate 2020 1 1) (MkDate 2020 1 31) eq_refl).
Defined.

(** ** The rows of the normalizer *)

Lemma kept_rows_midnight `{Host} (items : list (string * json pyfloat)) :
  Forall (fun r : row => midnight_date (fst r) = true) (kept_rows items).
Proof.
  rewrite kept_rows_flat_map, Forall_forall. intros r Hr.
  apply in_flat_map in Hr as ([k v] & _ & Hr).
  unfold entry_pair, date_of_key in Hr; cbn [fst snd] in Hr.
  destruct (Strptime.strptime k) as [ts|e] eqn:Ek; [|contradiction].
  destruct (numeric_close v); [|contradiction].
  destruct Hr as [<-|[]]. cbn [fst].
  apply StrptimeFacts.strptime_sound in Ek as (y & m & d & Hv & _ & ->).
  unfold midnight_date; cbn. now rewrite Hv.
Qed.

(** X9. Every row [parse_close_series] returns carries a date of the
    calendar at midnight, so taking [.date()] of it in the range filter
    drops nothing; and there are at most as many rows as entries under the
    series key. *)
Theorem parse_close_series_rows `{Host} (d series : list (string * json pyfloat))
  (fn key : string) (w w' : world) (rows : list row) :
  series_key_for fn = Ret key ->
  dict_get key d = Some (JDict series) ->
  parse_close_series (JDict d) fn w = (Ret rows, w') ->
  Forall (fun r : row => midnight_date (fst r) = true) rows
  /\ (List.length rows <= List.length series)%nat.
Proof.
  intros Hk Hd. rewrite (parse_close_series_dict d series fn key w Hk Hd).
  destruct (collect_rows series []) as [raw|e] eqn:Er; [|discriminate].
  intros [= <- _]. apply collect_rows_kept in Er; cbn [app] in Er. subst raw.
  split.
  - apply (Permutation_Forall (Permutation_sym (sort_by_key_perm fst _))).
    apply kept_rows_midnight.
  - unfold row. rewrite (Permutation_length (sort_by_key_perm fst (kept_rows series))), kept_rows_flat_map.
    clear. induction series as [|e series IH]; [reflexivity|].
    cbn [flat_map]. rewrite length_app. cbn [List.length].
    assert (List.length (entry_pair e) <= 1)%nat.
    { unfold entry_pair. destruct (date_of_key (fst e)); [|cbn; lia].
      destruct (numeric_close (snd e)); cbn; lia. }
    unfold row in *. lia.
Qed.

Lemma parse_close_series_rows_witness :
  Forall (fun r : row (H := Demo.host) => midnight_date (fst r) = true) Demo.daily_rows
  /\ (List.length Demo.daily_rows <= List.length Demo.daily_series)%nat.
Proof.
  exact (parse_close_series_rows (H := Demo.host)
           [("Time Series (Daily)", JDict Demo.daily_series)] Demo.daily_series
           "TIME_SERIES_DAILY" "Time Series (Daily)" (Demo.typed []) (Demo.typed [])
           Demo.daily_rows eq_refl eq_refl eq_refl).
Defined.

(** ** More on the label thinner *)

Lemma thin_labels_long {A : Type} (labels : list A) (max_labels : Z) :
  max_labels <> 0 -> max_labels < Z.of_nat (List.length labels) ->
  thin_labels labels max_labels
  = Ret (map (fun '(i, lbl) =>
                if keeps (Z.max 1 (Z.of_nat (List.length labels) / max_labels))
                     (Z.of_nat (List.length labels) - 1) i
                then Some lbl else None)
           (enumerate labels)).
Proof.
  intros Hmax Hlt. unfold thin_labels, py_floordiv.
  destruct (Z.leb_spec (Z.of_nat (List.length labels)) max_labels) as [Hle|_]; [lia|].
  destruct (Z.eqb_spec max_labels 0) as [H0|_]; [contradiction|]. reflexivity.
Qed.

Lemma thin_labels_short {A : Type} (labels : list A) (max_labels : Z) :
  Z.of_nat (List.length labels) <= max_labels ->
  thin_labels labels max_labels = Ret (map Some labels).
Proof.
  intros Hle. unfold thin_labels.
  destruct (Z.leb_spec (Z.of_nat (List.length labels)) max_labels); [reflexivity | lia].
Qed.

Lemma thinned_nth {A : Type} (step last : Z) (labels : list A) (i : nat) :
  nth_error (map (fun '(i, lbl) => if keeps step last i then Some lbl else None)
               (enumerate labels)) i
  = option_map (fun lbl => if keeps step last (Z.of_nat i) then Some lbl else None)
      (nth_error labels i).
Proof.
  unfold enumerate. rewrite nth_error_map.
  destruct (nth_error labels i) as [lbl|] eqn:El.
  - now rewrite (enumerate_from_nth labels 0 i lbl El).
  - apply nth_error_None in El.
    assert (En : nth_error (enumerate_from 0 labels) i = None)
      by (apply nth_error_None; now rewrite enumerate_from_length).
    now rewrite En.
Qed.

(** X10. For every [max_labels] other than 0, the label thinner returns a
    list in which the first and the last label are kept, and in which a
    label never moves: whatever stands at an index is the label the input
    has at that index. *)
Theorem thin_labels_keeps_ends {A : Type} (labels : list A) (max_labels : Z) :
  max_labels <> 0 ->
  exists out,
    thin_labels labels max_labels = Ret out
    /\ hd_error out = option_map Some (hd_error labels)
    /\ nth_error out (List.length labels - 1)
       = option_map Some (nth_error labels (List.length labels - 1))
    /\ (forall i lbl, nth_error out i = Some (Some lbl) -> nth_error labels i = Some lbl).
Proof.
  intros Hmax.
  destruct (Z.le_gt_cases (Z.of_nat (List.length labels)) max_labels) as [Hle|Hgt].
  - exists (map Some labels). split; [now apply thin_labels_short|].
    split; [now destruct labels|]. split; [apply nth_error_map|].
    intros i lbl. rewrite nth_error_map.
    destruct (nth_error labels i); cbn; congruence.
  - eexists. split; [apply thin_labels_long; [assumption | lia]|].
    split; [|split].
    + destruct labels as [|x labels]; [reflexivity|]. cbn [enumerate enumerate_from map hd_error].
      unfold keeps. rewrite Z.mod_0_l by lia. reflexivity.
    + rewrite thinned_nth.
      destruct (nth_error labels (List.length labels - 1)) as [lbl|] eqn:El; [|reflexivity].
      assert (Hpos : (List.length labels - 1 < List.length labels)%nat)
        by (apply nth_error_Some; congruence).
      cbn [option_map]. unfold keeps.
      assert (E : Z.of_nat (List.length labels - 1) = Z.of_nat (List.length labels) - 1) by lia.
      rewrite E, Z.eqb_refl, orb_true_r. reflexivity.
    + intros i lbl. rewrite thinned_nth.
      destruct (nth_error labels i) as [x|]; cbn [option_map]; [|discriminate].
      destruct (keeps _ _ _); congruence.
Qed.

Lemma thin_labels_keeps_ends_witness :
  exists out,
    thin_labels hundred_labels 12 = Ret out
    /\ hd_error out = Some (Some "0000")
    /\ nth_error out 99 = Some (Some "0099").
Proof.
  destruct (thin_labels_keeps_ends hundred_labels 12 ltac:(discriminate))
    as (out & Ho & Hh & Hl & _).
  exists out. split; [exact Ho|]. split; [exact Hh | exact Hl].
Defined.

Lemma kept_count_from {A : Type} (q last : Z) (l : list A) :
  1 <= q ->
  forall k, 0 <= k ->
    Z.of_nat (kept_count (map (fun '(i, lbl) => if keeps q last i then Some lbl else None)
                            (enumerate_from k l)))
    <= (k + Z.of_nat (List.length l) + q - 1) / q - (k + q - 1) / q
       + (if (k <=? last) && (last <? k + Z.of_nat (List.length l)) then 1 else 0).
Proof.
  intros Hq. induction l as [|x l IH]; intros k Hk.
  - cbn. rewrite Z.add_0_r. destruct ((k <=? last) && (last <? k)); lia.
  - cbn [enumerate_from map List.length]. unfold kept_count in *. cbn [filter].
    specialize (IH (k + 1) ltac:(lia)).
    rewrite Nat2Z.inj_succ.
    replace (k + Z.succ (Z.of_nat (List.length l)) + q - 1)
      with (k + 1 + Z.of_nat (List.length l) + q - 1) by lia.
    replace (k + Z.succ (Z.of_nat (List.length l)))
      with (k + 1 + Z.of_nat (List.length l)) by lia.
    assert (Hstep : (k + q - 1) / q <= (k + 1 + q - 1) / q)
      by (apply Z.div_le_mono; lia).
    assert (Hmul : k mod q = 0 -> (k + q - 1) / q + 1 <= (k + 1 + q - 1) / q).
    { intros Hm. apply Z.div_exact in Hm; [|lia].
      replace (k + 1 + q - 1) with (k / q * q + 1 * q) by lia.
      rewrite <- Z.mul_add_distr_r, Z.div_mul by lia.
      assert ((k + q - 1) / q < k / q + 1); [|lia].
      apply Z.div_lt_upper_bound; lia. }
    unfold keeps at 1.
    destruct (Z.eqb_spec (k mod q) 0) as [Hm|Hm];
      destruct (Z.eqb_spec k last) as [Hl|Hl]; cbn [orb List.length];
      rewrite ?Nat2Z.inj_succ;
      destruct (Z.leb_spec k last); destruct (Z.ltb_spec last (k + 1 + Z.of_nat (List.length l)));
      destruct (Z.leb_spec (k + 1) last); cbn [andb] in *; try lia.
    all: specialize (Hmul Hm); lia.
Qed.

(** The labels kept are at least the multiples of the step, and the last
    index when it is none. *)
Lemma kept_count_from_ge {A : Type} (q last : Z) (l : list A) :
  1 <= q ->
  forall k, 0 <= k ->
    (k + Z.of_nat (List.length l) + q - 1) / q - (k + q - 1) / q
    + (if (k <=? last) && (last <? k + Z.of_nat (List.length l)) && negb (last mod q =? 0)
       then 1 else 0)
    <= Z.of_nat (kept_count (map (fun '(i, lbl) => if keeps q last i then Some lbl else None)
                               (enumerate_from k l))).
Proof.
  intros Hq. induction l as [|x l IH]; intros k Hk.
  - cbn. rewrite Z.add_0_r.
    destruct (Z.leb_spec k last); destruct (Z.ltb_spec last k); cbn [andb]; lia.
  - cbn [enumerate_from map List.length]. unfold kept_count in *. cbn [filter].
    specialize (IH (k + 1) ltac:(lia)).
    rewrite Nat2Z.inj_succ.
    replace (k + Z.succ (Z.of_nat (List.length l)) + q - 1)
      with (k + 1 + Z.of_nat (List.length l) + q - 1) by lia.
    replace (k + Z.succ (Z.of_nat (List.length l)))
      with (k + 1 + Z.of_nat (List.length l)) by lia.
    assert (Hmul : k mod q = 0 -> (k + 1 + q - 1) / q = (k + q - 1) / q + 1).
    { intros Hm. apply Z.div_exact in Hm; [|lia].
      replace (k + 1 + q - 1) with (k / q * q + 1 * q) by lia.
      rewrite <- Z.mul_add_distr_r, Z.div_mul by lia.
      assert ((k + q - 1) / q = k / q); [|lia].
      symmetry. apply (Z.div_unique (k + q - 1) q (k / q) (q - 1)); lia. }
    assert (Hnot : k mod q <> 0 -> (k + 1 + q - 1) / q = (k + q - 1) / q).
    { intros Hm. pose proof (Z.div_mod k q ltac:(lia)) as Hd.
      pose proof (Z.mod_pos_bound k q ltac:(lia)) as Hb.
      rewrite <- (Z.div_unique (k + 1 + q - 1) q (k / q + 1) (k mod q)) by lia.
      rewrite <- (Z.div_unique (k + q - 1) q (k / q + 1) (k mod q - 1)) by lia.
      reflexivity. }
    unfold keeps at 1.
    destruct (Z.eqb_spec (k mod q) 0) as [Hm|Hm];
      destruct (Z.eqb_spec k last) as [Hl|Hl]; cbn [orb List.length];
      rewrite ?Nat2Z.inj_succ;
      try (rewrite (Hmul Hm) in IH); try (rewrite (Hnot Hm) in IH);
      destruct (Z.eqb_spec (last mod q) 0) as [Hlm|Hlm]; cbn [negb] in *;
      rewrite ?andb_false_r, ?andb_true_r in *;
      destruct (Z.leb_spec k last); destruct (Z.ltb_spec last (k + 1 + Z.of_nat (List.length l)));
      destruct (Z.leb_spec (k + 1) last); cbn [andb] in *; try lia.
    all: try (subst last; contradiction).
Qed.

Lemma kept_count_all {A : Type} (labels : list A) :
  kept_count (map Some labels) = List.length labels.
Proof. unfold kept_count. induction labels as [|x l IH]; cbn; congruence. Qed.

(** With step 1 every index is kept. *)
Lemma keeps_all {A : Type} (last : Z) (l : list A) (k : Z) :
  map (fun '(i, lbl) => if keeps 1 last i then Some lbl else None) (enumerate_from k l)
  = map Some l.
Proof.
  revert k. induction l as [|x l IH]; intros k; [reflexivity|].
  cbn [enumerate_from map]. rewrite IH. unfold keeps. now rewrite Z.mod_1_r.
Qed.

(** X11. [max_labels] is no maximum.  For a positive [max_labels] the label
    thinner returns, and of a list of more than [max_labels] labels it
    keeps more than [max_labels]; the labels kept number at most twice
    [max_labels].  A list of fewer than twice [max_labels] labels comes
    back with every label kept. *)
Theorem thin_labels_count {A : Type} (labels : list A) (max_labels : Z) :
  0 < max_labels ->
  exists out,
    thin_labels labels max_labels = Ret out
    /\ Z.of_nat (kept_count out) <= 2 * max_labels
    /\ (max_labels < Z.of_nat (List.length labels) ->
        max_labels < Z.of_nat (kept_count out))
    /\ (Z.of_nat (List.length labels) < 2 * max_labels ->
        out = map Some labels /\ kept_count out = List.length labels).
Proof.
  intros Hmax.
  destruct (Z.le_gt_cases (Z.of_nat (List.length labels)) max_labels) as [Hle|Hgt].
  - exists (map Some labels). rewrite kept_count_all.
    split; [now apply thin_labels_short|]. split; [lia|]. split; [lia | now split].
  - eexists. split; [apply thin_labels_long; lia|].
    set (n := Z.of_nat (List.length labels)) in *.
    assert (Hq : 1 <= n / max_labels) by (apply Z.div_le_lower_bound; lia).
    rewrite Z.max_r by lia.
    set (q := n / max_labels) in *.
    assert (Hz : (0 + q - 1) / q = 0) by (apply Z.div_small; lia).
    pose proof (Z.div_mod n max_labels ltac:(lia)) as Hdm.
    pose proof (Z.mod_pos_bound n max_labels ltac:(lia)) as Hmb. fold q in Hdm.
    split; [|split].
    + pose proof (kept_count_from q (n - 1) labels Hq 0 ltac:(lia)) as Hc.
      fold n in Hc. unfold enumerate.
      assert (Hu : (0 + n + q - 1) / q < 2 * max_labels).
      { apply Z.div_lt_upper_bound; [lia|]. nia. }
      rewrite Hz in Hc.
      destruct ((0 <=? n - 1) && (n - 1 <? 0 + n)); lia.
    + intros _. pose proof (kept_count_from_ge q (n - 1) labels Hq 0 ltac:(lia)) as Hc.
      fold n in Hc. unfold enumerate. rewrite Hz in Hc.
      destruct (Z.leb_spec 0 (n - 1)); [|lia].
      destruct (Z.ltb_spec (n - 1) (0 + n)); [|lia]. cbn [andb] in Hc.
      destruct (Z.eq_dec (n mod max_labels) 0) as [Hex|Hex].
      * assert (Hq2 : 2 <= q) by nia.
        assert (Hc1 : (0 + n + q - 1) / q = max_labels).
        { symmetry. apply (Z.div_unique (0 + n + q - 1) q max_labels (q - 1)); lia. }
        assert (Hl : (n - 1) mod q = q - 1).
        { symmetry. apply (Z.mod_unique (n - 1) q (max_labels - 1) (q - 1)); lia. }
        rewrite Hc1, Hl in Hc.
        destruct (Z.eqb_spec (q - 1) 0); [lia|]. cbn [negb] in Hc. lia.
      * assert (Hc1 : max_labels + 1 <= (0 + n + q - 1) / q)
          by (apply Z.div_le_lower_bound; lia).
        destruct (negb ((n - 1) mod q =? 0)); lia.
    + intros Hlt. assert (Hq1 : q < 2) by (apply Z.div_lt_upper_bound; lia).
      replace q with 1 by lia. unfold enumerate. rewrite keeps_all.
      split; [reflexivity | apply kept_count_all].
Qed.

Lemma thin_labels_count_witness :
  (exists out,
     thin_labels hundred_labels 12 = Ret out
     /\ kept_count out = 14%nat
     /\ 12 < Z.of_nat (kept_count out) <= 2 * 12)
  /\ (exists out,
        thin_labels twenty_three_labels 12 = Ret out
        /\ out = map Some twenty_three_labels
        /\ kept_count out = 23%nat).
Proof.
  split.
  - destruct (thin_labels_count hundred_labels 12 ltac:(reflexivity))
      as (out & Hr & Hb & Hmore & _).
    exists out. split; [exact Hr|].
    split; [|split; [apply Hmore; reflexivity | exact Hb]].
    assert (E : Ret out = thin_labels hundred_labels 12) by (symmetry; exact Hr).
    vm_compute in E. injection E as ->. reflexivity.
  - destruct (thin_labels_count twenty_three_labels 12 ltac:(reflexivity))
      as (out & Hr & _ & _ & Hall).
    exists out. split; [exact Hr|]. exact (Hall ltac:(reflexivity)).
Defined.

(** ** The chart builder *)

Lemma thin_labels_aligned {A : Type} (labels : list A) (max_labels : Z) :
  max_labels <> 0 ->
  exists out,
    thin_labels labels max_labels = Ret out
    /\ List.length out = List.length labels
    /\ (forall i lbl, nth_error out i = Some (Some lbl) -> nth_error labels i = Some lbl).
Proof.
  intros Hmax.
  destruct (Z.le_gt_cases (Z.of_nat (List.length labels)) max_labels) as [Hle|Hgt].
  - exists (map Some labels). split; [now apply thin_labels_short|].
    split; [apply length_map|].
    intros i lbl. rewrite nth_error_map.
    destruct (nth_error labels i); cbn; congruence.
  - eexists. split; [apply thin_labels_long; [assumption | lia]|]. split.
    + unfold enumerate. now rewrite length_map, enumerate_from_length.
    + intros i lbl. rewrite thinned_nth.
      destruct (nth_error labels i) as [x|]; cbn [option_map]; [|discriminate].
      destruct (keeps _ _ _); congruence.
Qed.

(** X12. [make_chart] always reaches the renderer, and hands it a chart
    with one x label and one value per row, in the order of the rows; the
    major labels are as many, each either absent or the x label of its
    position; the chart is a line chart for the chart type [line] and a
    bar chart for every other. *)
Theorem make_chart_chart `{Host} (symbol ts_label chart_type : string) (rows : list row) :
  exists c,
    make_chart symbol ts_label chart_type rows = pygal_render c
    /\ x_labels _ c = map (fun r => strftime_ymd (fst r)) rows
    /\ series _ c = [("Close", map snd rows)]
    /\ List.length (x_labels_major _ c) = List.length rows
    /\ (forall i lbl, nth_error (x_labels_major _ c) i = Some (Some lbl) ->
                      nth_error (x_labels _ c) i = Some lbl)
    /\ (kind _ c = Line <-> chart_type = "line")
    /\ show_legend _ c = false /\ show_minor_x_labels _ c = false.
Proof.
  unfold make_chart.
  destruct (thin_labels_aligned (map (fun '(d, _) => strftime_ymd d) rows)
              default_max_labels ltac:(discriminate)) as (major & Hm & Hlen & Hal).
  rewrite Hm. cbn [bind]. eexists. split; [reflexivity|]. cbn.
  assert (E : map (fun '(d, _) => strftime_ymd d) rows
              = map (fun r : row => strftime_ymd (fst r)) rows)
    by (apply map_ext; now intros [d c]).
  split; [exact E|].
  split; [do 2 f_equal; apply map_ext; now intros [d c]|].
  split; [now rewrite Hlen, length_map|].
  split; [exact Hal|].
  split; [|split; reflexivity].
  destruct (String.eqb_spec chart_type "line"); split; congruence.
Qed.

(** ** [fetch_data] *)

Section FetchFacts.
Context `{Host}.

(** What [fetch_data] does, case by case of the answer. *)
Lemma fetch_data_cases (symbol fn : string) (w : world) :
  let after printed := MkWorld (stdin w) (events w ++ request symbol fn :: printed) in
  match requests_get API_URL (request_params symbol fn) 30 with
  | Raise e => fetch_data symbol fn w = (Raise e, after [])
  | Ret r =>
      if status_code r =? 200 then
        match response_json r with
        | Raise e => fetch_data symbol fn w = (Raise e, after [])
        | Ret data =>
            match py_contains "Error Message" data with
            | Raise e => fetch_data symbol fn w = (Raise e, after [])
            | Ret true =>
                match py_getitem data "Error Message" with
                | Raise e => fetch_data symbol fn w = (Raise e, after [])
                | Ret msg =>
                    fetch_data symbol fn w = (Raise exit_1, after [api_error_line msg])
                end
            | Ret false =>
                match py_contains "Note" data with
                | Raise e => fetch_data symbol fn w = (Raise e, after [])
                | Ret true => fetch_data symbol fn w = (Raise exit_1, after [rate_limit_line])
                | Ret false => fetch_data symbol fn w = (Ret data, after [])
                end
            end
        end
      else fetch_data symbol fn w = (Raise exit_1, after [status_line (status_code r)])
  end.
Proof.
  intros after. subst after.
  unfold fetch_data, request, request_params, sys_exit, exit_1.
  cbv [io_bind print emit lift io_ret stdin events].
  destruct (requests_get _ _ _) as [r|e]; [|reflexivity].
  destruct (status_code r =? 200); cbn [negb];
    [|now rewrite <- app_assoc].
  destruct (response_json r) as [data|e]; [|reflexivity].
  destruct (py_contains "Error Message" data) as [[|]|e]; [| |reflexivity].
  - destruct (py_getitem data "Error Message") as [msg|e]; [|reflexivity].
    now rewrite <- app_assoc.
  - destruct (py_contains "Note" data) as [[|]|e]; [| |reflexivity]; [|reflexivity].
    now rewrite <- app_assoc.
Qed.

End FetchFacts.

(** X13. [fetch_data] sends exactly one request, first and whatever the
    outcome: to the provider's address, with the function, the symbol, the
    API key, [datatype=json] and [outputsize=full]; after it at most one
    line is printed, and the input is left alone.  It returns only the
    decoded body of an answer with status 200 that holds neither an error
    message nor a note, having printed nothing; and whenever it prints, it
    exits. *)
Theorem fetch_data_one_request `{Host} (symbol fn : string) (w : world) :
  exists printed,
    snd (fetch_data symbol fn w)
    = MkWorld (stdin w) (events w ++ request symbol fn :: printed)
    /\ forallb console printed = true /\ (List.length printed <= 1)%nat
    /\ (forall data,
           fst (fetch_data symbol fn w) = Ret data ->
           printed = []
           /\ exists r, requests_get API_URL (request_params symbol fn) 30 = Ret r
                        /\ status_code r = 200 /\ response_json r = Ret data
                        /\ py_contains "Error Message" data = Ret false
                        /\ py_contains "Note" data = Ret false)
    /\ (printed <> [] -> fst (fetch_data symbol fn w) = Raise exit_1).
Proof.
  pose proof (fetch_data_cases symbol fn w) as Hc. cbv zeta in Hc.
  destruct (requests_get API_URL (request_params symbol fn) 30) as [r|e] eqn:Er.
  2:{ rewrite Hc. exists []. repeat split; cbn; try lia; try discriminate; congruence. }
  destruct (Z.eqb_spec (status_code r) 200) as [Hs|Hs].
  2:{ rewrite Hc. eexists. repeat split; cbn; try lia; try discriminate. }
  destruct (response_json r) as [data|e] eqn:Ej.
  2:{ rewrite Hc. exists []. repeat split; cbn; try lia; try discriminate; congruence. }
  destruct (py_contains "Error Message" data) as [[|]|e] eqn:E1.
  - destruct (py_getitem data "Error Message") as [msg|e];
      rewrite Hc; eexists; repeat split; cbn; try lia; try discriminate; congruence.
  - destruct (py_contains "Note" data) as [[|]|e] eqn:E2;
      rewrite Hc; eexists; repeat split; cbn; try lia; try discriminate; try congruence.
    cbn in H0. injection H0 as <-. exists r. repeat split; assumption.
  - rewrite Hc. exists []. repeat split; cbn; try lia; try discriminate; congruence.
Qed.

(** X14. The soft failures of [fetch_data] end the process: a status other
    than 200 prints the status, an answer that is a mapping with an
    ["Error Message"] prints that message (also when a ["Note"] stands
    beside it), an answer with a ["Note"] alone prints the rate-limit line;
    each then exits with [SystemExit], which is no [Exception].  An
    exception of the request itself is passed on, nothing printed. *)
Theorem fetch_data_soft_failures `{Host} (symbol fn : string) (w : world) :
  let after printed := MkWorld (stdin w) (events w ++ request symbol fn :: printed) in
  is_Exception exit_1 = false
  /\ (forall r, requests_get API_URL (request_params symbol fn) 30 = Ret r ->
                status_code r <> 200 ->
                fetch_data symbol fn w = (Raise exit_1, after [status_line (status_code r)]))
  /\ (forall r d msg,
         requests_get API_URL (request_params symbol fn) 30 = Ret r ->
         status_code r = 200 -> response_json r = Ret (JDict d) ->
         dict_get "Error Message" d = Some msg ->
         fetch_data symbol fn w = (Raise exit_1, after [api_error_line msg]))
  /\ (forall r d note,
         requests_get API_URL (request_params symbol fn) 30 = Ret r ->
         status_code r = 200 -> response_json r = Ret (JDict d) ->
         dict_get "Error Message" d = None -> dict_get "Note" d = Some note ->
         fetch_data symbol fn w = (Raise exit_1, after [rate_limit_line]))
  /\ (forall e, requests_get API_URL (request_params symbol fn) 30 = Raise e ->
                fetch_data symbol fn w = (Raise e, after [])).
Proof.
  intros after. pose proof (fetch_data_cases symbol fn w) as Hc. cbv zeta in Hc.
  split; [reflexivity|]. split; [|split; [|split]].
  - intros r Hr Hs. rewrite Hr in Hc.
    destruct (Z.eqb_spec (status_code r) 200); [contradiction | exact Hc].
  - intros r d msg Hr Hs Hj Hm. rewrite Hr, Hs, Hj in Hc. cbn in Hc.
    rewrite Hm in Hc. exact Hc.
  - intros r d note Hr Hs Hj Hm Hn. rewrite Hr, Hs, Hj in Hc. cbn in Hc.
    rewrite Hm, Hn in Hc. exact Hc.
  - intros e Hr. rewrite Hr in Hc. exact Hc.
Qed.

Lemma fetch_data_soft_failures_witness :
  fetch_data (H := answering not_found_answer) "IBM" "TIME_SERIES_DAILY" (MkWorld [] [])
  = (Raise exit_1,
     MkWorld [] [request (H := answering not_found_answer) "IBM" "TIME_SERIES_DAILY";
                 status_line 404])
  /\ fetch_data (H := answering error_answer) "IBM" "TIME_SERIES_DAILY" (MkWorld [] [])
     = (Raise exit_1,
        MkWorld [] [request (H := answering error_answer) "IBM" "TIME_SERIES_DAILY";
                    api_error_line (JStr "Invalid API call.")])
  /\ fetch_data (H := answering note_answer) "IBM" "TIME_SERIES_DAILY" (MkWorld [] [])
     = (Raise exit_1,
        MkWorld [] [request (H := answering note_answer) "IBM" "TIME_SERIES_DAILY";
                    rate_limit_line]).
Proof.
  split; [|split].
  - exact (proj1 (proj2 (fetch_data_soft_failures (H := answering not_found_answer)
                           "IBM" "TIME_SERIES_DAILY" (MkWorld [] [])))
             (MkResponse 404 (Ret JNull)) eq_refl ltac:(discriminate)).
  - exact (proj1 (proj2 (proj2 (fetch_data_soft_failures (H := answering error_answer)
                                  "IBM" "TIME_SERIES_DAILY" (MkWorld [] []))))
             _ _ (JStr "Invalid API call.") eq_refl eq_refl eq_refl eq_refl).
  - exact (proj1 (proj2 (proj2 (proj2 (fetch_data_soft_failures (H := answering note_answer)
                                         "IBM" "TIME_SERIES_DAILY" (MkWorld [] [])))))
             _ _ (JStr "slow down") eq_refl eq_refl eq_refl eq_refl eq_refl).
Defined.

(** ** [parse_close_series] on answers it cannot use *)

Section ParseFacts.
Context `{Host}.

(** What [parse_close_series] adds is console lines, at most one. *)
Lemma parse_close_series_adds (data : json pyfloat) (fn : string) (w : world) :
  exists printed,
    adds (parse_close_series data fn) w printed
    /\ forallb console printed = true
    /\ (forall rows, fst (parse_close_series data fn w) = Ret rows -> printed = []).
Proof.
  unfold adds, parse_close_series, sys_exit.
  cbv [io_bind print emit lift io_ret stdin events].
  destruct (series_key_for fn) as [key|e];
    [|exists []; cbn; rewrite app_nil_r; destruct w; repeat split; discriminate].
  destruct (py_contains key data) as [[|]|e]; cbn [negb];
    [ | |exists []; cbn; rewrite app_nil_r; destruct w; repeat split; discriminate].
  - destruct (py_getitem data key) as [sv|e];
      [|exists []; cbn; rewrite app_nil_r; destruct w; repeat split; discriminate].
    destruct (py_items sv) as [items|e];
      [|exists []; cbn; rewrite app_nil_r; destruct w; repeat split; discriminate].
    destruct (collect_rows items []) as [raw|e];
      exists []; cbn; rewrite app_nil_r; destruct w; repeat split; discriminate.
  - destruct (py_keys data) as [ks|e].
    + exists [missing_key_line ks]. cbn. repeat split; discriminate.
    + exists []. cbn. rewrite app_nil_r. destruct w. repeat split; discriminate.
Qed.

End ParseFacts.

(** X15. On an answer that is a mapping without the series key,
    [parse_close_series] prints the keys the answer does have and exits
    with [SystemExit]; on a function name [series_key_for] does not know it
    raises [ValueError] before looking at the answer, nothing printed. *)
Theorem parse_close_series_unusable_answer `{Host} (fn : string) (w : world) :
  (forall d key,
      series_key_for fn = Ret key -> dict_get key d = None ->
      parse_close_series (JDict d) fn w
      = (Raise exit_1, MkWorld (stdin w) (events w ++ [missing_key_line (map fst d)])))
  /\ (forall data e,
         series_key_for fn = Raise e ->
         parse_close_series data fn w = (Raise e, w) /\ exn_class e = ValueError).
Proof.
  split.
  - intros d key Hk Hn. unfold parse_close_series, sys_exit.
    cbv [io_bind print emit lift io_ret stdin events].
    rewrite Hk. cbn. rewrite Hn. reflexivity.
  - intros data e He. unfold parse_close_series.
    cbv [io_bind print emit lift io_ret stdin events]. rewrite He.
    split; [reflexivity|].
    unfold series_key_for in He.
    repeat match type of He with
           | (if ?b then _ else _) = _ => destruct b; [discriminate|]
           end.
    now injection He as <-.
Qed.

Lemma parse_close_series_unusable_answer_witness :
  parse_close_series (H := Demo.host) (JDict [("Information", JStr "premium endpoint")])
    "TIME_SERIES_DAILY" (Demo.typed [])
  = (Raise exit_1, MkWorld [] [missing_key_line (H := Demo.host) ["Information"]])
  /\ raises (fst (parse_close_series (H := Demo.host) Demo.daily_answer "TIME_SERIES_HOURLY"
                    (Demo.typed []))) ValueError.
Proof.
  pose proof (parse_close_series_unusable_answer (H := Demo.host) "TIME_SERIES_DAILY"
                (Demo.typed [])) as [Hmiss _].
  pose proof (parse_close_series_unusable_answer (H := Demo.host) "TIME_SERIES_HOURLY"
                (Demo.typed [])) as [_ Hfn].
  split; [exact (Hmiss [("Information", JStr "premium endpoint")] "Time Series (Daily)"
                   eq_refl eq_refl)|].
  destruct (Hfn Demo.daily_answer (MkExn ValueError "Unsupported function") eq_refl)
    as [Hr Hc].
  eexists. split; [now rewrite Hr | exact Hc].
Defined.

Section PipelineFacts.
Context `{Host}.

Lemma outside_console (l : list event) : forallb console l = true -> outside l = [].
Proof.
  unfold outside. induction l as [|e l IH]; [reflexivity|]. cbn [forallb filter].
  intros Hl. apply andb_true_iff in Hl as [He Hl]. rewrite He. cbn. now apply IH.
Qed.

Lemma outside_app (l1 l2 : list event) : outside (l1 ++ l2) = (outside l1 ++ outside l2)%list.
Proof. apply filter_app. Qed.

Lemma outside_request (symbol fn : string) (l : list event) :
  forallb console l = true -> outside (request symbol fn :: l) = [request symbol fn].
Proof. intros Hl. change (outside (request symbol fn :: l)) with (request symbol fn :: outside l). now rewrite outside_console. Qed.

Lemma world_eta (w : world) : MkWorld (stdin w) (events w ++ []) = w.
Proof. destruct w. cbn. now rewrite app_nil_r. Qed.

Lemma fetch_data_adds (symbol fn : string) (w : world) :
  exists printed,
    adds (fetch_data symbol fn) w (request symbol fn :: printed)
    /\ forallb console printed = true
    /\ (forall data, fst (fetch_data symbol fn w) = Ret data -> printed = []).
Proof.
  pose proof (fetch_data_cases symbol fn w) as Hc. cbv zeta in Hc. unfold adds.
  destruct (requests_get API_URL (request_params symbol fn) 30) as [r|e];
    [|rewrite Hc; exists []; repeat split; discriminate].
  destruct (status_code r =? 200);
    [|rewrite Hc; eexists; repeat split; discriminate].
  destruct (response_json r) as [data|e];
    [|rewrite Hc; exists []; repeat split; discriminate].
  destruct (py_contains "Error Message" data) as [[|]|e];
    [| |rewrite Hc; exists []; repeat split; discriminate].
  - destruct (py_getitem data "Error Message") as [msg|e];
      rewrite Hc; eexists; repeat split; discriminate.
  - destruct (py_contains "Note" data) as [[|]|e];
      rewrite Hc; eexists; repeat split; discriminate.
Qed.

Lemma fetch_data_fst (symbol fn : string) (w w' : world) :
  fst (fetch_data symbol fn w) = fst (fetch_data symbol fn w').
Proof.
  pose proof (fetch_data_cases symbol fn w) as Hc. cbv zeta in Hc.
  pose proof (fetch_data_cases symbol fn w') as Hc'. cbv zeta in Hc'.
  destruct (requests_get API_URL (request_params symbol fn) 30) as [r|e];
    [|now rewrite Hc, Hc'].
  destruct (status_code r =? 200); [|now rewrite Hc, Hc'].
  destruct (response_json r) as [data|e]; [|now rewrite Hc, Hc'].
  destruct (py_contains "Error Message" data) as [[|]|e]; [| |now rewrite Hc, Hc'].
  - destruct (py_getitem data "Error Message") as [msg|e]; now rewrite Hc, Hc'.
  - destruct (py_contains "Note" data) as [[|]|e]; now rewrite Hc, Hc'.
Qed.

Lemma parse_close_series_fst (data : json pyfloat) (fn : string) (w w' : world) :
  fst (parse_close_series data fn w) = fst (parse_close_series data fn w').
Proof.
  unfold parse_close_series, sys_exit.
  cbv [io_bind print emit lift io_ret stdin events].
  destruct (series_key_for fn) as [key|e]; [|reflexivity].
  destruct (py_contains key data) as [[|]|e]; cbn [negb]; [| |reflexivity].
  - destruct (py_getitem data key) as [sv|e]; [|reflexivity].
    destruct (py_items sv) as [items|e]; [|reflexivity].
    now destruct (collect_rows items []).
  - now destruct (py_keys data).
Qed.

Lemma save_and_open_cases (html_text symbol : string) (w : world) :
  match file_write (chart_file symbol) html_text with
  | Raise e => save_and_open html_text symbol w = (Raise e, w)
  | Ret _ =>
      save_and_open html_text symbol w
      = (webbrowser_open (browser_url symbol),
         MkWorld (stdin w)
           (events w ++ [EvWrite (chart_file symbol) html_text; EvOpen (browser_url symbol)]))
  end.
Proof.
  unfold save_and_open, chart_file, browser_url.
  cbv [io_bind print emit lift io_ret stdin events].
  destruct (file_write _ _); [|reflexivity]. now rewrite <- app_assoc.
Qed.

Lemma run_pipeline_effects (symbol chart_type time_series start_date end_date : string)
  (w : world) :
  exists new,
    adds (run_pipeline symbol chart_type time_series start_date end_date) w new
    /\ (outside new = []
        \/ (exists fn, function_for time_series = Ret fn /\ outside new = [request symbol fn])
        \/ (exists fn html,
               function_for time_series = Ret fn
               /\ charted symbol chart_type time_series start_date end_date w html
               /\ outside new = chart_effects symbol fn html))
    /\ (forall fn, function_for time_series = Ret fn ->
                   exists tail, new = request symbol fn :: tail).
Proof.
  unfold run_pipeline.
  destruct (function_for time_series) as [fn|e] eqn:Ef.
  2:{ exists []. split; [unfold adds; cbn; now rewrite world_eta|].
      split; [now left | discriminate]. }
  destruct (fetch_data_adds symbol fn w) as (p1 & Ha1 & Hc1 & Hr1).
  unfold adds in *. cbv [io_bind lift] in *.
  assert (Hone : forall l, forallb console l = true ->
             (outside (request symbol fn :: l) = []
              \/ (exists fn0, Ret fn = Ret fn0
                              /\ outside (request symbol fn :: l) = [request symbol fn0])
              \/ (exists fn0 html,
                     Ret fn = Ret fn0
                     /\ charted symbol chart_type time_series start_date end_date w html
                     /\ outside (request symbol fn :: l) = chart_effects symbol fn0 html))
             /\ (forall fn0, Ret fn = Ret fn0 ->
                             exists tail, request symbol fn :: l = request symbol fn0 :: tail)).
  { intros l Hl. split.
    - right; left. exists fn. split; [reflexivity | now apply outside_request].
    - intros fn0 [= <-]. now exists l. }
  destruct (fetch_data symbol fn w) as [[data|e] w1] eqn:Efd; cbn [snd fst] in *.
  2:{ exists (request symbol fn :: p1). split; [exact Ha1 | now apply Hone]. }
  rewrite (Hr1 data eq_refl) in *. subst w1. clear Hr1 Hc1 p1.
  set (w1 := MkWorld (stdin w) (events w ++ [request symbol fn])).
  destruct (parse_close_series_adds data fn w1) as (p2 & Ha2 & Hc2 & Hr2).
  unfold adds in Ha2.
  destruct (parse_close_series data fn w1) as [[rows|e] w2] eqn:Ep; cbn [snd fst] in *.
  2:{ exists (request symbol fn :: p2). subst w2. cbn [stdin events w1].
      split; [now rewrite <- app_assoc | now apply Hone]. }
  rewrite (Hr2 rows eq_refl) in Ha2. subst w2. cbn [stdin events w1]. rewrite app_nil_r.
  fold w1. clear Hr2 Hc2 p2.
  destruct (to_date start_date) as [start_d|e] eqn:Es;
    [|exists [request symbol fn]; split; [reflexivity | now apply Hone]].
  destruct (to_date end_date) as [end_d|e] eqn:Ee;
    [|exists [request symbol fn]; split; [reflexivity | now apply Hone]].
  destruct (filter_range rows start_d end_d) as [|r0 rs] eqn:Efr.
  { eexists (request symbol fn :: [_]). split; [cbn; now rewrite <- app_assoc | now apply Hone]. }
  destruct (make_chart symbol (str_title time_series) chart_type (r0 :: rs)) as [svg|e] eqn:Em;
    [|exists [request symbol fn]; split; [reflexivity | now apply Hone]].
  fold (page_title_of symbol time_series start_date end_date).
  destruct (wrap_html svg (page_title_of symbol time_series start_date end_date))
    as [html|e] eqn:Eh;
    [|exists [request symbol fn]; split; [reflexivity | now apply Hone]].
  pose proof (save_and_open_cases html symbol w1) as Hs.
  destruct (file_write (chart_file symbol) html) as [[]|e];
    [|rewrite Hs; exists [request symbol fn]; split; [reflexivity | now apply Hone]].
  rewrite Hs. cbn [stdin events w1].
  assert (Hch : charted symbol chart_type time_series start_date end_date w html).
  { exists fn, data, rows, start_d, end_d, svg. rewrite Ef, Efd, Efr.
    rewrite (parse_close_series_fst data fn w w1), Ep.
    repeat split; try assumption; try reflexivity. discriminate. }
  destruct (webbrowser_open (browser_url symbol)) as [[]|e].
  - eexists (chart_effects symbol fn html ++ [_])%list. split; [|split].
    + cbn. now rewrite <- !app_assoc.
    + right; right. exists fn, html. split; [reflexivity|]. split; [exact Hch | reflexivity].
    + intros fn0 [= <-]. eexists. reflexivity.
  - exists (chart_effects symbol fn html). split; [|split].
    + cbn. now rewrite <- !app_assoc.
    + right; right. exists fn, html. split; [reflexivity|]. split; [exact Hch | reflexivity].
    + intros fn0 [= <-]. eexists. reflexivity.
Qed.

End PipelineFacts.

Section MainFacts.
Context `{Host}.

Lemma try_except_report (body : io unit) (w : world) (new : list event) :
  adds body w new ->
  exists tail,
    adds (try_except body report) w (new ++ tail)
    /\ forallb console tail = true
    /\ (forall e, fst (try_except body report w) = Raise e -> is_Exception e = false)
    /\ (fst (body w) = Ret tt -> tail = [] /\ fst (try_except body report w) = Ret tt).
Proof.
  unfold adds, try_except, report, print, emit.
  destruct (body w) as [[[]|e] w'] eqn:Eb; cbn [snd fst]; intros ->.
  - exists []. rewrite app_nil_r. repeat split; discriminate.
  - destruct (is_Exception e) eqn:Ee.
    + eexists [_]. cbn. rewrite <- app_assoc. repeat split; discriminate.
    + exists []. rewrite app_nil_r. cbn. repeat split; try discriminate. now intros e' [= <-].
Qed.

Lemma prompts_assoc (evs : list event) (a b c d e f : event) :
  ((((((evs ++ [a]) ++ [b]) ++ [c]) ++ [d]) ++ [e]) ++ [f] = evs ++ [a; b; c; d; e; f])%list.
Proof. now rewrite <- !app_assoc. Qed.

(** [main] on five lines that pass its tests is the pipeline under the
    handler, run after the prompts. *)
Lemma main_accepted (l1 l2 l3 l4 l5 : string) (rest : list string) (evs : list event) :
  accepted l2 l3 l4 l5 = true ->
  main (MkWorld (l1 :: l2 :: l3 :: l4 :: l5 :: rest) evs)
  = try_except (run_pipeline (str_upper l1) (str_lower l2) (str_upper l3) l4 l5) report
      (MkWorld rest (evs ++ prompts)).
Proof.
  unfold accepted. intros Ha.
  destruct (validate_date l4) as [[|]|] eqn:E4; try discriminate.
  destruct (validate_date l5) as [[|]|] eqn:E5; try discriminate.
  apply andb_true_iff in Ha as [Ha Hg]. apply andb_true_iff in Ha as [Hgt Hc].
  apply negb_true_iff in Hgt.
  unfold main. cbv [io_bind input print emit lift io_ret stdin events].
  rewrite E4, E5. cbn [negb orb]. rewrite Hgt, Hc. fold granularities. rewrite Hg.
  cbn [negb]. rewrite prompts_assoc. reflexivity.
Qed.

Lemma main_rejected (l1 l2 l3 l4 l5 : string) (rest : list string) (evs : list event) :
  accepted l2 l3 l4 l5 = false ->
  exists msg,
    main (MkWorld (l1 :: l2 :: l3 :: l4 :: l5 :: rest) evs)
    = (Ret tt, MkWorld rest (evs ++ prompts ++ [EvPrint [PStr msg]])).
Proof.
  unfold accepted. intros Ha.
  unfold main. cbv [io_bind input print emit lift io_ret stdin events].
  rewrite prompts_assoc. fold granularities.
  destruct (validate_date_total l4) as [E4|E4]; rewrite E4 in *;
    [|eexists; cbn; now rewrite <- app_assoc].
  destruct (validate_date_total l5) as [E5|E5]; rewrite E5 in *;
    [|eexists; cbn; now rewrite <- app_assoc].
  cbn [negb orb].
  destruct (Text.str_gt l4 l5); [eexists; cbn; now rewrite <- app_assoc|].
  destruct (Text.mem (str_lower l2) ["line"; "bar"]);
    [|eexists; cbn; now rewrite <- app_assoc].
  destruct (Text.mem (str_upper l3) granularities); [discriminate|].
  eexists; cbn; now rewrite <- app_assoc.
Qed.

Lemma main_short_raises (lines : list string) (evs : list event) :
  (List.length lines < 5)%nat ->
  raises (fst (main (MkWorld lines evs))) EOFError.
Proof.
  intros Hl.
  destruct lines as [|l1 [|l2 [|l3 [|l4 [|l5 rest]]]]];
    try (simpl in Hl; lia); unfold main;
    cbv [io_bind input print emit lift io_ret stdin events];
    eexists; split; reflexivity.
Qed.

End MainFacts.

Section MainEffects.
Context `{Host}.

Lemma function_for_known (ts : string) :
  Text.mem ts granularities = true -> exists fn, function_for ts = Ret fn.
Proof.
  unfold Text.mem, granularities, function_for. cbn [existsb].
  destruct (ts =? "DAILY")%string; [eauto|].
  destruct (ts =? "WEEKLY")%string; [eauto|].
  destruct (ts =? "MONTHLY")%string; [eauto | discriminate].
Qed.

Lemma accepted_granularity (l2 l3 l4 l5 : string) :
  accepted l2 l3 l4 l5 = true -> Text.mem (str_upper l3) granularities = true.
Proof.
  unfold accepted.
  destruct (validate_date l4) as [[|]|]; try discriminate.
  destruct (validate_date l5) as [[|]|]; try discriminate.
  intros Ha. now apply andb_true_iff in Ha as [_ Hg].
Qed.

Lemma charted_any_world (symbol chart_type time_series start_date end_date html : string)
  (w w' : world) :
  charted symbol chart_type time_series start_date end_date w html ->
  charted symbol chart_type time_series start_date end_date w' html.
Proof.
  intros (fn & data & rows & sd & ed & svg & Hf & Hd & Hp & Hrest).
  exists fn, data, rows, sd, ed, svg. split; [exact Hf|].
  split; [now rewrite (fetch_data_fst symbol fn w' w)|].
  split; [now rewrite (parse_close_series_fst data fn w' w) | exact Hrest].
Qed.

(** The run of five accepted lines: the request first, then what the
    pipeline and the handler add. *)
Lemma main_accepted_effects (l1 l2 l3 l4 l5 : string) (rest : list string)
  (evs : list event) :
  accepted l2 l3 l4 l5 = true ->
  let w := MkWorld (l1 :: l2 :: l3 :: l4 :: l5 :: rest) evs in
  exists fn new,
    function_for (str_upper l3) = Ret fn
    /\ snd (main w) = MkWorld rest (evs ++ prompts ++ request (str_upper l1) fn :: new)
    /\ (outside (request (str_upper l1) fn :: new) = [request (str_upper l1) fn]
        \/ exists html,
            charted (str_upper l1) (str_lower l2) (str_upper l3) l4 l5 w html
            /\ outside (request (str_upper l1) fn :: new)
               = chart_effects (str_upper l1) fn html)
    /\ (forall e, fst (main w) = Raise e -> is_Exception e = false).
Proof.
  intros Ha w.
  destruct (function_for_known _ (accepted_granularity _ _ _ _ Ha)) as [fn Hf].
  unfold w. rewrite (main_accepted l1 l2 l3 l4 l5 rest evs Ha).
  set (wp := MkWorld rest (evs ++ prompts)).
  destruct (run_pipeline_effects (str_upper l1) (str_lower l2) (str_upper l3) l4 l5 wp)
    as (new0 & Hadd & Hshape & Hhead).
  destruct (Hhead fn Hf) as [tail0 ->].
  destruct (try_except_report _ wp _ Hadd) as (tail & Hadd' & Hct & Hexc & _).
  exists fn, (tail0 ++ tail)%list. split; [exact Hf|]. split; [|split].
  - unfold adds in Hadd'. rewrite Hadd'. unfold wp. cbn [stdin events].
    now rewrite <- !app_assoc.
  - change (request (str_upper l1) fn :: tail0 ++ tail)%list
      with ((request (str_upper l1) fn :: tail0) ++ tail)%list.
    rewrite outside_app, (outside_console tail Hct), app_nil_r.
    destruct Hshape as [Hs|[(fn0 & Hf0 & Hs)|(fn0 & html & Hf0 & Hc & Hs)]].
    + discriminate.
    + left. rewrite Hs. congruence.
    + right. exists html. split; [now apply (charted_any_world _ _ _ _ _ _ wp)|].
      rewrite Hs. congruence.
  - exact Hexc.
Qed.

(** What any run adds beyond the console. *)
Lemma main_effects_shape (w : world) :
  exists new,
    events (snd (main w)) = (events w ++ new)%list
    /\ (outside new = []
        \/ exists l1 l2 l3 l4 l5 rest fn,
            stdin w = l1 :: l2 :: l3 :: l4 :: l5 :: rest
            /\ function_for (str_upper l3) = Ret fn
            /\ (outside new = [request (str_upper l1) fn]
                \/ exists html,
                    charted (str_upper l1) (str_lower l2) (str_upper l3) l4 l5 w html
                    /\ outside new = chart_effects (str_upper l1) fn html)).
Proof.
  destruct w as [lines evs].
  destruct (Nat.lt_ge_cases (List.length lines) 5) as [Hl|Hl].
  { destruct (main_short_input lines evs Hl) as (new & He & Hc).
    exists new. split; [exact He | left; now apply outside_console]. }
  destruct lines as [|l1 [|l2 [|l3 [|l4 [|l5 rest]]]]]; try (simpl in Hl; lia).
  destruct (accepted l2 l3 l4 l5) eqn:Ha.
  - destruct (main_accepted_effects l1 l2 l3 l4 l5 rest evs Ha)
      as (fn & new & Hf & Hw & Hshape & _).
    exists (prompts ++ request (str_upper l1) fn :: new)%list.
    split; [now rewrite Hw|]. right.
    exists l1, l2, l3, l4, l5, rest, fn. split; [reflexivity|]. split; [exact Hf|].
    rewrite outside_app. exact Hshape.
  - destruct (main_rejected l1 l2 l3 l4 l5 rest evs Ha) as [msg Hm].
    exists (prompts ++ [EvPrint [PStr msg]])%list. rewrite Hm. split; [reflexivity | now left].
Qed.

End MainEffects.

(** X16. When the two dates are typed in ASCII characters, [main] sends the
    request exactly when what was typed passes its four tests (both dates
    accepted by [validate_date], the start text not greater than the end
    text, the chart type [line] or [bar] in lower case, the granularity one
    of the three in upper case).  Then the request, for the symbol in upper
    case and the function of the granularity, is the first thing after the
    prompts; otherwise the run prints one message after the prompts and
    returns. *)
Theorem main_requests_iff_accepted `{Host} (l1 l2 l3 l4 l5 : string) (rest : list string)
  (evs : list event) :
  ascii_text l4 = true -> ascii_text l5 = true ->
  exists new,
    snd (main (MkWorld (l1 :: l2 :: l3 :: l4 :: l5 :: rest) evs))
    = MkWorld rest (evs ++ prompts ++ new)
    /\ (accepted l2 l3 l4 l5 = true ->
        exists fn tail, function_for (str_upper l3) = Ret fn
                        /\ new = request (str_upper l1) fn :: tail)
    /\ (accepted l2 l3 l4 l5 = false ->
        fst (main (MkWorld (l1 :: l2 :: l3 :: l4 :: l5 :: rest) evs)) = Ret tt
        /\ exists msg, new = [EvPrint [PStr msg]]).
Proof.
  intros _ _. destruct (accepted l2 l3 l4 l5) eqn:Ha.
  - destruct (main_accepted_effects l1 l2 l3 l4 l5 rest evs Ha)
      as (fn & new & Hf & Hw & _ & _).
    exists (request (str_upper l1) fn :: new). split; [exact Hw|].
    split; [intros _; now exists fn, new | discriminate].
  - destruct (main_rejected l1 l2 l3 l4 l5 rest evs Ha) as [msg Hm].
    exists [EvPrint [PStr msg]]. rewrite Hm. split; [reflexivity|].
    split; [discriminate | intros _; split; [reflexivity | now exists msg]].
Qed.

Lemma main_requests_iff_accepted_witness :
  (exists tail,
     snd (main (H := Demo.host) (MkWorld chart_lines []))
     = MkWorld [] ([] ++ prompts ++ request "IBM" "TIME_SERIES_DAILY" :: tail))
  /\ (exists msg,
        fst (main (H := Demo.host)
               (MkWorld ["ibm"; "line"; "daily"; "2020-02-30"; "2020-03-01"] [])) = Ret tt
        /\ snd (main (H := Demo.host)
                  (MkWorld ["ibm"; "line"; "daily"; "2020-02-30"; "2020-03-01"] []))
           = MkWorld [] ([] ++ prompts ++ [EvPrint [PStr msg]])).
Proof.
  split.
  - destruct (main_requests_iff_accepted (H := Demo.host)
                "ibm" "Line" "daily" "2020-01-01" "2020-01-31" [] [] eq_refl eq_refl)
      as (new & Hw & Hacc & _).
    destruct (Hacc eq_refl) as (fn & tail & Hf & ->).
    exists tail. injection Hf as <-. exact Hw.
  - destruct (main_requests_iff_accepted (H := Demo.host)
                "ibm" "line" "daily" "2020-02-30" "2020-03-01" [] [] eq_refl eq_refl)
      as (new & Hw & _ & Hrej).
    destruct (Hrej eq_refl) as (Hr & msg & ->).
    exists msg. split; [exact Hr | exact Hw].
Defined.


(** X18. [main] ends by raising only when the input runs out before the
    fifth line ([EOFError]) or when something that is no [Exception], as
    the [SystemExit] of [sys.exit], comes up from the pipeline: every
    [Exception] raised after the tests is caught and reported. *)
Theorem main_raises_only `{Host} (w : world) :
  ((List.length (stdin w) < 5)%nat -> raises (fst (main w)) EOFError)
  /\ (forall e, fst (main w) = Raise e ->
                is_Exception e = false
                \/ (exn_class e = EOFError /\ (List.length (stdin w) < 5)%nat)).
Proof.
  destruct w as [lines evs]. cbn [stdin]. split; [apply main_short_raises|].
  intros e He.
  destruct (Nat.lt_ge_cases (List.length lines) 5) as [Hl|Hl].
  { right. destruct (main_short_raises lines evs Hl) as (e' & He' & Hc).
    split; [congruence | exact Hl]. }
  destruct lines as [|l1 [|l2 [|l3 [|l4 [|l5 rest]]]]]; try (simpl in Hl; lia).
  destruct (accepted l2 l3 l4 l5) eqn:Ha.
  - left. destruct (main_accepted_effects l1 l2 l3 l4 l5 rest evs Ha)
      as (fn & new & _ & _ & _ & Hexc).
    now apply Hexc.
  - destruct (main_rejected l1 l2 l3 l4 l5 rest evs Ha) as [msg Hm].
    rewrite Hm in He. discriminate.
Qed.

(** X19. A start date that is after the end date never gives a chart:
    when the dates the two texts are read as are in that order, the run
    writes no file and calls no browser, whether or not the texts passed
    the date-order test. *)
Theorem inverted_range_no_chart `{Host} (w : world) (l1 l2 l3 l4 l5 : string)
  (rest : list string) (start_d end_d : date) :
  stdin w = l1 :: l2 :: l3 :: l4 :: l5 :: rest ->
  to_date l4 = Ret start_d -> to_date l5 = Ret end_d ->
  date_le start_d end_d = false ->
  exists new,
    events (snd (main w)) = (events w ++ new)%list
    /\ (outside new = [] \/ exists fn, outside new = [request (str_upper l1) fn]).
Proof.
  intros Hin Hs He Hinv.
  destruct (main_effects_shape w) as (new & Hev & Hshape).
  exists new. split; [exact Hev|].
  destruct Hshape as [Hn|(a1 & a2 & a3 & a4 & a5 & r & fn & Hin' & Hf & [Hr|(html & Hc & _)])].
  - now left.
  - rewrite Hin in Hin'. injection Hin' as <- <- <- <- <- <-. right. now exists fn.
  - exfalso. rewrite Hin in Hin'. injection Hin' as <- <- <- <- <- <-.
    destruct Hc as (fn' & data & rows & sd & ed & svg & _ & _ & _ & Hsd & Hed & Hne & _).
    rewrite Hs in Hsd. rewrite He in Hed. injection Hsd as <-. injection Hed as <-.
    apply Hne. now apply filter_range_inverted_nil.
Qed.

Lemma inverted_range_no_chart_witness :
  exists new,
    events (snd (main (H := Demo.host) Demo.october_run)) = ([] ++ new)%list
    /\ (outside (H := Demo.host) new = []
        \/ exists fn, outside (H := Demo.host) new = [request (H := Demo.host) "IBM" fn]).
Proof.
  exact (inverted_range_no_chart (H := Demo.host) Demo.october_run
           "ibm" "line" "daily" "2020-10-01" "2020-9-01" []
           (MkDate 2020 10 1) (MkDate 2020 9 1) eq_refl eq_refl eq_refl eq_refl).
Defined.

Section ChartRun.
Context `{Host}.

Lemma fetch_data_returned (symbol fn : string) (w w' : world) (data : json pyfloat) :
  fst (fetch_data symbol fn w') = Ret data ->
  fetch_data symbol fn w
  = (Ret data, MkWorld (stdin w) (events w ++ [request symbol fn])).
Proof.
  intros Hd. rewrite (fetch_data_fst symbol fn w' w) in Hd.
  destruct (fetch_data_adds symbol fn w) as (printed & Ha & _ & Hp).
  rewrite (Hp data Hd) in Ha. unfold adds in Ha.
  destruct (fetch_data symbol fn w) as [r w1]. cbn [fst snd] in *. now subst.
Qed.

Lemma parse_close_series_returned (data : json pyfloat) (fn : string) (w w' : world)
  (rows : list row) :
  fst (parse_close_series data fn w') = Ret rows ->
  parse_close_series data fn w = (Ret rows, w).
Proof.
  intros Hr. rewrite (parse_close_series_fst data fn w' w) in Hr.
  destruct (parse_close_series_adds data fn w) as (printed & Ha & _ & Hp).
  rewrite (Hp rows Hr) in Ha. unfold adds in Ha. rewrite world_eta in Ha.
  destruct (parse_close_series data fn w) as [r w1]. cbn [fst snd] in *. now subst.
Qed.

Lemma run_pipeline_chart (symbol chart_type time_series start_date end_date html : string)
  (w : world) :
  charted symbol chart_type time_series start_date end_date w html ->
  file_write (chart_file symbol) html = Ret tt ->
  webbrowser_open (browser_url symbol) = Ret tt ->
  exists fn,
    function_for time_series = Ret fn
    /\ run_pipeline symbol chart_type time_series start_date end_date w
       = (Ret tt,
          MkWorld (stdin w) (events w ++ chart_effects symbol fn html ++ [chart_done])).
Proof.
  intros (fn & data & rows & sd & ed & svg & Hf & Hd & Hp & Hs & He & Hne & Hm & Hh) Hw Hb.
  exists fn. split; [exact Hf|].
  unfold run_pipeline. cbv [io_bind lift]. rewrite Hf.
  rewrite (fetch_data_returned symbol fn w w data Hd).
  rewrite (parse_close_series_returned data fn _ w rows Hp).
  rewrite Hs, He.
  destruct (filter_range rows sd ed) as [|r0 rs] eqn:Efr; [contradiction|].
  rewrite Hm. fold (page_title_of symbol time_series start_date end_date). rewrite Hh.
  pose proof (save_and_open_cases html symbol
                (MkWorld (stdin w) (events w ++ [request symbol fn]))) as Hso.
  rewrite Hw in Hso. rewrite Hso, Hb. unfold print, emit, chart_done. cbn.
  now rewrite <- !app_assoc.
Qed.

End ChartRun.

(** X20. When what was typed passes the tests of [main], the page of the
    chart of the rows in range exists, and writing the file and calling the
    browser succeed, the run returns having sent the request, written the
    page to [<SYMBOL>_chart.html], called the browser on that file and
    printed that the chart was generated, in this order and nothing else
    after the prompts. *)
Theorem main_makes_chart `{Host} (l1 l2 l3 l4 l5 : string) (rest : list string)
  (evs : list event) (html : string) :
  let w := MkWorld (l1 :: l2 :: l3 :: l4 :: l5 :: rest) evs in
  accepted l2 l3 l4 l5 = true ->
  charted (str_upper l1) (str_lower l2) (str_upper l3) l4 l5 w html ->
  file_write (chart_file (str_upper l1)) html = Ret tt ->
  webbrowser_open (browser_url (str_upper l1)) = Ret tt ->
  exists fn,
    function_for (str_upper l3) = Ret fn
    /\ main w
       = (Ret tt,
          MkWorld rest
            (evs ++ prompts ++ chart_effects (str_upper l1) fn html ++ [chart_done])).
Proof.
  intros w Ha Hc Hw Hb. unfold w.
  rewrite (main_accepted l1 l2 l3 l4 l5 rest evs Ha).
  set (wp := MkWorld rest (evs ++ prompts)).
  apply (charted_any_world _ _ _ _ _ _ _ wp) in Hc.
  destruct (run_pipeline_chart _ _ _ _ _ _ wp Hc Hw Hb) as (fn & Hf & Hr).
  exists fn. split; [exact Hf|].
  unfold try_except. rewrite Hr. unfold wp. cbn [stdin events].
  now rewrite <- !app_assoc.
Qed.

Lemma main_makes_chart_witness :
  main (H := Demo.host) chart_run
  = (Ret tt,
     MkWorld []
       ([] ++ prompts (H := Demo.host)
        ++ chart_effects (H := Demo.host) "IBM" "TIME_SERIES_DAILY" chart_page
        ++ [chart_done])).
Proof.
  assert (Hc : charted (H := Demo.host) "IBM" "line" "DAILY" "2020-01-01" "2020-01-31"
                 chart_run chart_page).
  { exists "TIME_SERIES_DAILY", Demo.daily_answer, Demo.daily_rows,
      (MkDate 2020 1 1), (MkDate 2020 1 31), "<svg/>".
    repeat split; try reflexivity. discriminate. }
  destruct (main_makes_chart (H := Demo.host) "ibm" "Line" "daily" "2020-01-01" "2020-01-31"
              [] [] chart_page eq_refl Hc eq_refl eq_refl) as (fn & Hf & Hm).
  injection Hf as <-. exact Hm.
Defined.

Section FailedRun.
Context `{Host}.

Lemma parse_close_series_missing (d : list (string * json pyfloat)) (fn key : string)
  (w : world) :
  series_key_for fn = Ret key -> dict_get key d = None ->
  parse_close_series (JDict d) fn w
  = (Raise exit_1, MkWorld (stdin w) (events w ++ [missing_key_line (map fst d)])).
Proof.
  intros Hk Hn. unfold parse_close_series, sys_exit.
  cbv [io_bind print emit lift io_ret stdin events].
  rewrite Hk. cbn. rewrite Hn. reflexivity.
Qed.

Lemma run_pipeline_unusable (symbol chart_type time_series start_date end_date fn : string)
  (r : response pyfloat) (w : world) :
  function_for time_series = Ret fn ->
  requests_get API_URL (request_params symbol fn) 30 = Ret r ->
  (status_code r <> 200 ->
   run_pipeline symbol chart_type time_series start_date end_date w
   = (Raise exit_1,
      MkWorld (stdin w) (events w ++ [request symbol fn; status_line (status_code r)])))
  /\ (forall d key,
         status_code r = 200 -> response_json r = Ret (JDict d) ->
         dict_get "Error Message" d = None -> dict_get "Note" d = None ->
         series_key_for fn = Ret key -> dict_get key d = None ->
         run_pipeline symbol chart_type time_series start_date end_date w
         = (Raise exit_1,
            MkWorld (stdin w) (events w ++ [request symbol fn; missing_key_line (map fst d)]))).
Proof.
  intros Hf Hr.
  pose proof (fetch_data_cases symbol fn w) as Hc. cbv zeta in Hc.
  rewrite Hr in Hc. unfold run_pipeline. cbv [io_bind lift]. rewrite Hf.
  split.
  - intros Hs. destruct (Z.eqb_spec (status_code r) 200); [contradiction|].
    cbv beta iota in Hc. now rewrite Hc.
  - intros d key Hs Hj He Hn Hk Hd.
    assert (E1 : py_contains "Error Message" (JDict d : json pyfloat) = Ret false)
      by (cbn [py_contains]; now rewrite He).
    assert (E2 : py_contains "Note" (JDict d : json pyfloat) = Ret false)
      by (cbn [py_contains]; now rewrite Hn).
    rewrite Hs, Hj, E1, E2 in Hc. change (200 =? 200) with true in Hc.
    cbv beta iota in Hc. rewrite Hc.
    rewrite (parse_close_series_missing d fn key _ Hk Hd). cbn [stdin events].
    now rewrite <- !app_assoc.
Qed.

End FailedRun.

(** X21. After accepted input, an answer [main] cannot use ends the
    process instead of being reported as an error: with a status other than
    200 the run prints the status after the request and exits; with an
    answer of status 200 that is a mapping with no error message, no note
    and no series under the key of the granularity, it prints the keys the
    answer has and exits.  Nothing is written, and "Something went wrong" is
    not printed. *)
Theorem main_exits_on_unusable_answer `{Host} (l1 l2 l3 l4 l5 : string)
  (rest : list string) (evs : list event) (fn : string) (r : response pyfloat) :
  let w := MkWorld (l1 :: l2 :: l3 :: l4 :: l5 :: rest) evs in
  accepted l2 l3 l4 l5 = true ->
  function_for (str_upper l3) = Ret fn ->
  requests_get API_URL (request_params (str_upper l1) fn) 30 = Ret r ->
  (status_code r <> 200 ->
   main w = (Raise exit_1,
             MkWorld rest (evs ++ prompts ++ [request (str_upper l1) fn;
                                              status_line (status_code r)])))
  /\ (forall d key,
         status_code r = 200 -> response_json r = Ret (JDict d) ->
         dict_get "Error Message" d = None -> dict_get "Note" d = None ->
         series_key_for fn = Ret key -> dict_get key d = None ->
         main w = (Raise exit_1,
                   MkWorld rest (evs ++ prompts ++ [request (str_upper l1) fn;
                                                    missing_key_line (map fst d)]))).
Proof.
  intros w Ha Hf Hr. unfold w. rewrite (main_accepted l1 l2 l3 l4 l5 rest evs Ha).
  destruct (run_pipeline_unusable (str_upper l1) (str_lower l2) (str_upper l3) l4 l5 fn r
              (MkWorld rest (evs ++ prompts)) Hf Hr) as [Hbad Hmiss].
  unfold try_except. split.
  - intros Hs. rewrite (Hbad Hs). cbn. now rewrite <- app_assoc.
  - intros d key Hs Hj He Hn Hk Hd. rewrite (Hmiss d key Hs Hj He Hn Hk Hd). cbn.
    now rewrite <- app_assoc.
Qed.

Lemma main_exits_on_unusable_answer_witness :
  main (H := answering not_found_answer) (MkWorld chart_lines [])
  = (Raise exit_1,
     MkWorld [] ([] ++ prompts (H := answering not_found_answer)
                 ++ [request (H := answering not_found_answer) "IBM" "TIME_SERIES_DAILY";
                     status_line 404]))
  /\ main (H := answering keyless_answer) (MkWorld chart_lines [])
     = (Raise exit_1,
        MkWorld [] ([] ++ prompts (H := answering keyless_answer)
                    ++ [request (H := answering keyless_answer) "IBM" "TIME_SERIES_DAILY";
                        missing_key_line ["Information"]])).
Proof.
  split.
  - exact (proj1 (main_exits_on_unusable_answer (H := answering not_found_answer)
                    "ibm" "Line" "daily" "2020-01-01" "2020-01-31" [] []
                    "TIME_SERIES_DAILY" (MkResponse 404 (Ret JNull))
                    eq_refl eq_refl eq_refl) ltac:(discriminate)).
  - exact (proj2 (main_exits_on_unusable_answer (H := answering keyless_answer)
                    "ibm" "Line" "daily" "2020-01-01" "2020-01-31" [] []
                    "TIME_SERIES_DAILY"
                    (MkResponse 200 (Ret (JDict [("Information", JStr "premium endpoint")])))
                    eq_refl eq_refl eq_refl)
             [("Information", JStr "premium endpoint")] "Time Series (Daily)"
             eq_refl eq_refl eq_refl eq_refl eq_refl eq_refl).
Defined.
